(** * API-Scraper: the table extraction and normalisation engine of [app.py]

    A shallow embedding of the scraping pipeline of [src/app.py]:
    [WebScraper.find_data_table], [WebScraper.extract_table_data],
    [WebScraper.run_scraping], [WebScraper.clean_data] and the
    [transform_dados] methods of the five [Site...Scraper] classes.

    Conventions of the embedding.
    - A Python [str] is the list of its Unicode code points ([pystr]).
    - A cell of a pandas frame is a [value]: a string, an integer or a
      missing value ([None] and NaN are not told apart; the program treats
      them alike).  A frame is its list of column labels together with its
      rows, each row a finite map from labels to values; a label absent
      from a row reads as missing, which is how [pd.concat] fills the
      columns a fetch did not have.  Column labels of a frame are taken to
      be distinct; pandas' treatment of repeated labels is not modelled.
      Strings are of dtype object, as in the pandas the program was
      written for.
    - Python exceptions are values of [exn]; a computation that may raise
      returns a [result].
    - The HTML document is abstracted to what the code reads from it and
      to what BeautifulSoup compares: the class tokens and the text of
      cells, the rows of a table and the rows of its footers.
    - The libraries the program calls are not part of the repository.
      The [unidecode] tables are a parameter ([Transliteration]); the HTTP
      transport and the HTML parser are a parameter ([Web]); the numeric
      parser of pandas is modelled on the texts described at
      [to_numeric]. *)

From stdpp Require Import gmap list strings.
From Stdlib Require Import ZArith NArith DecimalString.
From Stdlib Require DecimalPos.

Open Scope N_scope.

(** ** Python strings *)

Abbreviation pystr := (list N).

(** An ASCII literal as a Python string. *)
Definition lit (s : string) : pystr :=
  (λ a, Ascii.N_of_ascii a) <$> String.list_ascii_of_string s.
#[global] Arguments lit : simpl never.

(** [str.isspace] on one code point: the Unicode white space that
    [str.strip] removes. *)
Definition isspace (c : N) : bool :=
  ((9 <=? c) && (c <=? 13)) || ((28 <=? c) && (c <=? 32))
  || (c =? 133) || (c =? 160) || (c =? 5760)
  || ((8192 <=? c) && (c <=? 8202))
  || (c =? 8232) || (c =? 8233) || (c =? 8239) || (c =? 8287)
  || (c =? 12288).

Fixpoint drop_while (p : N → bool) (s : pystr) : pystr :=
  match s with
  | [] => []
  | c :: s' => if p c then drop_while p s' else s
  end.

(** Removal of the leading and of the trailing code points that satisfy
    [p]. *)
Definition strip_of (p : N → bool) (s : pystr) : pystr :=
  reverse (drop_while p (reverse (drop_while p s))).

(** [str.strip()] *)
Definition strip (s : pystr) : pystr := strip_of isspace s.

(** [str.upper()].  In [app.py] it is only ever applied to the result of
    [unidecode], which is ASCII, so the ASCII letters are all it sees. *)
Definition upper_char (c : N) : N :=
  if (97 <=? c) && (c <=? 122) then c - 32 else c.

Definition upper (s : pystr) : pystr := upper_char <$> s.

Definition is_ascii (c : N) : Prop := c < 128.

(** The transliteration tables of the [unidecode] package: one ASCII
    string per non-ASCII code point. *)
Class Transliteration := {
  translit : N → pystr;
  translit_ascii : ∀ c, Forall is_ascii (translit c)
}.

(** [unidecode(text)]: ASCII code points are kept, every other code point
    is replaced by its table entry. *)
Definition unidecode `{Transliteration} (text : pystr) : pystr :=
  c ← text; if c <? 128 then [c] else translit c.

(** The entries of the package's tables for the accented vowels, the C
    with cedilla and the N with tilde of the Latin-1 block, and for the
    hyphens and dashes U+2010 to U+2013.  Code points outside this
    fragment are given the empty string. *)
Definition unidecode_table (c : N) : pystr :=
  if (192 <=? c) && (c <=? 197) then lit "A"
  else if c =? 199 then lit "C"
  else if (200 <=? c) && (c <=? 203) then lit "E"
  else if (204 <=? c) && (c <=? 207) then lit "I"
  else if c =? 209 then lit "N"
  else if (210 <=? c) && (c <=? 214) then lit "O"
  else if (217 <=? c) && (c <=? 220) then lit "U"
  else if (224 <=? c) && (c <=? 229) then lit "a"
  else if c =? 231 then lit "c"
  else if (232 <=? c) && (c <=? 235) then lit "e"
  else if (236 <=? c) && (c <=? 239) then lit "i"
  else if c =? 241 then lit "n"
  else if (242 <=? c) && (c <=? 246) then lit "o"
  else if (249 <=? c) && (c <=? 252) then lit "u"
  else if (8208 <=? c) && (c <=? 8211) then lit "-"
  else [].

#[export] Instance unidecode_tables : Transliteration.
Proof.
  refine {| translit := unidecode_table |}.
  intros c. unfold unidecode_table.
  repeat case_match; repeat constructor; unfold is_ascii; lia.
Defined.

(** ** Cell values *)

Inductive value :=
  | VStr (s : pystr)
  | VInt (z : Z)
  | VNaN.

#[export] Instance value_eq_dec : EqDecision value.
Proof. solve_decision. Defined.

Definition is_str (v : value) : bool :=
  match v with VStr _ => true | _ => false end.

(** The two placeholder texts that [normalize_text] rewrites to "0". *)
Definition sentinel (s : pystr) : Prop := s = lit "-" ∨ s = lit "*".

#[export] Instance sentinel_dec (s : pystr) : Decision (sentinel s).
Proof. unfold sentinel. apply _. Defined.

(** A text as [normalize_text] leaves it: ASCII, without lower-case
    letters. *)
Definition normalized (v : value) : Prop :=
  ∃ t, v = VStr t ∧ Forall is_ascii t ∧ upper t = t.

(** The nested function [normalize_text] of [WebScraper.clean_data]; the
    five [transform_dados] methods carry textually identical copies. *)
Definition normalize_text `{Transliteration} (text : value) : value :=
  match text with
  | VStr s =>
      if bool_decide (strip s = lit "-") || bool_decide (strip s = lit "*")
      then VStr (lit "0")
      else VStr (upper (unidecode s))
  | _ => text
  end.

(** ** Exceptions *)

Inductive exn :=
  | IndexError
  | KeyError
  | ValueError
  | AttributeError
  | NotImplementedError
  | RequestException.

Inductive result (A : Type) :=
  | Ok (a : A)
  | Raise (e : exn).
Arguments Ok {A} a.
Arguments Raise {A} e.

#[export] Instance result_ret : MRet result := λ A, Ok.
#[export] Instance result_bind : MBind result := λ A B f m,
  match m with Ok a => f a | Raise e => Raise e end.
#[export] Instance result_fmap : FMap result := λ A B f m,
  match m with Ok a => Ok (f a) | Raise e => Raise e end.

(** A [for] loop whose body may raise: the state is threaded through the
    items in order and the first exception ends the loop. *)
Fixpoint for_each {S B} (body : S → B → result S) (items : list B) (st : S)
    : result S :=
  match items with
  | [] => Ok st
  | b :: items' => st' ← body st b; for_each body items' st'
  end.

(** [l[0]] *)
Definition index0 {A} (l : list A) : result A :=
  match l with
  | [] => Raise IndexError
  | x :: _ => Ok x
  end.

(** [d[key]] on a dict *)
Definition getitem {V} (d : gmap (list N) V) (key : pystr) : result V :=
  match d !! key with
  | Some v => Ok v
  | None => Raise KeyError
  end.

(** ** Numeric coercion of a column *)

(** [str(z)] for a Python [int] *)
Definition str_of_Z (z : Z) : pystr :=
  lit (NilEmpty.string_of_int (Z.to_int z)).

(** One cell of [Series.astype(str)], for a column of texts or of
    integers.  (In a column that mixes integers with missing values
    pandas holds floats, which print with a decimal point; such columns
    are outside the statements below.) *)
Definition astype_str (v : value) : value :=
  match v with
  | VStr s => VStr s
  | VInt z => VStr (str_of_Z z)
  | VNaN => VStr (lit "nan")
  end.

(** One cell of [Series.str.replace('.', '')]: the pattern is a single
    character, which pandas replaces literally. *)
Definition str_replace_dot (v : value) : value :=
  match v with
  | VStr s => VStr (filter (λ c, c ≠ 46) s)
  | _ => VNaN
  end.

Definition digit (c : N) : option Z :=
  if (48 <=? c) && (c <=? 57) then Some (Z.of_N (c - 48)) else None.

Fixpoint digits (acc : Z) (s : pystr) : option Z :=
  match s with
  | [] => Some acc
  | c :: s' => d ← digit c; digits (10 * acc + d)%Z s'
  end.

(** The blanks the numeric parser skips around a literal. *)
Definition isblank (c : N) : bool := ((9 <=? c) && (c <=? 13)) || (c =? 32).

(** An integer literal: an optional sign and one or more decimal digits,
    possibly surrounded by blanks. *)
Definition parse_int (s : pystr) : option Z :=
  match strip_of isblank s with
  | [] => None
  | c :: ds =>
      if c =? 45 then (if ds is [] then None else Z.opp <$> digits 0 ds)
      else if c =? 43 then (if ds is [] then None else digits 0 ds)
      else digits 0 (c :: ds)
  end.

(** [str.lower()] on the ASCII letters. *)
Definition lower_char (c : N) : N :=
  if (65 <=? c) && (c <=? 90) then c + 32 else c.

(** The spellings of infinity the numeric parser accepts: "inf" or
    "infinity" in any case, with an optional sign. *)
Definition spells_infinity (s : pystr) : bool :=
  let name := lower_char <$> match s with
                             | c :: s' => if (c =? 43) || (c =? 45) then s' else s
                             | [] => []
                             end in
  bool_decide (name = lit "inf") || bool_decide (name = lit "infinity").

(** A cell of a numeric column: an integer, the missing value NaN, or a
    float that is not finite. *)
Inductive number :=
  | Finite (z : Z)
  | Missing
  | NonFinite.

(** One cell of [pd.to_numeric(..., errors='coerce')].  The pandas parser
    is not part of the repository.  It is modelled on the integer
    literals, which it returns as integers, and on the spellings of
    infinity, which it returns as a float; every other text becomes NaN.
    The further numerals pandas reads (exponent forms) and the 64-bit
    width of its integers are not modelled. *)
Definition to_numeric (v : value) : number :=
  match v with
  | VStr s =>
      match parse_int s with
      | Some z => Finite z
      | None => if spells_infinity s then NonFinite else Missing
      end
  | VInt z => Finite z
  | VNaN => Missing
  end.

(** One cell of [Series.fillna(0)] *)
Definition fillna0 (x : number) : number :=
  match x with Missing => Finite 0 | _ => x end.

(** One cell of [Series.astype(int)]: pandas refuses to cast a missing or
    a non-finite value. *)
Definition astype_int (x : number) : result value :=
  match x with
  | Finite z => Ok (VInt z)
  | Missing | NonFinite => Raise ValueError
  end.

(** ** Frames *)

Abbreviation record := (gmap (list N) value).

Record DataFrame := {
  columns : list pystr;
  records : list record
}.

(** The value of a row under a label; an absent label reads as NaN. *)
Definition cell (r : record) (c : pystr) : value := default VNaN (r !! c).

(** [pd.DataFrame()] *)
Definition empty_DataFrame : DataFrame := {| columns := []; records := [] |}.

(** [pd.DataFrame(rows, columns=headers)] for a list of lists of strings:
    short rows are padded with missing values, and the widest row must
    have exactly one entry per header. *)
Definition new_DataFrame (rows : list (list pystr)) (headers : list pystr)
    : result DataFrame :=
  if bool_decide (rows = [])
     || bool_decide (max_list (length <$> rows) = length headers)
  then Ok {| columns := headers;
             records := (λ row, list_to_map (zip headers (VStr <$> row))) <$> rows |}
  else Raise ValueError.

(** [df[c] = v] for a scalar [v] *)
Definition assign_scalar (c : pystr) (v : value) (df : DataFrame) : DataFrame :=
  {| columns := if bool_decide (c ∈ columns df) then columns df
                else columns df ++ [c];
     records := (λ r, <[c := v]> r) <$> records df |}.

(** [pd.concat([a, b], ignore_index=True)] *)
Definition concat (a b : DataFrame) : DataFrame :=
  {| columns := columns a ++ filter (λ c, c ∉ columns a) (columns b);
     records := records a ++ records b |}.

(** [df[c] = df[c].map(f)] (also the cell-wise Series methods): [KeyError]
    when the frame has no column [c]. *)
Definition map_column (f : value → value) (c : pystr) (df : DataFrame)
    : result DataFrame :=
  if bool_decide (c ∈ columns df)
  then Ok {| columns := columns df;
             records := (λ r, <[c := f (cell r c)]> r) <$> records df |}
  else Raise KeyError.

(** The same for a cell-wise operation that may raise. *)
Definition mapM_column (f : value → result value) (c : pystr) (df : DataFrame)
    : result DataFrame :=
  if bool_decide (c ∈ columns df)
  then rs ← mapM (λ r, v ← f (cell r c); Ok (<[c := v]> r)) (records df);
       Ok {| columns := columns df; records := rs |}
  else Raise KeyError.

(** [df.select_dtypes(include='object')]: the labels of the columns of
    dtype object.  pandas infers that dtype for a column that holds a
    string. *)
Definition select_dtypes_object (df : DataFrame) : list pystr :=
  filter (λ c, Exists (λ r, is_str (cell r c)) (records df)) (columns df).

(** [df.rename(columns={old: new})]; a frame without the label [old] is
    left as it is. *)
Definition rename (old new : pystr) (df : DataFrame) : DataFrame :=
  {| columns := (λ c, if bool_decide (c = old) then new else c) <$> columns df;
     records := (λ r, match r !! old with
                      | Some v => <[new := v]> (delete old r)
                      | None => r
                      end) <$> records df |}.

(** [df[cols]] for a list of labels: [KeyError] when one is missing. *)
Definition select_columns (cols : list pystr) (df : DataFrame) : result DataFrame :=
  if bool_decide (cols ⊆ columns df)
  then Ok {| columns := cols;
             records := (λ r : record, filter (λ kv, kv.1 ∈ cols) r) <$> records df |}
  else Raise KeyError.

(** [df.loc[mask]] for a row-wise mask *)
Definition loc (mask : record → bool) (df : DataFrame) : DataFrame :=
  {| columns := columns df; records := List.filter mask (records df) |}.

(** [df.drop(columns=[c])] *)
Definition drop_column (c : pystr) (df : DataFrame) : result DataFrame :=
  if bool_decide (c ∈ columns df)
  then Ok {| columns := filter (λ c', c' ≠ c) (columns df);
             records := delete c <$> records df |}
  else Raise KeyError.

(** ** The parsed document *)

(** A [td] element: the tokens of its [class] attribute (none when the
    attribute is absent, as in [cell.get('class', [])]), its text, and
    whatever else it carries (further attributes, nested markup), which
    the scraper does not read but the comparison of tags sees. *)
Record Td := {
  td_class : list string;
  td_text : pystr;
  td_other : pystr
}.

(** A [tr] element: the [td] elements below it and whatever else it
    carries. *)
Record Tr := {
  tds : list Td;
  tr_other : pystr
}.

(** A [tfoot] element with the [tr] elements below it. *)
Record Tfoot := {
  tfoot_class : list string;
  tfoot_trs : list Tr
}.

(** A [table] element: its class tokens, the texts of its [th] elements,
    all its [tr] elements and all its [tfoot] elements, each in document
    order.  The rows of a footer are also rows of the table. *)
Record Table := {
  table_class : list string;
  ths : list pystr;
  trs : list Tr;
  tfoots : list Tfoot
}.

(** A parsed page: its [table] elements in document order. *)
Abbreviation Soup := (list Table).

#[export] Instance Td_eq_dec : EqDecision Td.
Proof. solve_decision. Defined.
#[export] Instance Tr_eq_dec : EqDecision Tr.
Proof. solve_decision. Defined.

(** ** WebScraper *)

(** [soup.find('table', class_='tb_base tb_dados')]: the first table whose
    class attribute is exactly that string, [None] when there is none. *)
Definition find_data_table (soup : Soup) : option Table :=
  head (filter (λ t, table_class t = ["tb_base"; "tb_dados"]%string) soup).

(** [table.find('tfoot', class_='tb_total')] *)
Definition find_footer (table : Table) : option Tfoot :=
  head (filter (λ f, "tb_total"%string ∈ tfoot_class f) (tfoots table)).

(** [footer and row in footer.find_all('tr')].  Membership in a Python
    list is by [==], and two tags are [==] when they have the same name,
    attributes and contents: a row counts as a footer row when it equals
    one of the footer's rows. *)
Definition in_footer (footer : option Tfoot) (row : Tr) : bool :=
  match footer with
  | Some f => bool_decide (row ∈ tfoot_trs f)
  | None => false
  end.

(** The variables of the row loop of [extract_table_data]. *)
Record ExtractState := {
  current_classification : pystr;
  second_last_item : pystr;
  rows : list (list pystr)
}.

(** [[cell.text.strip() for cell in cells]] *)
Definition cell_texts (cells : list Td) : list pystr :=
  (λ cell, strip (td_text cell)) <$> cells.

(** [if classification_button: row_data.append(classification_button)] *)
Definition append_button (classification_button : pystr) (row_data : list pystr)
    : list pystr :=
  if bool_decide (classification_button ≠ [])
  then row_data ++ [classification_button] else row_data.

(** The body of the row loop. *)
Definition extract_row (footer : option Tfoot) (classification_button : pystr)
    (st : ExtractState) (row : Tr) : result ExtractState :=
  let cells := tds row in
  let row_data := cell_texts cells in
  '(row_data, current, second) ←
    (if in_footer footer row then
       Ok (row_data ++ [lit "Total"], current_classification st, second_last_item st)
     else
       cell0 ← index0 cells;
       if bool_decide ("tb_item"%string ∈ td_class cell0) then
         current ← index0 row_data;
         Ok (row_data ++ [current], current, current)
       else if bool_decide ("tb_subitem"%string ∈ td_class cell0) then
         Ok (row_data ++ [second_last_item st],
             current_classification st, second_last_item st)
       else
         Ok (row_data ++ [[]], current_classification st, second_last_item st));
  let row_data := append_button classification_button row_data in
  Ok {| current_classification := current;
        second_last_item := second;
        rows := rows st ++ [row_data] |}.

Definition extract_init : ExtractState :=
  {| current_classification := []; second_last_item := []; rows := [] |}.

(** The row loop over [table.find_all('tr')[1:]]. *)
Definition extract_rows (table : Table) (classification_button : pystr)
    : result ExtractState :=
  for_each (extract_row (find_footer table) classification_button)
           (drop 1 (trs table)) extract_init.

Definition extract_headers (table : Table) (classification_button : pystr)
    : list pystr :=
  (strip <$> ths table) ++ [lit "Classification"]
  ++ (if bool_decide (classification_button ≠ []) then [lit "Button"] else []).

Definition extract_table_data (table : Table) (classification_button : pystr)
    : result DataFrame :=
  let headers := extract_headers table classification_button in
  st ← extract_rows table classification_button;
  new_DataFrame (rows st) headers.

(** The branch of the loop body a row takes, in the words of the
    specification; a row outside the footer that has no cell takes
    none. *)
Inductive RowKind := Total | Category | SubItem | Plain.

Definition row_kind (footer : option Tfoot) (row : Tr) : option RowKind :=
  if in_footer footer row then Some Total
  else match tds row with
       | [] => None
       | cell0 :: _ =>
           if bool_decide ("tb_item"%string ∈ td_class cell0) then Some Category
           else if bool_decide ("tb_subitem"%string ∈ td_class cell0) then Some SubItem
           else Some Plain
       end.

(** The label of a row: the text of its first cell. *)
Definition label (row : Tr) : pystr := default [] (head (cell_texts (tds row))).

(** The classification a row of each kind is given in a state of the
    loop, and the state the row leaves. *)
Definition classification (kind : RowKind) (st : ExtractState) (row : Tr) : pystr :=
  match kind with
  | Total => lit "Total"
  | Category => label row
  | SubItem => second_last_item st
  | Plain => []
  end.

Definition extract_next (kind : RowKind) (classification_button : pystr)
    (st : ExtractState) (row : Tr) : ExtractState :=
  let carried s := match kind with Category => label row | _ => s end in
  {| current_classification := carried (current_classification st);
     second_last_item := carried (second_last_item st);
     rows := rows st ++ [append_button classification_button
                           (cell_texts (tds row) ++ [classification kind st row])] |}.

(** The label the loop carries after a list of rows: the label of the
    last category row, the empty string when there is none. *)
Definition carried_label (footer : option Tfoot) (l : list Tr) : pystr :=
  foldl (λ carried row, match row_kind footer row with
                        | Some Category => label row
                        | _ => carried
                        end) [] l.

(** A frame with distinct labels whose rows hold values under these
    labels only. *)
Definition well_formed (df : DataFrame) : Prop :=
  NoDup (columns df)
  ∧ Forall (λ r : record, ∀ c, c ∉ columns df → r !! c = None) (records df).

(** The loop [for column in df.select_dtypes(include='object'):
    df[column] = df[column].map(normalize_text)], which [clean_data] and
    every [transform_dados] run. *)
Definition normalize_columns `{Transliteration} (df : DataFrame) : result DataFrame :=
  for_each (λ df column, map_column normalize_text column df)
           (select_dtypes_object df) df.

(** What that loop does to one row, for the list of labels it visits. *)
Definition normalize_record `{Transliteration} (cs : list pystr) (r : record) : record :=
  foldl (λ r c, <[c := normalize_text (cell r c)]> r) r cs.

(** [WebScraper.clean_data] *)
Definition clean_data `{Transliteration} (data : DataFrame) : result DataFrame :=
  normalize_columns data.

(** A button and the parameters of a request are dicts of strings. *)
Abbreviation Button := (gmap (list N) (list N)).
Abbreviation Params := (gmap (list N) value).

(** The HTTP transport and the HTML parser, which the scraper calls but
    does not define: [requests.get(url, params).content] after
    [raise_for_status()], and [BeautifulSoup(html, 'html.parser')]. *)
Class Web := {
  html : Type;
  requests_get : pystr → Params → result html;
  BeautifulSoup : html → Soup
}.

(** The methods a scraper class has to supply, which [run_scraping]
    calls.  (The five [Site...Scraper] classes of [app.py] define
    [get_params] and [get_botoes], names that [run_scraping] does not
    call.) *)
Class Scraper := {
  base_url : pystr;
  years : list Z;
  create_parameters : Z → option Button → result Params;
  get_buttons : result (list Button)
}.

(** [WebScraper] itself leaves both methods unimplemented. *)
Definition WebScraper (url : pystr) (ys : list Z) : Scraper :=
  {| base_url := url;
     years := ys;
     create_parameters := λ _ _, Raise NotImplementedError;
     get_buttons := Raise NotImplementedError |}.

Section run_scraping.
Context `{Transliteration} `{Web} `{Scraper}.

Definition get_html_content (url : pystr) (parameters : Params) : result html :=
  requests_get url parameters.

Definition parse_html (html_content : html) : Soup :=
  BeautifulSoup html_content.

(** The body of the loop over the buttons, lines 97 to 106. *)
Definition scrape_button (year : Z) (data : DataFrame) (button : Button)
    : result DataFrame :=
  params ← create_parameters year (Some button);
  html_content ← get_html_content base_url params;
  let soup := parse_html html_content in
  match find_data_table soup with
  | Some table =>
      classification_button ← getitem button (lit "classification_button");
      df ← extract_table_data table classification_button;
      let df := assign_scalar (lit "Year") (VInt year) df in
      Ok (concat data df)
  | None =>
      (* the message printed names [button["value"]] *)
      _ ← getitem button (lit "value");
      Ok data
  end.

(** The branch for a scraper without buttons, lines 108 to 117. *)
Definition scrape_year (year : Z) (data : DataFrame) : result DataFrame :=
  params ← create_parameters year None;
  html_content ← get_html_content base_url params;
  let soup := parse_html html_content in
  match find_data_table soup with
  | Some table =>
      df ← extract_table_data table [];
      let df := assign_scalar (lit "Year") (VInt year) df in
      Ok (concat data df)
  | None => Ok data
  end.

(** The body of the loop over the years. *)
Definition scrape_years_body (data : DataFrame) (year : Z) : result DataFrame :=
  button_iterable ← get_buttons;
  if bool_decide (button_iterable ≠ [])
  then for_each (scrape_button year) button_iterable data
  else scrape_year year data.

(** The accumulation of [run_scraping], before [clean_data]. *)
Definition accumulate (data : DataFrame) : result DataFrame :=
  for_each scrape_years_body years data.

Definition run_scraping (data : DataFrame) : result DataFrame :=
  data ← accumulate data;
  clean_data data.

(** The fetches of a run in the order of the two loops, each a year
    with a button or, for a scraper without buttons, a year alone. *)
Definition targets (ys : list Z) (buttons : list Button)
    : list (Z * option Button) :=
  year ← ys;
  if bool_decide (buttons ≠ [])
  then (λ button, (year, Some button)) <$> buttons
  else [(year, None)].

Definition scrape_target (data : DataFrame) (target : Z * option Button)
    : result DataFrame :=
  match target.2 with
  | Some button => scrape_button target.1 data button
  | None => scrape_year target.1 data
  end.

(** The frame one fetch contributes: what it appends to an empty
    frame. *)
Definition fetch (target : Z * option Button) : result DataFrame :=
  scrape_target empty_DataFrame target.

(** In the words of the specification: the records of a fetch, stamped
    with the year before they are appended.  A target whose request is
    answered gives the records of the frame extracted from the data
    table of the page, under the label of the button when there is one,
    each with the year under 'Year'; it gives no record when the page
    has no data table. *)
Definition stamp (year : Z) (recs : list record) : list record :=
  (λ r, <[lit "Year" := VInt year]> r) <$> recs.

Definition fetched (target : Z * option Button) (recs : list record) : Prop :=
  ∃ params page,
    create_parameters target.1 target.2 = Ok params
    ∧ get_html_content base_url params = Ok page
    ∧ match find_data_table (parse_html page), target.2 with
      | Some table, Some button =>
          ∃ label df,
            button !! lit "classification_button" = Some label
            ∧ extract_table_data table label = Ok df
            ∧ recs = stamp target.1 (records df)
      | Some table, None =>
          ∃ df, extract_table_data table [] = Ok df
                ∧ recs = stamp target.1 (records df)
      | None, Some button => is_Some (button !! lit "value") ∧ recs = []
      | None, None => recs = []
      end.
End run_scraping.

(** ** The transformations of the five dataset kinds *)

Definition Paises : pystr := lit "Pa" ++ [237] ++ lit "ses".
Definition Classificacao : pystr := lit "Classifica" ++ [231; 227] ++ lit "o".
Definition Sem_definicao : pystr := lit "Sem defini" ++ [231; 227] ++ lit "o".
Definition TOTAL : value := VStr (lit "TOTAL").

(** [df[c] = df[c].astype(str).str.replace('.', '')] *)
Definition remove_separators (c : pystr) (df : DataFrame) : result DataFrame :=
  map_column (λ v, str_replace_dot (astype_str v)) c df.

(** [df[c] = pd.to_numeric(df[c], errors='coerce').fillna(0).astype(int)],
    cell by cell.  pandas converts the column as a whole and goes
    through floating point when a cell is missing or is no integer; the
    cell-wise reading is exact for a column of integer literals of the
    64-bit range, and it raises, as pandas does, when a cell spells
    infinity. *)
Definition to_integers (c : pystr) (df : DataFrame) : result DataFrame :=
  mapM_column (λ v, astype_int (fillna0 (to_numeric v))) c df.

(** The numeric coercion of one cell, both statements together. *)
Definition coerce (v : value) : result value :=
  astype_int (fillna0 (to_numeric (str_replace_dot (astype_str v)))).

(** [df[dst] = df[src]] for a label [dst] the frame does not have yet *)
Definition copy_column (src dst : pystr) (df : DataFrame) : DataFrame :=
  {| columns := columns df ++ [dst];
     records := (λ r, <[dst := cell r src]> r) <$> records df |}.

(** [mask = df[src].notna() & df[dst].isna(); df.loc[mask, dst] =
    df.loc[mask, src]] *)
Definition fill_missing (src dst : pystr) (df : DataFrame) : DataFrame :=
  {| columns := columns df;
     records := (λ r, if bool_decide (cell r src ≠ VNaN)
                         && bool_decide (cell r dst = VNaN)
                      then <[dst := cell r src]> r else r) <$> records df |}.

(** A button as the Site classes write it. *)
Definition botao_dict (name value classificacao_botao : string) : Button :=
  list_to_map [(lit "name", lit name); (lit "value", lit value);
               (lit "classificacao_botao", lit classificacao_botao)].

(** [get_params] of the three classes with buttons (the three copies are
    identical): the year, and the button's parameter when [botao] is
    neither [None] nor an empty dict. *)
Definition get_params_botao (ano : Z) (botao : option Button) : result Params :=
  let params : Params := {[ lit "ano" := VInt ano ]} in
  match botao with
  | Some b =>
      if bool_decide (b ≠ ∅) then
        value ← getitem b (lit "value");
        name ← getitem b (lit "name");
        Ok (<[name := VStr value]> params)
      else Ok params
  | None => Ok params
  end.

(** [get_botoes] of these classes: the button the scraper was built
    with, or else the buttons of the page. *)
Definition get_botoes_or (botoes : list Button) (botao : option Button)
    : list Button :=
  match botao with
  | Some b => if bool_decide (b ≠ ∅) then [b] else botoes
  | None => botoes
  end.

(** [WebScraper] defines no [transform_dados]; the method that three of
    the classes call through [super()] is a parameter of their
    transformations. *)

Module SiteExportacaoScraper.
Section transform.
Context `{Transliteration}.
Variable super_transform_dados : DataFrame → result DataFrame.

Definition transform_dados (dados : DataFrame) : result DataFrame :=
  dados ← super_transform_dados dados;
  dados ← normalize_columns dados;
  let dados := rename (lit "Quantidade (Kg)") (lit "Quantidade") dados in
  dados ← remove_separators (lit "Quantidade") dados;
  dados ← to_integers (lit "Quantidade") dados;
  dados ← remove_separators (lit "Valor (US$)") dados;
  dados ← to_integers (lit "Valor (US$)") dados;
  let colunas := [Paises; lit "Ano"; lit "Quantidade"; lit "Valor (US$)"; lit "Botao"] in
  dados ← select_columns colunas dados;
  Ok (loc (λ r, bool_decide (cell r Paises ≠ TOTAL)
                || bool_decide (cell r Paises ≠ TOTAL)) dados).
End transform.

Definition get_params := get_params_botao.

Definition botoes : list Button :=
  [ botao_dict "subopcao" "subopt_01" "VINHOS DE MESA";
    botao_dict "subopcao" "subopt_02" "ESPUMANTES";
    botao_dict "subopcao" "subopt_03" "UVAS FRESCAS";
    botao_dict "subopcao" "subopt_04" "SUCO DE UVA" ].

Definition get_botoes := get_botoes_or botoes.
End SiteExportacaoScraper.

Module SiteImportacaoScraper.
Section transform.
Context `{Transliteration}.
Variable super_transform_dados : DataFrame → result DataFrame.

Definition transform_dados (dados : DataFrame) : result DataFrame :=
  dados ← super_transform_dados dados;
  dados ← normalize_columns dados;
  let dados := rename (lit "Quantidade (Kg)") (lit "Quantidade") dados in
  dados ← remove_separators (lit "Quantidade") dados;
  dados ← to_integers (lit "Quantidade") dados;
  dados ← remove_separators (lit "Valor (US$)") dados;
  dados ← to_integers (lit "Valor (US$)") dados;
  let colunas := [Paises; lit "Ano"; lit "Quantidade"; lit "Valor (US$)"; lit "Botao"] in
  dados ← select_columns colunas dados;
  Ok (loc (λ r, bool_decide (cell r Paises ≠ TOTAL)
                || bool_decide (cell r Paises ≠ TOTAL)) dados).
End transform.

Definition get_params := get_params_botao.

Definition botoes : list Button :=
  [ botao_dict "subopcao" "subopt_01" "VINHOS DE MESA";
    botao_dict "subopcao" "subopt_02" "ESPUMANTES";
    botao_dict "subopcao" "subopt_03" "UVAS FRESCAS";
    botao_dict "subopcao" "subopt_04" "UVAS PASSAS";
    botao_dict "subopcao" "subopt_05" "SUCO DE UVA" ].

Definition get_botoes := get_botoes_or botoes.
End SiteImportacaoScraper.

Module SiteProcessamentoScraper.
Section transform.
Context `{Transliteration}.
Variable super_transform_dados : DataFrame → result DataFrame.

Definition transform_dados (dados : DataFrame) : result DataFrame :=
  dados ← super_transform_dados dados;
  let dados :=
    if bool_decide (lit "Cultivar" ∉ columns dados)
       && bool_decide (Classificacao ∈ columns dados)
    then copy_column Classificacao (lit "Cultivar") dados else dados in
  dados ←
    (if bool_decide (Sem_definicao ∈ columns dados) then
       let dados :=
         if bool_decide (lit "Cultivar" ∈ columns dados)
         then fill_missing Sem_definicao (lit "Cultivar") dados else dados in
       drop_column Sem_definicao dados
     else Ok dados);
  dados ← normalize_columns dados;
  let dados := rename (lit "Quantidade (Kg)") (lit "Quantidade") dados in
  dados ← remove_separators (lit "Quantidade") dados;
  dados ← to_integers (lit "Quantidade") dados;
  let colunas := [lit "Cultivar"; Classificacao; lit "Ano"; lit "Quantidade"; lit "Botao"] in
  dados ← select_columns colunas dados;
  Ok (loc (λ r, bool_decide (cell r (lit "Cultivar") ≠ TOTAL)
                || bool_decide (cell r Classificacao ≠ TOTAL)) dados).
End transform.

Definition get_params := get_params_botao.

Definition botoes : list Button :=
  [ botao_dict "subopcao" "subopt_01" "VINIFERAS";
    botao_dict "subopcao" "subopt_02" "AMERICANAS E HIBRIDAS";
    botao_dict "subopcao" "subopt_03" "UVAS DE MESA";
    botao_dict "subopcao" "subopt_04" "SEM CLASSIFICACAO" ].

Definition get_botoes := get_botoes_or botoes.
End SiteProcessamentoScraper.

Module SiteProducaoScraper.
Section transform.
Context `{Transliteration}.

Definition transform_dados (dados : DataFrame) : result DataFrame :=
  dados ← normalize_columns dados;
  let dados := rename (lit "Quantidade (L.)") (lit "Quantidade") dados in
  dados ← remove_separators (lit "Quantidade") dados;
  dados ← to_integers (lit "Quantidade") dados;
  let colunas := [lit "Produto"; Classificacao; lit "Ano"; lit "Quantidade"] in
  dados ← select_columns colunas dados;
  Ok (loc (λ r, bool_decide (cell r (lit "Produto") ≠ TOTAL)
                || bool_decide (cell r Classificacao ≠ TOTAL)) dados).
End transform.

Definition get_params (ano : Z) (botao : option Button) : result Params :=
  Ok {[ lit "ano" := VInt ano ]}.

Definition get_botoes (botao : option Button) : list Button := [].
End SiteProducaoScraper.

Module SiteComercializacaoScraper.
Section transform.
Context `{Transliteration}.

Definition transform_dados (dados : DataFrame) : result DataFrame :=
  dados ← normalize_columns dados;
  let dados := rename (lit "Quantidade (L.)") (lit "Quantidade") dados in
  dados ← remove_separators (lit "Quantidade") dados;
  dados ← to_integers (lit "Quantidade") dados;
  let colunas := [lit "Produto"; Classificacao; lit "Ano"; lit "Quantidade"] in
  dados ← select_columns colunas dados;
  Ok (loc (λ r, bool_decide (cell r (lit "Produto") ≠ TOTAL)
                || bool_decide (cell r Classificacao ≠ TOTAL)) dados).
End transform.

Definition get_params (ano : Z) (botao : option Button) : result Params :=
  Ok {[ lit "ano" := VInt ano ]}.

Definition get_botoes (botao : option Button) : list Button := [].
End SiteComercializacaoScraper.

(** The buttons of the three classes that have some. *)
Definition all_botoes : list Button :=
  SiteExportacaoScraper.botoes ++ SiteImportacaoScraper.botoes
  ++ SiteProcessamentoScraper.botoes.

(** The five dataset kinds and their transformations. *)
Inductive Kind := Exportacao | Importacao | Processamento | Producao | Comercializacao.

Definition transform_of `{Transliteration} (kind : Kind)
    (super_transform_dados : DataFrame → result DataFrame)
    : DataFrame → result DataFrame :=
  match kind with
  | Exportacao => SiteExportacaoScraper.transform_dados super_transform_dados
  | Importacao => SiteImportacaoScraper.transform_dados super_transform_dados
  | Processamento => SiteProcessamentoScraper.transform_dados super_transform_dados
  | Producao => SiteProducaoScraper.transform_dados
  | Comercializacao => SiteComercializacaoScraper.transform_dados
  end.

(** The list [colunas] of each [transform_dados], and the label its
    [rename] turns into 'Quantidade'. *)
Definition colunas (kind : Kind) : list pystr :=
  match kind with
  | Exportacao | Importacao =>
      [Paises; lit "Ano"; lit "Quantidade"; lit "Valor (US$)"; lit "Botao"]
  | Processamento =>
      [lit "Cultivar"; Classificacao; lit "Ano"; lit "Quantidade"; lit "Botao"]
  | Producao | Comercializacao =>
      [lit "Produto"; Classificacao; lit "Ano"; lit "Quantidade"]
  end.

Definition quantidade_label (kind : Kind) : pystr :=
  match kind with
  | Producao | Comercializacao => lit "Quantidade (L.)"
  | _ => lit "Quantidade (Kg)"
  end.

(** The mask of the last statement of each [transform_dados]. *)
Definition not_total (kind : Kind) (r : record) : bool :=
  match kind with
  | Exportacao | Importacao =>
      bool_decide (cell r Paises ≠ TOTAL) || bool_decide (cell r Paises ≠ TOTAL)
  | Processamento =>
      bool_decide (cell r (lit "Cultivar") ≠ TOTAL)
      || bool_decide (cell r Classificacao ≠ TOTAL)
  | Producao | Comercializacao =>
      bool_decide (cell r (lit "Produto") ≠ TOTAL)
      || bool_decide (cell r Classificacao ≠ TOTAL)
  end.

(** The first statements of [SiteProcessamentoScraper.transform_dados],
    lines 332 to 343: the column 'Cultivar' is made from 'Classificação'
    when the frame has none, and the column 'Sem definição' is moved
    into the missing cells of 'Cultivar' and dropped. *)
Definition fill_cultivar (dados : DataFrame) : result DataFrame :=
  let dados :=
    if bool_decide (lit "Cultivar" ∉ columns dados)
       && bool_decide (Classificacao ∈ columns dados)
    then copy_column Classificacao (lit "Cultivar") dados else dados in
  if bool_decide (Sem_definicao ∈ columns dados) then
    let dados :=
      if bool_decide (lit "Cultivar" ∈ columns dados)
      then fill_missing Sem_definicao (lit "Cultivar") dados else dados in
    drop_column Sem_definicao dados
  else Ok dados.

(** The statements the five [transform_dados] share, from the loop over
    the text columns to the last one, and the statements before them. *)
Definition normalize_and_select `{Transliteration} (kind : Kind) (dados : DataFrame)
    : result DataFrame :=
  dados ← normalize_columns dados;
  let dados := rename (quantidade_label kind) (lit "Quantidade") dados in
  dados ← remove_separators (lit "Quantidade") dados;
  dados ← to_integers (lit "Quantidade") dados;
  dados ← match kind with
          | Exportacao | Importacao =>
              dados ← remove_separators (lit "Valor (US$)") dados;
              to_integers (lit "Valor (US$)") dados
          | _ => Ok dados
          end;
  dados ← select_columns (colunas kind) dados;
  Ok (loc (not_total kind) dados).

Definition prepare_dados (kind : Kind)
    (super_transform_dados : DataFrame → result DataFrame) (dados : DataFrame)
    : result DataFrame :=
  match kind with
  | Producao | Comercializacao => Ok dados
  | Exportacao | Importacao => super_transform_dados dados
  | Processamento => dados ← super_transform_dados dados; fill_cultivar dados
  end.

(** The cells on which the coercion of a column is followed here: a
    text that, once normalised and without its separators, is an integer
    literal of the 64-bit range, and a text that then spells infinity.
    A column of such integer texts is what [pd.to_numeric] returns as a
    column of integers, with no conversion to floating point. *)
Definition integer_text `{Transliteration} (v : value) (z : Z) : Prop :=
  ∃ s, normalize_text v = VStr s
       ∧ parse_int (filter (λ c, c ≠ 46) s) = Some z
       ∧ (- 2 ^ 63 ≤ z < 2 ^ 63)%Z.

Definition infinite_text `{Transliteration} (v : value) : Prop :=
  ∃ s, normalize_text v = VStr s
       ∧ spells_infinity (filter (λ c, c ≠ 46) s) = true.

(** ** Example data *)

Definition cafe : pystr := lit "caf" ++ [233].
Definition en_dash : pystr := [8211].

(** A small accumulated frame: two rows scraped for 2022. *)
Definition example_data : DataFrame :=
  {| columns := [lit "Produto"; lit "Quantidade (L.)"; lit "Classification"; lit "Year"];
     records :=
       [ list_to_map [(lit "Produto", VStr (lit "Suco de uva"));
                      (lit "Quantidade (L.)", VStr (lit "1.234"));
                      (lit "Classification", VStr (lit "Suco"));
                      (lit "Year", VInt 2022)];
         list_to_map [(lit "Produto", VStr cafe);
                      (lit "Quantidade (L.)", VStr (lit " - "));
                      (lit "Classification", VStr (lit "*"));
                      (lit "Year", VInt 2022)] ] |}.

Definition td (class_ : list string) (text : string) : Td :=
  {| td_class := class_; td_text := lit text; td_other := [] |}.

Definition tr (cells : list Td) : Tr := {| tds := cells; tr_other := [] |}.

(** The production table of the specification's scenario: header
    [Produto, Quantidade (L.)], a category row, a sub-item row and a
    footer row. *)
Definition row_header : Tr := tr [].
Definition row_category : Tr :=
  tr [td ["tb_item"]%string "VINHO DE MESA"; td ["tb_item"]%string "10.000"].
Definition row_subitem : Tr :=
  tr [td ["tb_subitem"]%string " Tinto "; td ["tb_subitem"]%string "4.000"].
Definition row_total : Tr :=
  tr [td ["tb_item"]%string "Total"; td [] "14.000"].

Definition producao_2022 : Table :=
  {| table_class := ["tb_base"; "tb_dados"]%string;
     ths := [lit "Produto"; lit "Quantidade (L.)"];
     trs := [row_header; row_category; row_subitem; row_total];
     tfoots := [ {| tfoot_class := ["tb_total"]%string; tfoot_trs := [row_total] |} ] |}.

(** The state in which the row loop leaves that table. *)
Definition producao_2022_rows : ExtractState :=
  {| current_classification := lit "VINHO DE MESA";
     second_last_item := lit "VINHO DE MESA";
     rows := [ [lit "VINHO DE MESA"; lit "10.000"; lit "VINHO DE MESA"];
               [lit "Tinto"; lit "4.000"; lit "VINHO DE MESA"];
               [lit "Total"; lit "14.000"; lit "Total"] ] |}.

(** The frame [extract_table_data] makes of that table. *)
Definition producao_2022_frame : DataFrame :=
  {| columns := [lit "Produto"; lit "Quantidade (L.)"; lit "Classification"];
     records :=
       [ list_to_map [(lit "Produto", VStr (lit "VINHO DE MESA"));
                      (lit "Quantidade (L.)", VStr (lit "10.000"));
                      (lit "Classification", VStr (lit "VINHO DE MESA"))];
         list_to_map [(lit "Produto", VStr (lit "Tinto"));
                      (lit "Quantidade (L.)", VStr (lit "4.000"));
                      (lit "Classification", VStr (lit "VINHO DE MESA"))];
         list_to_map [(lit "Produto", VStr (lit "Total"));
                      (lit "Quantidade (L.)", VStr (lit "14.000"));
                      (lit "Classification", VStr (lit "Total"))] ] |}.

(** A table whose first body row is a sub-item, a table with a row wider
    than the header, and a table with a body row that has no cell. *)
Definition orphan_table : Table :=
  {| table_class := ["tb_base"; "tb_dados"]%string;
     ths := [lit "Produto"; lit "Quantidade (L.)"];
     trs := [row_header; row_subitem; row_category];
     tfoots := [] |}.

Definition orphan_rows : ExtractState :=
  {| current_classification := lit "VINHO DE MESA";
     second_last_item := lit "VINHO DE MESA";
     rows := [ [lit "Tinto"; lit "4.000"; []];
               [lit "VINHO DE MESA"; lit "10.000"; lit "VINHO DE MESA"] ] |}.

Definition orphan_frame : DataFrame :=
  {| columns := [lit "Produto"; lit "Quantidade (L.)"; lit "Classification"];
     records :=
       [ list_to_map [(lit "Produto", VStr (lit "Tinto"));
                      (lit "Quantidade (L.)", VStr (lit "4.000"));
                      (lit "Classification", VStr [])];
         list_to_map [(lit "Produto", VStr (lit "VINHO DE MESA"));
                      (lit "Quantidade (L.)", VStr (lit "10.000"));
                      (lit "Classification", VStr (lit "VINHO DE MESA"))] ] |}.

(** The production table extracted with a button label. *)
Definition producao_2022_button_frame : DataFrame :=
  {| columns := [lit "Produto"; lit "Quantidade (L.)"; lit "Classification"; lit "Button"];
     records :=
       [ list_to_map [(lit "Produto", VStr (lit "VINHO DE MESA"));
                      (lit "Quantidade (L.)", VStr (lit "10.000"));
                      (lit "Classification", VStr (lit "VINHO DE MESA"));
                      (lit "Button", VStr (lit "VINHOS DE MESA"))];
         list_to_map [(lit "Produto", VStr (lit "Tinto"));
                      (lit "Quantidade (L.)", VStr (lit "4.000"));
                      (lit "Classification", VStr (lit "VINHO DE MESA"));
                      (lit "Button", VStr (lit "VINHOS DE MESA"))];
         list_to_map [(lit "Produto", VStr (lit "Total"));
                      (lit "Quantidade (L.)", VStr (lit "14.000"));
                      (lit "Classification", VStr (lit "Total"));
                      (lit "Button", VStr (lit "VINHOS DE MESA"))] ] |}.

(** A table whose sub-item row has one cell only, and its frame. *)
Definition row_short : Tr := tr [td ["tb_subitem"]%string "Tinto"].

Definition short_table : Table :=
  {| table_class := ["tb_base"; "tb_dados"]%string;
     ths := [lit "Produto"; lit "Quantidade (L.)"];
     trs := [row_header; row_category; row_short];
     tfoots := [] |}.

Definition short_frame : DataFrame :=
  {| columns := [lit "Produto"; lit "Quantidade (L.)"; lit "Classification"];
     records :=
       [ list_to_map [(lit "Produto", VStr (lit "VINHO DE MESA"));
                      (lit "Quantidade (L.)", VStr (lit "10.000"));
                      (lit "Classification", VStr (lit "VINHO DE MESA"))];
         list_to_map [(lit "Produto", VStr (lit "Tinto"));
                      (lit "Quantidade (L.)", VStr (lit "VINHO DE MESA"))] ] |}.

Definition wide_table : Table :=
  {| table_class := ["tb_base"; "tb_dados"]%string;
     ths := [lit "Produto"; lit "Quantidade (L.)"];
     trs := [row_header; tr [td [] "Suco"; td [] "1"; td [] "2"]];
     tfoots := [] |}.

Definition ragged_table : Table :=
  {| table_class := ["tb_base"; "tb_dados"]%string;
     ths := [lit "Produto"; lit "Quantidade (L.)"];
     trs := [row_header; row_category; tr []];
     tfoots := [] |}.

(** The frame of that table as [transform_dados] expects it, with the
    Portuguese column labels, and the frame it returns. *)
Definition producao_dados : DataFrame :=
  {| columns := [lit "Produto"; lit "Quantidade (L.)"; Classificacao; lit "Ano"];
     records :=
       [ list_to_map [(lit "Produto", VStr (lit "VINHO DE MESA"));
                      (lit "Quantidade (L.)", VStr (lit "10.000"));
                      (Classificacao, VStr (lit "VINHO DE MESA"));
                      (lit "Ano", VInt 2022)];
         list_to_map [(lit "Produto", VStr (lit "Tinto"));
                      (lit "Quantidade (L.)", VStr (lit "4.000"));
                      (Classificacao, VStr (lit "VINHO DE MESA"));
                      (lit "Ano", VInt 2022)];
         list_to_map [(lit "Produto", VStr (lit "Total"));
                      (lit "Quantidade (L.)", VStr (lit "14.000"));
                      (Classificacao, VStr (lit "Total"));
                      (lit "Ano", VInt 2022)] ] |}.

(** The same frame with the text "inf" as the quantity of the second
    row. *)
Definition infinity_dados : DataFrame :=
  {| columns := columns producao_dados;
     records :=
       (λ r : record, if bool_decide (cell r (lit "Produto") = VStr (lit "Tinto"))
                      then <[lit "Quantidade (L.)" := VStr (lit "inf")]> r else r)
       <$> records producao_dados |}.

Definition producao_final : DataFrame :=
  {| columns := [lit "Produto"; Classificacao; lit "Ano"; lit "Quantidade"];
     records :=
       [ list_to_map [(lit "Produto", VStr (lit "VINHO DE MESA"));
                      (Classificacao, VStr (lit "VINHO DE MESA"));
                      (lit "Ano", VInt 2022);
                      (lit "Quantidade", VInt 10000)];
         list_to_map [(lit "Produto", VStr (lit "TINTO"));
                      (Classificacao, VStr (lit "VINHO DE MESA"));
                      (lit "Ano", VInt 2022);
                      (lit "Quantidade", VInt 4000)] ] |}.

(** A site without buttons, as the production pages are: the page of
    2020 has the data table after a layout table, the page of 2021 has
    no data table, the page of 2022 is the table above. *)
Definition layout_table : Table :=
  {| table_class := ["tb_base"]%string; ths := []; trs := []; tfoots := [] |}.

Definition producao_2020 : Table :=
  {| table_class := ["tb_base"; "tb_dados"]%string;
     ths := [lit "Produto"; lit "Quantidade (L.)"];
     trs := [row_header;
             tr [td ["tb_item"]%string "SUCO"; td ["tb_item"]%string "-"]];
     tfoots := [] |}.

Definition example_pages (params : Params) : result Soup :=
  match params !! lit "ano" with
  | Some (VInt 2020) => Ok [layout_table; producao_2020]
  | Some (VInt 2021) => Ok [layout_table]
  | Some (VInt 2022) => Ok [producao_2022]
  | _ => Raise RequestException
  end%Z.

Definition example_web : Web :=
  {| html := Soup;
     requests_get := λ _ params, example_pages params;
     BeautifulSoup := λ page, page |}.

Definition example_button : Button :=
  list_to_map [(lit "name", lit "subopcao"); (lit "value", lit "subopt_01");
               (lit "classification_button", lit "VINHOS DE MESA")].

Definition example_scraper (ys : list Z) (buttons : list Button) : Scraper :=
  {| base_url := lit "http://vitibrasil.cnpuv.embrapa.br/index.php";
     years := ys;
     create_parameters := λ year _, Ok {[ lit "ano" := VInt year ]};
     get_buttons := Ok buttons |}.

(** The frame a run over 2020 and 2022 returns. *)
Definition example_run : DataFrame :=
  {| columns := [lit "Produto"; lit "Quantidade (L.)"; lit "Classification"; lit "Year"];
     records :=
       [ list_to_map [(lit "Produto", VStr (lit "SUCO"));
                      (lit "Quantidade (L.)", VStr (lit "0"));
                      (lit "Classification", VStr (lit "SUCO"));
                      (lit "Year", VInt 2020)];
         list_to_map [(lit "Produto", VStr (lit "VINHO DE MESA"));
                      (lit "Quantidade (L.)", VStr (lit "10.000"));
                      (lit "Classification", VStr (lit "VINHO DE MESA"));
                      (lit "Year", VInt 2022)];
         list_to_map [(lit "Produto", VStr (lit "TINTO"));
                      (lit "Quantidade (L.)", VStr (lit "4.000"));
                      (lit "Classification", VStr (lit "VINHO DE MESA"));
                      (lit "Year", VInt 2022)];
         list_to_map [(lit "Produto", VStr (lit "TOTAL"));
                      (lit "Quantidade (L.)", VStr (lit "14.000"));
                      (lit "Classification", VStr (lit "TOTAL"));
                      (lit "Year", VInt 2022)] ] |}.

(** The frame the same run returns with the button [example_button]. *)
Definition example_button_run : DataFrame :=
  {| columns := [lit "Produto"; lit "Quantidade (L.)"; lit "Classification"; lit "Button"; lit "Year"];
     records :=
       [ list_to_map [(lit "Produto", VStr (lit "SUCO"));
                      (lit "Quantidade (L.)", VStr (lit "0"));
                      (lit "Classification", VStr (lit "SUCO"));
                      (lit "Button", VStr (lit "VINHOS DE MESA"));
                      (lit "Year", VInt 2020)];
         list_to_map [(lit "Produto", VStr (lit "VINHO DE MESA"));
                      (lit "Quantidade (L.)", VStr (lit "10.000"));
                      (lit "Classification", VStr (lit "VINHO DE MESA"));
                      (lit "Button", VStr (lit "VINHOS DE MESA"));
                      (lit "Year", VInt 2022)];
         list_to_map [(lit "Produto", VStr (lit "TINTO"));
                      (lit "Quantidade (L.)", VStr (lit "4.000"));
                      (lit "Classification", VStr (lit "VINHO DE MESA"));
                      (lit "Button", VStr (lit "VINHOS DE MESA"));
                      (lit "Year", VInt 2022)];
         list_to_map [(lit "Produto", VStr (lit "TOTAL"));
                      (lit "Quantidade (L.)", VStr (lit "14.000"));
                      (lit "Classification", VStr (lit "TOTAL"));
                      (lit "Button", VStr (lit "VINHOS DE MESA"));
                      (lit "Year", VInt 2022)] ] |}.

(** * Properties *)

(** ** The result monad and loops *)

Lemma for_each_app {S B} (body : S → B → result S) (l1 l2 : list B) (st : S) :
  for_each body (l1 ++ l2) st = for_each body l1 st ≫= for_each body l2.
Proof.
  revert st. induction l1 as [|b l1 IH]; intros st; simpl; [done|].
  destruct (body st b) as [st'|e]; simpl; [apply IH|done].
Qed.

Lemma bind_Ok {A B} (m : result A) (f : A → result B) (b : B) :
  m ≫= f = Ok b ↔ ∃ a, m = Ok a ∧ f a = Ok b.
Proof.
  destruct m as [a|e]; simpl; split.
  - eauto.
  - by intros (a' & [= ->] & ?).
  - done.
  - by intros (a' & ? & ?).
Qed.

(** ** Text *)

Section text.
Context `{Transliteration}.

Lemma unidecode_is_ascii (s : pystr) : Forall is_ascii (unidecode s).
Proof.
  unfold unidecode. induction s as [|c s IH]; [constructor|].
  rewrite bind_cons. apply Forall_app. split; [|exact IH].
  destruct (c <? 128) eqn:Hc; [|apply translit_ascii].
  apply N.ltb_lt in Hc. by constructor.
Qed.

Lemma unidecode_ascii_id (s : pystr) : Forall is_ascii s → unidecode s = s.
Proof.
  unfold unidecode. induction 1 as [|c s Hc _ IH]; [done|].
  rewrite bind_cons, IH. unfold is_ascii in Hc.
  apply N.ltb_lt in Hc. by rewrite Hc.
Qed.

Lemma upper_char_idemp (c : N) : upper_char (upper_char c) = upper_char c.
Proof.
  unfold upper_char.
  destruct ((97 <=? c) && (c <=? 122)) eqn:Hc; [|by rewrite Hc].
  apply andb_true_iff in Hc as [H1%N.leb_le H2%N.leb_le].
  destruct (97 <=? c - 32) eqn:H3; [|done].
  apply N.leb_le in H3. lia.
Qed.

Lemma upper_idemp (s : pystr) : upper (upper s) = upper s.
Proof.
  unfold upper. rewrite <- list_fmap_compose. apply list_fmap_ext.
  intros _ c _. apply upper_char_idemp.
Qed.

Lemma upper_char_is_ascii (c : N) : is_ascii c → is_ascii (upper_char c).
Proof.
  unfold upper_char, is_ascii. intros Hc.
  destruct ((97 <=? c) && (c <=? 122)); lia.
Qed.

Lemma upper_is_ascii (s : pystr) : Forall is_ascii s → Forall is_ascii (upper s).
Proof.
  intros Hs. apply Forall_fmap. eapply Forall_impl; [exact Hs|].
  intros c. apply upper_char_is_ascii.
Qed.

(** A normalised text is a fixed point of transliteration and case
    folding. *)
Lemma upper_unidecode_fixed (s : pystr) :
  upper (unidecode (upper (unidecode s))) = upper (unidecode s).
Proof.
  rewrite unidecode_ascii_id by apply upper_is_ascii, unidecode_is_ascii.
  apply upper_idemp.
Qed.

Lemma isspace_letter (c : N) : 65 ≤ c ≤ 122 → isspace c = false.
Proof.
  intros Hc. unfold isspace.
  repeat match goal with
         | |- _ || _ = false => apply orb_false_intro
         end;
    try (apply N.eqb_neq; lia);
    first [ apply andb_false_iff; right; apply N.leb_gt; lia
          | apply andb_false_iff; left; apply N.leb_gt; lia ].
Qed.

Lemma isspace_upper_char (c : N) : isspace (upper_char c) = isspace c.
Proof.
  unfold upper_char.
  destruct ((97 <=? c) && (c <=? 122)) eqn:Hc; [|done].
  apply andb_true_iff in Hc as [H1%N.leb_le H2%N.leb_le].
  rewrite !isspace_letter; [done|lia|lia].
Qed.

Lemma drop_while_upper (s : pystr) :
  drop_while isspace (upper s) = upper (drop_while isspace s).
Proof.
  induction s as [|c s IH]; [done|]. simpl.
  rewrite isspace_upper_char. by destruct (isspace c).
Qed.

Lemma reverse_upper (s : pystr) : reverse (upper s) = upper (reverse s).
Proof. unfold upper. by rewrite fmap_reverse. Qed.

Lemma strip_upper (s : pystr) : strip (upper s) = upper (strip s).
Proof.
  unfold strip, strip_of.
  by rewrite drop_while_upper, reverse_upper, drop_while_upper, reverse_upper.
Qed.

Lemma upper_char_inj_symbol (c d : N) :
  d < 65 → upper_char c = d → c = d.
Proof.
  unfold upper_char. intros Hd.
  destruct ((97 <=? c) && (c <=? 122)) eqn:Hc; [|done].
  apply andb_true_iff in Hc as [H1%N.leb_le H2%N.leb_le]. lia.
Qed.

Lemma upper_eq_symbol (s : pystr) (d : N) :
  d < 65 → upper s = [d] → s = [d].
Proof.
  intros Hd. destruct s as [|c [|c' s]]; try done.
  intros [= Hc]. f_equal. by apply upper_char_inj_symbol.
Qed.
End text.

(** ** normalize_text *)

Section normalize_text.
Context `{Transliteration}.

Lemma normalize_text_sentinel (s : pystr) :
  sentinel (strip s) → normalize_text (VStr s) = VStr (lit "0").
Proof.
  intros [Hs|Hs]; unfold normalize_text; rewrite Hs; reflexivity.
Qed.

Lemma normalize_text_other (s : pystr) :
  ¬ sentinel (strip s) → normalize_text (VStr s) = VStr (upper (unidecode s)).
Proof.
  intros Hs. unfold normalize_text.
  rewrite !bool_decide_eq_false_2; [done| |]; intros Heq; apply Hs;
    [by right|by left].
Qed.

Lemma normalize_text_nontext (v : value) :
  is_str v = false → normalize_text v = v.
Proof. by destruct v. Qed.

Lemma normalize_text_is_str (v : value) :
  is_str (normalize_text v) = is_str v.
Proof. destruct v; simpl; [|done..]. by case_match. Qed.

Lemma zero_not_sentinel (s : pystr) : sentinel (strip s) → s ≠ lit "0".
Proof. intros Hs ->. by destruct Hs. Qed.

Lemma normalize_text_idempotent_iff (s : pystr) :
  normalize_text (normalize_text (VStr s)) = normalize_text (VStr s)
  ↔ (sentinel (strip (upper (unidecode s))) → sentinel (strip s)).
Proof.
  destruct (decide (sentinel (strip s))) as [Hs|Hs].
  - rewrite (normalize_text_sentinel s Hs). split; [done|]. intros _.
    apply normalize_text_other. by intros [?|?].
  - rewrite (normalize_text_other s Hs).
    destruct (decide (sentinel (strip (upper (unidecode s))))) as [Ht|Ht].
    + rewrite (normalize_text_sentinel _ Ht). split.
      * intros [= Heq]. by destruct (zero_not_sentinel _ Ht).
      * intros Himp. by destruct Hs; apply Himp.
    + rewrite (normalize_text_other _ Ht), upper_unidecode_fixed. by split.
Qed.

Lemma sentinel_upper (s : pystr) : sentinel (upper s) → sentinel s.
Proof.
  intros [Hs|Hs]; [left|right]; by apply (upper_eq_symbol s _) in Hs.
Qed.

Lemma normalize_text_idempotent_ascii (s : pystr) :
  Forall is_ascii s →
  normalize_text (normalize_text (VStr s)) = normalize_text (VStr s).
Proof.
  intros Hs. apply normalize_text_idempotent_iff.
  rewrite (unidecode_ascii_id s Hs), strip_upper. apply sentinel_upper.
Qed.
End normalize_text.

(** ** Frames *)

Lemma cell_insert (r : record) (c c' : pystr) (v : value) :
  cell (<[c := v]> r) c' = if decide (c = c') then v else cell r c'.
Proof.
  unfold cell. rewrite lookup_insert. by destruct (decide (c = c')).
Qed.

Lemma cell_insert_eq (r : record) (c : pystr) (v : value) :
  cell (<[c := v]> r) c = v.
Proof. rewrite cell_insert. by rewrite decide_True. Qed.

Lemma cell_insert_ne (r : record) (c c' : pystr) (v : value) :
  c ≠ c' → cell (<[c := v]> r) c' = cell r c'.
Proof. intros. rewrite cell_insert. by rewrite decide_False. Qed.

Lemma map_column_in (f : value → value) (c : pystr) (df : DataFrame) :
  c ∈ columns df →
  map_column f c df =
  Ok {| columns := columns df;
        records := (λ r, <[c := f (cell r c)]> r) <$> records df |}.
Proof. intros Hc. unfold map_column. by rewrite bool_decide_eq_true_2. Qed.

(** A loop of cell-wise column updates over labels of the frame is one
    pass over the rows. *)
Lemma for_each_map_column (f : value → value) (cs : list pystr) (df : DataFrame) :
  cs ⊆ columns df →
  for_each (λ df c, map_column f c df) cs df =
  Ok {| columns := columns df;
        records := (λ r, foldl (λ r c, <[c := f (cell r c)]> r) r cs) <$> records df |}.
Proof.
  revert df. induction cs as [|c cs IH]; intros df Hcs.
  - destruct df. simpl. by rewrite list_fmap_id.
  - assert (c ∈ columns df) as Hc by (apply Hcs; left).
    assert (cs ⊆ columns df) as Hcs' by (intros x Hx; apply Hcs; by right).
    cbn [for_each]. rewrite (map_column_in f c df Hc). cbn [mbind result_bind].
    rewrite IH by done. cbn [columns records]. f_equal. f_equal.
    by rewrite <- list_fmap_compose.
Qed.

Section update_cells.
Context (f : value → value).

Lemma cell_foldl_notin (cs : list pystr) (r : record) (c : pystr) :
  c ∉ cs → cell (foldl (λ r c, <[c := f (cell r c)]> r) r cs) c = cell r c.
Proof.
  revert r. induction cs as [|c' cs IH]; intros r Hc; simpl; [done|].
  apply not_elem_of_cons in Hc as [Hne Hc].
  rewrite IH by done. by apply cell_insert_ne.
Qed.

Lemma cell_foldl_in (cs : list pystr) (r : record) (c : pystr) :
  NoDup cs → c ∈ cs →
  cell (foldl (λ r c, <[c := f (cell r c)]> r) r cs) c = f (cell r c).
Proof.
  revert r. induction cs as [|c' cs IH]; intros r Hnd Hc; simpl.
  - by apply elem_of_nil in Hc.
  - apply NoDup_cons in Hnd as [Hc' Hnd].
    apply elem_of_cons in Hc as [->|Hc].
    + rewrite cell_foldl_notin by done. apply cell_insert_eq.
    + rewrite IH by done. rewrite cell_insert_ne; [done|].
      intros ->. contradiction.
Qed.

(** Cells that [f] fixes, and keeps fixing, survive any sequence of
    updates. *)
Lemma cell_foldl_fixed (P : value → Prop) (cs : list pystr) (r : record) (c : pystr) :
  (∀ v, P v → f v = v) → P (cell r c) →
  cell (foldl (λ r c, <[c := f (cell r c)]> r) r cs) c = cell r c.
Proof.
  intros Hf. revert r. induction cs as [|c' cs IH]; intros r Hc; simpl; [done|].
  destruct (decide (c' = c)) as [->|Hne].
  - rewrite IH; rewrite cell_insert_eq, Hf; done.
  - rewrite IH; rewrite cell_insert_ne; done.
Qed.
End update_cells.

Lemma select_dtypes_object_columns (df : DataFrame) :
  select_dtypes_object df ⊆ columns df.
Proof. intros c Hc. by apply list_elem_of_filter in Hc as [_ Hc]. Qed.

Section normalize_columns.
Context `{Transliteration}.

Lemma normalize_columns_eq (df : DataFrame) :
  normalize_columns df =
  Ok {| columns := columns df;
        records := normalize_record (select_dtypes_object df) <$> records df |}.
Proof.
  unfold normalize_columns.
  by rewrite for_each_map_column by apply select_dtypes_object_columns.
Qed.

Lemma normalize_record_nontext (cs : list pystr) (r : record) (c : pystr) :
  is_str (cell r c) = false → cell (normalize_record cs r) c = cell r c.
Proof.
  intros Hc. unfold normalize_record.
  apply (cell_foldl_fixed _ (λ v, is_str v = false)); [|done].
  apply normalize_text_nontext.
Qed.

Lemma normalize_record_columns (df : DataFrame) (r : record) (c : pystr) :
  NoDup (columns df) → r ∈ records df → c ∈ columns df →
  cell (normalize_record (select_dtypes_object df) r) c = normalize_text (cell r c).
Proof.
  intros Hnd Hr Hc.
  destruct (decide (c ∈ select_dtypes_object df)) as [Hobj|Hobj].
  - apply cell_foldl_in; [|done]. by apply NoDup_filter.
  - assert (is_str (cell r c) = false) as Hns.
    { destruct (is_str (cell r c)) eqn:Hs; [|done]. destruct Hobj.
      apply list_elem_of_filter. split; [|done].
      apply Exists_exists. exists r. split; [done|]. by rewrite Hs. }
    rewrite normalize_record_nontext by done.
    by rewrite normalize_text_nontext.
Qed.
End normalize_columns.

(** ** FieldNormalizer: [clean_data] *)

(** C3.  [normalize_text] rewrites a text that trims to "-" or "*" to "0"
    and every other text to its transliteration folded to upper case (an
    ASCII text; "café" becomes "CAFE"), and leaves a value that is not a
    text as it is.  [clean_data] never raises, keeps the columns and the
    rows of the frame, and replaces every cell under every column by its
    [normalize_text]: no column is exempt. *)
Theorem clean_data_normalizes_every_field `{Transliteration} :
  (∀ s, sentinel (strip s) → normalize_text (VStr s) = VStr (lit "0"))
  ∧ (∀ s, ¬ sentinel (strip s) →
       normalize_text (VStr s) = VStr (upper (unidecode s))
       ∧ Forall is_ascii (upper (unidecode s)))
  ∧ (∀ v, is_str v = false → normalize_text v = v)
  ∧ @normalize_text unidecode_tables (VStr cafe) = VStr (lit "CAFE")
  ∧ (∀ data, NoDup (columns data) →
       ∃ out, clean_data data = Ok out
              ∧ columns out = columns data
              ∧ Forall2 (λ r r', ∀ c, c ∈ columns data →
                                      cell r' c = normalize_text (cell r c))
                        (records data) (records out)).
Proof.
  split_and!.
  - apply normalize_text_sentinel.
  - intros s Hs. split; [by apply normalize_text_other|].
    apply upper_is_ascii, unidecode_is_ascii.
  - apply normalize_text_nontext.
  - reflexivity.
  - intros data Hnd. unfold clean_data. rewrite normalize_columns_eq.
    eexists. split; [done|]. split; [done|]. cbn [records].
    apply Forall2_fmap_r, Forall_Forall2_diag, Forall_forall.
    intros r Hr c Hc. by apply normalize_record_columns.
Qed.

Lemma clean_data_normalizes_every_field_witness :
  NoDup (columns example_data)
  ∧ ∃ out, clean_data example_data = Ok out
           ∧ columns out = columns example_data
           ∧ Forall2 (λ r r', ∀ c, c ∈ columns example_data →
                                   cell r' c = normalize_text (cell r c))
                     (records example_data) (records out).
Proof.
  assert (NoDup (columns example_data)) as Hnd
    by (apply (bool_decide_unpack _); vm_compute; exact I).
  split; [exact Hnd|].
  exact (proj2 (proj2 (proj2 (proj2 clean_data_normalizes_every_field)))
           example_data Hnd).
Defined.

(** C10, as the code has it.  A second [normalize_text] changes the result
    of the first exactly when the text does not trim to "-" or "*" itself
    but its upper-cased transliteration does; on every other text, so on
    every ASCII text, and on every value that is not a text,
    [normalize_text] is idempotent. *)
Theorem normalize_text_idempotent_unless_sentinel_arises `{Transliteration} :
  (∀ s, normalize_text (normalize_text (VStr s)) = normalize_text (VStr s)
        ↔ (sentinel (strip (upper (unidecode s))) → sentinel (strip s)))
  ∧ (∀ s, Forall is_ascii s →
          normalize_text (normalize_text (VStr s)) = normalize_text (VStr s))
  ∧ (∀ v, is_str v = false →
          normalize_text (normalize_text v) = normalize_text v).
Proof.
  split_and!.
  - apply normalize_text_idempotent_iff.
  - apply normalize_text_idempotent_ascii.
  - intros v Hv. rewrite (normalize_text_nontext v Hv).
    by apply normalize_text_nontext.
Qed.

Lemma normalize_text_idempotent_unless_sentinel_arises_witness :
  Forall is_ascii (lit " - ")
  ∧ normalize_text (normalize_text (VStr (lit " - "))) = normalize_text (VStr (lit " - ")).
Proof.
  assert (Forall is_ascii (lit " - ")) as Hs
    by (repeat constructor; unfold is_ascii; lia).
  split; [exact Hs|].
  exact (proj1 (proj2 normalize_text_idempotent_unless_sentinel_arises) (lit " - ") Hs).
Defined.

(** The en dash (U+2013) is transliterated to "-": the first pass yields
    "-" and the second rewrites it to "0". *)
Lemma normalize_text_en_dash :
  normalize_text (VStr en_dash) = VStr (lit "-")
  ∧ normalize_text (normalize_text (VStr en_dash)) = VStr (lit "0").
Proof. split; reflexivity. Qed.

Lemma normalize_text_en_dash_not_idempotent :
  normalize_text (normalize_text (VStr en_dash)) ≠ normalize_text (VStr en_dash).
Proof. discriminate. Qed.

(** ** DomainTransformer: numeric coercion *)

Lemma mapM_total {A B} (f : A → result B) (g : A → B) (l : list A) :
  (∀ x, x ∈ l → f x = Ok (g x)) → mapM f l = Ok (g <$> l).
Proof.
  induction l as [|x l IH]; intros Hf; [done|].
  cbn. rewrite (Hf x) by left. cbn.
  rewrite IH by (intros y Hy; apply Hf; by right). done.
Qed.

Lemma coerce_cases (v : value) :
  coerce v =
  match to_numeric (str_replace_dot (astype_str v)) with
  | Finite z => Ok (VInt z)
  | Missing => Ok (VInt 0)
  | NonFinite => Raise ValueError
  end.
Proof. unfold coerce. by destruct (to_numeric _). Qed.

Lemma to_numeric_integer (s : pystr) (z : Z) :
  parse_int s = Some z → to_numeric (VStr s) = Finite z.
Proof. intros Hs. unfold to_numeric. by rewrite Hs. Qed.

(** A column is cast to integers cell by cell; the loop stops at the
    first cell that cannot be cast. *)
Lemma to_integers_in (c : pystr) (df : DataFrame) (f : record → value) :
  c ∈ columns df →
  (∀ r, r ∈ records df → astype_int (fillna0 (to_numeric (cell r c))) = Ok (f r)) →
  to_integers c df =
  Ok {| columns := columns df;
        records := (λ r, <[c := f r]> r) <$> records df |}.
Proof.
  intros Hc Hf. unfold to_integers, mapM_column.
  rewrite (bool_decide_eq_true_2 _ Hc).
  rewrite (mapM_total _ (λ r, <[c := f r]> r)); [done|].
  intros r Hr. by rewrite Hf.
Qed.

Lemma mapM_raises {A B} (f : A → result B) (l : list A) (x : A) (e : exn) :
  x ∈ l → f x = Raise e → (∀ y e', f y = Raise e' → e' = e) →
  mapM f l = Raise e.
Proof.
  intros Hx Hfx Hexn. induction l as [|y l IH]; [by apply elem_of_nil in Hx|].
  cbn. destruct (f y) as [b|e'] eqn:Hy; cbn.
  - apply elem_of_cons in Hx as [->|Hx]; [congruence|].
    by rewrite IH.
  - f_equal. by apply (Hexn y).
Qed.

Lemma to_integers_non_finite (c : pystr) (df : DataFrame) (r : record) :
  c ∈ columns df → r ∈ records df → to_numeric (cell r c) = NonFinite →
  to_integers c df = Raise ValueError.
Proof.
  intros Hc Hr Hinf. unfold to_integers, mapM_column.
  rewrite (bool_decide_eq_true_2 _ Hc).
  rewrite (mapM_raises _ _ r ValueError); [done|done| |].
  - by rewrite Hinf.
  - intros y e'. destruct (to_numeric (cell y c)); cbn; congruence.
Qed.

(** An integer literal, once the separators are removed, is coerced to
    its value. *)
Lemma coerce_integer_literal (s : pystr) (z : Z) :
  parse_int (filter (λ c, c ≠ 46) s) = Some z → coerce (VStr s) = Ok (VInt z).
Proof.
  intros Hs. rewrite coerce_cases. cbn [astype_str str_replace_dot].
  by rewrite (to_numeric_integer _ _ Hs).
Qed.

(** The coercion of a cell raises exactly when [pd.to_numeric] finds a
    number that is not finite; every other cell gets an integer. *)
Lemma coerce_raises_iff (v : value) :
  coerce v = Raise ValueError
  ↔ to_numeric (str_replace_dot (astype_str v)) = NonFinite.
Proof. rewrite coerce_cases. by destruct (to_numeric _). Qed.

Lemma coerce_integer_or_raises (v : value) :
  (∃ z, coerce v = Ok (VInt z)) ∨ coerce v = Raise ValueError.
Proof. rewrite coerce_cases. destruct (to_numeric _); eauto. Qed.

Lemma str_of_Z_examples :
  str_of_Z 0 = lit "0" ∧ str_of_Z 1234 = lit "1234" ∧ str_of_Z (-5) = lit "-5"
  ∧ coerce (VInt 1234) = Ok (VInt 1234) ∧ coerce VNaN = Ok (VInt 0).
Proof. split_and!; reflexivity. Qed.

(** C2.  The coercion of a numeric column reads each cell as text,
    removes the thousands separator "." and parses an integer, with zero
    for a text that is no number: "1.234" gives 1234, the empty text and
    "n/d" give 0.  A text that spells infinity is a number for
    [pd.to_numeric], though: [fillna(0)] leaves the float as it is and
    [astype(int)] raises, so that [transform_dados] raises for the whole
    frame instead of putting a zero. *)
Theorem coercion_raises_on_infinity :
  coerce (VStr (lit "1.234")) = Ok (VInt 1234)
  ∧ coerce (VStr []) = Ok (VInt 0)
  ∧ coerce (VStr (lit "n/d")) = Ok (VInt 0)
  ∧ coerce (VStr (lit "inf")) = Raise ValueError
  ∧ normalize_text (VStr (lit "inf")) = VStr (lit "INF")
  ∧ coerce (VStr (lit "INF")) = Raise ValueError
  ∧ SiteProducaoScraper.transform_dados infinity_dados = Raise ValueError.
Proof. split_and!; reflexivity. Qed.

(** ** DomainTransformer: the TOTAL rows *)

Lemma elem_of_loc (mask : record → bool) (df : DataFrame) (r : record) :
  r ∈ records (loc mask df) ↔ r ∈ records df ∧ mask r = true.
Proof.
  unfold loc. cbn [records]. rewrite !list_elem_of_In. apply filter_In.
Qed.

Lemma transform_dados_producao_scenario :
  SiteProducaoScraper.transform_dados producao_dados = Ok producao_final.
Proof. vm_compute. reflexivity. Qed.

(** With [WebScraper] as it is, which has no [transform_dados], the
    call through [super()] raises [AttributeError] and the three
    transformations that make it stop there. *)
Lemma transform_dados_without_super `{Transliteration} (kind : Kind) (dados : DataFrame) :
  kind ∈ [Exportacao; Importacao; Processamento] →
  transform_of kind (λ _, Raise AttributeError) dados = Raise AttributeError.
Proof.
  intros Hkind. destruct kind; try done;
    repeat (apply elem_of_cons in Hkind as [?|Hkind]; [done|]);
    by apply elem_of_nil in Hkind.
Qed.

(** The last statement of a [transform_dados]: what is returned is a
    [loc] of some frame under the mask. *)
Ltac last_statement H :=
  repeat (apply bind_Ok in H as (? & _ & H));
  injection H as <-.

(** C1.  Whatever frame a [transform_dados] returns, no row of it is a
    TOTAL row: for the export and import kinds every row has a country
    other than "TOTAL"; for the processing, production and
    commercialisation kinds every row has a product (cultivar) other than
    "TOTAL" or a classification other than "TOTAL". *)
Theorem transform_dados_drops_total `{Transliteration} (kind : Kind)
    (super_transform_dados : DataFrame → result DataFrame)
    (dados out : DataFrame) (r : record) :
  transform_of kind super_transform_dados dados = Ok out →
  r ∈ records out →
  match kind with
  | Exportacao | Importacao => cell r Paises ≠ TOTAL
  | Processamento =>
      cell r (lit "Cultivar") ≠ TOTAL ∨ cell r Classificacao ≠ TOTAL
  | Producao | Comercializacao =>
      cell r (lit "Produto") ≠ TOTAL ∨ cell r Classificacao ≠ TOTAL
  end.
Proof.
  intros Hrun Hr.
  destruct kind; cbn [transform_of] in Hrun;
    [ unfold SiteExportacaoScraper.transform_dados in Hrun
    | unfold SiteImportacaoScraper.transform_dados in Hrun
    | unfold SiteProcessamentoScraper.transform_dados in Hrun
    | unfold SiteProducaoScraper.transform_dados in Hrun
    | unfold SiteComercializacaoScraper.transform_dados in Hrun ];
    last_statement Hrun;
    apply elem_of_loc in Hr as [_ Hmask];
    apply orb_true_iff in Hmask as [Hm|Hm];
    apply bool_decide_eq_true in Hm; auto.
Qed.

Lemma transform_dados_drops_total_witness :
  transform_of Producao Ok producao_dados = Ok producao_final
  ∧ ∀ r, r ∈ records producao_final →
         cell r (lit "Produto") ≠ TOTAL ∨ cell r Classificacao ≠ TOTAL.
Proof.
  assert (transform_of Producao Ok producao_dados = Ok producao_final) as Hrun
    by (vm_compute; reflexivity).
  split; [exact Hrun|].
  intros r Hr.
  exact (transform_dados_drops_total Producao Ok producao_dados producao_final r Hrun Hr).
Defined.

(** ** HierarchicalTableExtractor: the row loop *)

Lemma for_each_cons_Ok {S B} (body : S → B → result S) b l st st' :
  for_each body (b :: l) st = Ok st' ↔
  ∃ st1, body st b = Ok st1 ∧ for_each body l st1 = Ok st'.
Proof. apply bind_Ok. Qed.

Lemma for_each_app_Ok {S B} (body : S → B → result S) l1 l2 st st' :
  for_each body (l1 ++ l2) st = Ok st' ↔
  ∃ st1, for_each body l1 st = Ok st1 ∧ for_each body l2 st1 = Ok st'.
Proof. rewrite for_each_app. apply bind_Ok. Qed.

Section extract_row.
Context (footer : option Tfoot) (classification_button : pystr).

(** The loop body takes the branch of the row's kind; a row without a
    kind makes [cells[0]] raise. *)
Lemma extract_row_kind (st : ExtractState) (row : Tr) :
  extract_row footer classification_button st row =
  match row_kind footer row with
  | Some kind => Ok (extract_next kind classification_button st row)
  | None => Raise IndexError
  end.
Proof.
  unfold extract_row, row_kind, extract_next, classification, label.
  destruct (in_footer footer row); [done|].
  destruct (tds row) as [|cell0 cells]; [done|]. cbn.
  destruct (bool_decide ("tb_item"%string ∈ td_class cell0)); [done|].
  by destruct (bool_decide ("tb_subitem"%string ∈ td_class cell0)).
Qed.

Abbreviation loop := (for_each (extract_row footer classification_button)).

Lemma extract_loop_rows (l : list Tr) (st st' : ExtractState) :
  loop l st = Ok st' →
  ∃ outs, rows st' = rows st ++ outs ∧ length outs = length l.
Proof.
  revert st. induction l as [|row l IH]; intros st Hrun.
  - injection Hrun as <-. exists []. by rewrite app_nil_r.
  - apply for_each_cons_Ok in Hrun as (st1 & Hrow & Hrun).
    rewrite extract_row_kind in Hrow.
    destruct (row_kind footer row) as [kind|]; [|done].
    injection Hrow as <-.
    destruct (IH _ Hrun) as (outs & -> & Hlen).
    eexists (_ :: outs). cbn [rows extract_next]. rewrite <- app_assoc.
    split; [done|]. cbn. by rewrite Hlen.
Qed.

(** Each list the loop appends holds the texts of the cells of its
    row, one classification and the button. *)
Lemma extract_loop_widths (l : list Tr) (st st' : ExtractState) :
  loop l st = Ok st' →
  ∃ outs, rows st' = rows st ++ outs
          ∧ Forall2 (λ row out, length out =
                       length (append_button classification_button
                                 (cell_texts (tds row) ++ [[]]))) l outs.
Proof.
  revert st. induction l as [|row l IH]; intros st Hrun.
  - injection Hrun as <-. exists []. by rewrite app_nil_r.
  - apply for_each_cons_Ok in Hrun as (st1 & Hrow & Hrun).
    rewrite extract_row_kind in Hrow.
    destruct (row_kind footer row) as [kind|]; [|done].
    injection Hrow as <-.
    destruct (IH _ Hrun) as (outs & -> & Hlen).
    eexists (_ :: outs). cbn [rows extract_next]. rewrite <- app_assoc.
    split; [done|]. constructor; [|done].
    unfold append_button. case_bool_decide; by rewrite !length_app.
Qed.

(** Rows that are not category rows leave the carried classification
    alone. *)
Lemma extract_loop_carried (l : list Tr) (st st' : ExtractState) :
  loop l st = Ok st' →
  Forall (λ row, row_kind footer row ≠ Some Category) l →
  current_classification st' = current_classification st
  ∧ second_last_item st' = second_last_item st.
Proof.
  revert st. induction l as [|row l IH]; intros st Hrun Hl.
  - by injection Hrun as <-.
  - apply Forall_cons in Hl as [Hrow' Hl].
    apply for_each_cons_Ok in Hrun as (st1 & Hrow & Hrun).
    rewrite extract_row_kind in Hrow.
    destruct (row_kind footer row) as [kind|]; [|done].
    injection Hrow as <-.
    destruct (IH _ Hrun Hl) as [-> ->].
    by destruct kind.
Qed.

(** The record of the row at position [i]: the texts of its cells, the
    classification of its kind in the state the rows before it leave,
    and the button. *)
Lemma extract_loop_lookup (l : list Tr) (st st' : ExtractState) (i : nat) (row : Tr) :
  loop l st = Ok st' → l !! i = Some row →
  ∃ st1 kind,
    loop (take i l) st = Ok st1
    ∧ row_kind footer row = Some kind
    ∧ rows st' !! (length (rows st) + i)%nat =
      Some (append_button classification_button
              (cell_texts (tds row) ++ [classification kind st1 row])).
Proof.
  intros Hrun Hi.
  rewrite <- (take_drop_middle l i row Hi) in Hrun.
  apply for_each_app_Ok in Hrun as (st1 & Hpre & Hrun).
  apply for_each_cons_Ok in Hrun as (st2 & Hrow & Hpost).
  rewrite extract_row_kind in Hrow.
  destruct (row_kind footer row) as [kind|]; [|done].
  injection Hrow as <-.
  exists st1, kind. split; [done|]. split; [done|].
  destruct (extract_loop_rows _ _ _ Hpre) as (outs1 & Hrows1 & Hlen1).
  destruct (extract_loop_rows _ _ _ Hpost) as (outs2 & -> & _).
  cbn [rows extract_next]. rewrite Hrows1.
  rewrite length_take_le in Hlen1 by (apply lookup_lt_Some in Hi; lia).
  rewrite <- !app_assoc.
  rewrite lookup_app_r by lia.
  rewrite lookup_app_r by lia.
  replace (length (rows st) + i - length (rows st) - length outs1)%nat with 0%nat by lia.
  done.
Qed.

(** The loop runs to its end exactly when every row has a kind. *)
Lemma extract_loop_total (l : list Tr) (st : ExtractState) :
  Forall (λ row, is_Some (row_kind footer row)) l →
  ∃ st', loop l st = Ok st'.
Proof.
  revert st. induction l as [|row l IH]; intros st Hl; [by eexists|].
  apply Forall_cons in Hl as [[kind Hkind] Hl].
  cbn [for_each]. rewrite extract_row_kind, Hkind. cbn. apply IH, Hl.
Qed.

Lemma extract_loop_raises (l : list Tr) (st : ExtractState) (row : Tr) :
  row ∈ l → row_kind footer row = None → loop l st = Raise IndexError.
Proof.
  revert st. induction l as [|row' l IH]; intros st Hin Hkind.
  - by apply elem_of_nil in Hin.
  - cbn [for_each]. rewrite extract_row_kind.
    destruct (row_kind footer row') as [kind|] eqn:Hkind'; [|done]. cbn.
    apply elem_of_cons in Hin as [->|Hin]; [congruence|]. by apply IH.
Qed.
End extract_row.

(** ** HierarchicalTableExtractor: the frame *)

(** In the frame, a row that has one cell per header carries the entry
    the loop appended after its cell texts under [Classification]. *)
Lemma record_classification (hs bh texts rest : list pystr) (cls : pystr) :
  length texts = length hs → lit "Classification" ∉ hs →
  cell (list_to_map (zip (hs ++ [lit "Classification"] ++ bh)
                         (VStr <$> (texts ++ cls :: rest))))
       (lit "Classification") = VStr cls.
Proof.
  intros Hlen Hfresh. unfold cell.
  rewrite fmap_app, fmap_cons.
  rewrite zip_with_app by (by rewrite length_fmap).
  rewrite list_to_map_app, lookup_union_r.
  - cbn. by rewrite lookup_insert_eq.
  - apply not_elem_of_list_to_map_1.
    by rewrite fst_zip by (rewrite length_fmap; lia).
Qed.

Lemma append_button_cons (classification_button : pystr) (texts : list pystr) (cls : pystr) :
  ∃ rest, append_button classification_button (texts ++ [cls]) = texts ++ cls :: rest.
Proof.
  unfold append_button. case_bool_decide.
  - exists [classification_button]. by rewrite <- app_assoc.
  - by exists [].
Qed.

Lemma max_list_const (n : nat) (l : list nat) :
  l ≠ [] → Forall (λ m, m = n) l → max_list l = n.
Proof.
  induction l as [|m l IH]; intros Hne Hl; [done|].
  apply Forall_cons in Hl as [-> Hl]. cbn.
  destruct l as [|m' l]; [cbn; lia|]. rewrite IH by done. lia.
Qed.

Section extract_table_data.
Context (table : Table) (classification_button : pystr).

Lemma extract_table_data_Ok (df : DataFrame) :
  extract_table_data table classification_button = Ok df →
  ∃ st, extract_rows table classification_button = Ok st
        ∧ columns df = extract_headers table classification_button
        ∧ records df =
          (λ row, list_to_map (zip (extract_headers table classification_button)
                                   (VStr <$> row))) <$> rows st.
Proof.
  unfold extract_table_data. intros (st & Hst & Hdf)%bind_Ok.
  exists st. split; [done|]. unfold new_DataFrame in Hdf.
  case_match; [|done]. by injection Hdf as <-.
Qed.

(** From the list of rows to the frame. *)
Lemma classification_column (st : ExtractState) (df : DataFrame)
    (i : nat) (row : Tr) (cls : pystr) :
  extract_rows table classification_button = Ok st →
  rows st !! i = Some (append_button classification_button
                         (cell_texts (tds row) ++ [cls])) →
  extract_table_data table classification_button = Ok df →
  length (tds row) = length (ths table) →
  lit "Classification" ∉ strip <$> ths table →
  ∃ rec, records df !! i = Some rec
         ∧ cell rec (lit "Classification") = VStr cls.
Proof.
  intros Hst Hi (st' & Hst' & _ & Hrecs)%extract_table_data_Ok Hlen Hfresh.
  assert (st' = st) as -> by congruence.
  rewrite Hrecs, list_lookup_fmap, Hi. eexists. split; [done|].
  destruct (append_button_cons classification_button (cell_texts (tds row)) cls)
    as [rest ->].
  unfold extract_headers. apply record_classification; [|done].
  unfold cell_texts. by rewrite !length_fmap.
Qed.

(** A table whose rows all have a kind and one cell per header is
    turned into a frame with one record per row. *)
Lemma extract_table_data_total :
  Forall (λ row, is_Some (row_kind (find_footer table) row)
                 ∧ length (tds row) = length (ths table))
         (drop 1 (trs table)) →
  ∃ df, extract_table_data table classification_button = Ok df
        ∧ length (records df) = length (drop 1 (trs table)).
Proof.
  intros Hrows.
  destruct (extract_loop_total (find_footer table) classification_button
              (drop 1 (trs table)) extract_init) as [st Hst].
  { eapply Forall_impl; [exact Hrows|]. by intros row [? _]. }
  destruct (extract_loop_widths _ _ _ _ _ Hst) as (outs & Hrows_st & Houts).
  cbn in Hrows_st. unfold extract_table_data, extract_rows. rewrite Hst. cbn.
  unfold new_DataFrame. rewrite Hrows_st.
  assert (Forall (λ out, length out = length (extract_headers table classification_button)) outs)
    as Hwidths.
  { clear Hst Hrows_st. induction Houts as [|row out l outs Hout _ IH]; [constructor|].
    apply Forall_cons in Hrows as [[_ Hlen] Hrows].
    constructor; [|by apply IH].
    rewrite Hout. unfold extract_headers, append_button, cell_texts.
    case_bool_decide; rewrite !length_app, !length_fmap; cbn; lia. }
  assert (bool_decide (outs = [])
          || bool_decide (max_list (length <$> outs)
                          = length (extract_headers table classification_button)) = true)
    as ->.
  { destruct outs as [|out outs]; [done|]. apply orb_true_iff. right.
    apply bool_decide_eq_true. apply max_list_const; [done|].
    apply Forall_fmap. exact Hwidths. }
  eexists. split; [done|]. cbn. rewrite length_fmap.
  by apply Forall2_length in Houts.
Qed.
End extract_table_data.

(** A row with more cells than the table has headers passes the row loop
    and makes [pd.DataFrame] raise. *)
Lemma extract_table_data_wide_row :
  (∃ st, extract_rows wide_table [] = Ok st)
  ∧ extract_table_data wide_table [] = Raise ValueError.
Proof. split; [by eexists|reflexivity]. Qed.

(** ** HierarchicalTableExtractor: the classification of a row *)

Section classification.
Context (table : Table) (classification_button : pystr).

Abbreviation footer := (find_footer table).
Abbreviation body := (drop 1 (trs table)).

(** C5.  A row of the footer found by [find_footer] is extracted as a
    row of the totals whatever the classes of its cells are: the loop
    appends "Total" after its cell texts (and then the button), and in
    the frame a footer row with one cell per header reads "Total" under
    [Classification]. *)
Theorem footer_row_is_total (st : ExtractState) (foot : Tfoot) (i : nat) (row : Tr) :
  extract_rows table classification_button = Ok st →
  find_footer table = Some foot → row ∈ tfoot_trs foot →
  body !! i = Some row →
  rows st !! i = Some (append_button classification_button
                         (cell_texts (tds row) ++ [lit "Total"]))
  ∧ ∀ df, extract_table_data table classification_button = Ok df →
          length (tds row) = length (ths table) →
          lit "Classification" ∉ strip <$> ths table →
          ∃ rec, records df !! i = Some rec
                 ∧ cell rec (lit "Classification") = VStr (lit "Total").
Proof.
  intros Hst Hfoot Hrow Hi.
  assert (rows st !! i = Some (append_button classification_button
                                 (cell_texts (tds row) ++ [lit "Total"]))) as Hout.
  { destruct (extract_loop_lookup _ _ _ _ _ i row Hst Hi)
      as (st1 & kind & _ & Hkind & Hout).
    unfold row_kind, in_footer in Hkind. rewrite Hfoot in Hkind.
    rewrite (bool_decide_eq_true_2 _ Hrow) in Hkind.
    injection Hkind as <-. exact Hout. }
  split; [exact Hout|]. intros df. by apply classification_column with st.
Qed.

(** C4.  A sub-item row [Sub] that follows a category row [R] with no
    category row in between is extracted with the label of [R], the
    text of the first cell of [R], as its classification: the loop
    appends it after the cell texts of [Sub], and in the frame a row [Sub]
    with one cell per header reads it under [Classification]. *)
Theorem subitem_inherits_category (st : ExtractState) (i j : nat) (R Sub : Tr) :
  extract_rows table classification_button = Ok st →
  body !! i = Some R → row_kind footer R = Some Category →
  body !! j = Some Sub → row_kind footer Sub = Some SubItem →
  (i < j)%nat →
  (∀ k row, (i < k < j)%nat → body !! k = Some row →
            row_kind footer row ≠ Some Category) →
  rows st !! j = Some (append_button classification_button
                         (cell_texts (tds Sub) ++ [label R]))
  ∧ ∀ df, extract_table_data table classification_button = Ok df →
          length (tds Sub) = length (ths table) →
          lit "Classification" ∉ strip <$> ths table →
          ∃ rec, records df !! j = Some rec
                 ∧ cell rec (lit "Classification") = VStr (label R).
Proof.
  intros Hst Hi HR Hj HS Hij Hmid.
  assert (rows st !! j = Some (append_button classification_button
                                 (cell_texts (tds Sub) ++ [label R]))) as Hout.
  { destruct (extract_loop_lookup _ _ _ _ _ j Sub Hst Hj)
      as (st1 & kind & Hpre & Hkind & Hout).
    assert (kind = SubItem) as -> by congruence.
    cbn [classification] in Hout.
    assert (take j body !! i = Some R) as Hi'
      by (apply lookup_take_Some; split; [done|lia]).
    rewrite <- (take_drop_middle _ i R Hi') in Hpre.
    apply for_each_app_Ok in Hpre as (st0 & _ & Hpre).
    apply for_each_cons_Ok in Hpre as (stR & HstR & Hpre).
    rewrite extract_row_kind, HR in HstR. injection HstR as <-.
    apply extract_loop_carried in Hpre as [_ Hcarried].
    - rewrite Hcarried in Hout. exact Hout.
    - apply Forall_lookup. intros k row Hk.
      rewrite lookup_drop in Hk. apply lookup_take_Some in Hk as [Hk Hlt].
      apply (Hmid (S i + k)%nat); [lia|done]. }
  split; [exact Hout|]. intros df. by apply classification_column with st.
Qed.

(** C8.  A sub-item row with no category row before it in the table is
    extracted with the empty string as its classification: nothing is
    raised for it. *)
Theorem subitem_before_category_is_empty (st : ExtractState) (j : nat) (Sub : Tr) :
  extract_rows table classification_button = Ok st →
  body !! j = Some Sub → row_kind footer Sub = Some SubItem →
  (∀ k row, (k < j)%nat → body !! k = Some row →
            row_kind footer row ≠ Some Category) →
  rows st !! j = Some (append_button classification_button
                         (cell_texts (tds Sub) ++ [[]]))
  ∧ ∀ df, extract_table_data table classification_button = Ok df →
          length (tds Sub) = length (ths table) →
          lit "Classification" ∉ strip <$> ths table →
          ∃ rec, records df !! j = Some rec
                 ∧ cell rec (lit "Classification") = VStr [].
Proof.
  intros Hst Hj HS Hpre.
  assert (rows st !! j = Some (append_button classification_button
                                 (cell_texts (tds Sub) ++ [[]]))) as Hout.
  { destruct (extract_loop_lookup _ _ _ _ _ j Sub Hst Hj)
      as (st1 & kind & Hrun & Hkind & Hout).
    assert (kind = SubItem) as -> by congruence.
    cbn [classification] in Hout.
    apply extract_loop_carried in Hrun as [_ Hcarried].
    - rewrite Hcarried in Hout. exact Hout.
    - apply Forall_lookup. intros k row Hk.
      apply lookup_take_Some in Hk as [Hk Hlt]. by apply (Hpre k). }
  split; [exact Hout|]. intros df. by apply classification_column with st.
Qed.

Lemma row_kind_None (row : Tr) :
  row_kind footer row = None ↔ in_footer footer row = false ∧ tds row = [].
Proof.
  unfold row_kind. destruct (in_footer footer row).
  - split; [done|]. by intros [? _].
  - destruct (tds row) as [|cell0 cells]; [done|].
    split; [|by intros [_ ?]]. by repeat case_match.
Qed.

(** C9.  The row loop reads [cells[0]] of every row after the first
    that is not a footer row.  When each of these rows has a cell the
    loop runs to its end, with one list per row; a row outside the
    footer that has no cell makes it raise [IndexError]. *)
Theorem first_cell_access :
  (Forall (λ row, in_footer footer row = false → tds row ≠ []) body →
   ∃ st, extract_rows table classification_button = Ok st
         ∧ length (rows st) = length body)
  ∧ (∀ row, row ∈ body → in_footer footer row = false → tds row = [] →
            extract_rows table classification_button = Raise IndexError).
Proof.
  split.
  - intros Hbody.
    destruct (extract_loop_total footer classification_button body extract_init)
      as [st Hst].
    { eapply Forall_impl; [exact Hbody|]. intros row Hrow.
      destruct (row_kind footer row) eqn:Hkind; [by eexists|].
      apply row_kind_None in Hkind as [Hfoot Hnil]. by destruct (Hrow Hfoot). }
    exists st. split; [exact Hst|].
    destruct (extract_loop_rows _ _ _ _ _ Hst) as (outs & -> & Hlen).
    exact Hlen.
  - intros row Hin Hfoot Hnil. eapply extract_loop_raises; [exact Hin|].
    by apply row_kind_None.
Qed.
End classification.

Lemma extract_producao_2022 :
  extract_rows producao_2022 [] = Ok producao_2022_rows
  ∧ extract_table_data producao_2022 [] = Ok producao_2022_frame.
Proof. split; vm_compute; reflexivity. Qed.

Lemma footer_row_is_total_witness :
  rows producao_2022_rows !! 2%nat = Some [lit "Total"; lit "14.000"; lit "Total"]
  ∧ ∃ rec, records producao_2022_frame !! 2%nat = Some rec
           ∧ cell rec (lit "Classification") = VStr (lit "Total").
Proof.
  assert (extract_rows producao_2022 [] = Ok producao_2022_rows) as Hst
    by (vm_compute; reflexivity).
  assert (find_footer producao_2022
          = Some {| tfoot_class := ["tb_total"]%string; tfoot_trs := [row_total] |})
    as Hfoot by reflexivity.
  assert (row_total ∈ [row_total]) as Hrow by (apply list_elem_of_singleton; reflexivity).
  assert (drop 1 (trs producao_2022) !! 2%nat = Some row_total) as Hi by reflexivity.
  split.
  - exact (proj1 (footer_row_is_total producao_2022 [] producao_2022_rows _ 2 row_total
                    Hst Hfoot Hrow Hi)).
  - refine (proj2 (footer_row_is_total producao_2022 [] producao_2022_rows _ 2 row_total
                     Hst Hfoot Hrow Hi) producao_2022_frame _ _ _).
    + vm_compute. reflexivity.
    + reflexivity.
    + apply (bool_decide_unpack _). vm_compute. exact I.
Defined.

Lemma subitem_inherits_category_witness :
  rows producao_2022_rows !! 1%nat
  = Some [lit "Tinto"; lit "4.000"; lit "VINHO DE MESA"]
  ∧ ∃ rec, records producao_2022_frame !! 1%nat = Some rec
           ∧ cell rec (lit "Classification") = VStr (lit "VINHO DE MESA").
Proof.
  assert (extract_rows producao_2022 [] = Ok producao_2022_rows) as Hst
    by (vm_compute; reflexivity).
  assert (∀ k row, (0 < k < 1)%nat → drop 1 (trs producao_2022) !! k = Some row →
                   row_kind (find_footer producao_2022) row ≠ Some Category) as Hmid
    by (intros k row Hk; lia).
  split.
  - exact (proj1 (subitem_inherits_category producao_2022 [] producao_2022_rows
                    0 1 row_category row_subitem Hst eq_refl eq_refl eq_refl eq_refl
                    (le_n 1) Hmid)).
  - refine (proj2 (subitem_inherits_category producao_2022 [] producao_2022_rows
                     0 1 row_category row_subitem Hst eq_refl eq_refl eq_refl eq_refl
                     (le_n 1) Hmid) producao_2022_frame _ _ _).
    + vm_compute. reflexivity.
    + reflexivity.
    + apply (bool_decide_unpack _). vm_compute. exact I.
Defined.

Lemma subitem_before_category_is_empty_witness :
  rows orphan_rows !! 0%nat = Some [lit "Tinto"; lit "4.000"; []]
  ∧ ∃ rec, records orphan_frame !! 0%nat = Some rec
           ∧ cell rec (lit "Classification") = VStr [].
Proof.
  assert (extract_rows orphan_table [] = Ok orphan_rows) as Hst
    by (vm_compute; reflexivity).
  assert (∀ k row, (k < 0)%nat → drop 1 (trs orphan_table) !! k = Some row →
                   row_kind (find_footer orphan_table) row ≠ Some Category) as Hpre
    by (intros k row Hk; lia).
  split.
  - exact (proj1 (subitem_before_category_is_empty orphan_table [] orphan_rows
                    0 row_subitem Hst eq_refl eq_refl Hpre)).
  - refine (proj2 (subitem_before_category_is_empty orphan_table [] orphan_rows
                     0 row_subitem Hst eq_refl eq_refl Hpre) orphan_frame _ _ _).
    + vm_compute. reflexivity.
    + reflexivity.
    + apply (bool_decide_unpack _). vm_compute. exact I.
Defined.

Lemma first_cell_access_witness :
  (∃ st, extract_rows producao_2022 [] = Ok st
         ∧ length (rows st) = length (drop 1 (trs producao_2022)))
  ∧ extract_rows ragged_table [] = Raise IndexError.
Proof.
  split.
  - apply (proj1 (first_cell_access producao_2022 [])).
    repeat constructor; intros _; discriminate.
  - apply (proj2 (first_cell_access ragged_table []) (tr [])).
    + apply list_elem_of_In. right. left. reflexivity.
    + reflexivity.
    + reflexivity.
Defined.

(** ** DatasetAccumulator and ScrapeController *)

Lemma for_each_bind {S A B} (body : S → B → result S) (g : A → list B)
    (l : list A) (st : S) :
  for_each (λ st a, for_each body (g a) st) l st = for_each body (l ≫= g) st.
Proof.
  revert st. induction l as [|a l IH]; intros st; [done|].
  rewrite bind_cons, for_each_app. cbn [for_each].
  destruct (for_each body (g a) st) as [st'|e]; cbn; [apply IH|done].
Qed.

(** A loop whose body appends what an action returns, whatever the state
    is, collects the actions' results in order. *)
Lemma for_each_mapM {S A B} (act : B → result A) (add : S → A → S)
    (l : list B) (st : S) :
  for_each (λ st b, add st <$> act b) l st = foldl add st <$> mapM act l.
Proof.
  revert st. induction l as [|b l IH]; intros st; [done|].
  cbn [for_each]. cbn. destruct (act b) as [a|e]; cbn; [|done].
  rewrite IH. by destruct (mapM act l).
Qed.

Lemma for_each_ext {S B} (body body' : S → B → result S) (l : list B) (st : S) :
  (∀ st b, body st b = body' st b) → for_each body l st = for_each body' l st.
Proof.
  intros Hext. revert st. induction l as [|b l IH]; intros st; [done|].
  cbn [for_each]. rewrite Hext. destruct (body' st b); cbn; [apply IH|done].
Qed.

Lemma for_each_fmap {S A B} (body : S → B → result S) (f : A → B)
    (l : list A) (st : S) :
  for_each body (f <$> l) st = for_each (λ st a, body st (f a)) l st.
Proof.
  revert st. induction l as [|a l IH]; intros st; [done|].
  cbn. destruct (body st (f a)); cbn; [apply IH|done].
Qed.

Lemma concat_empty_l (df : DataFrame) : concat empty_DataFrame df = df.
Proof.
  destruct df as [cols recs]. unfold concat. cbn. f_equal.
  induction cols as [|c cols IH]; [done|].
  rewrite filter_cons_True by apply not_elem_of_nil. by rewrite IH.
Qed.

Lemma concat_empty_r (df : DataFrame) : concat df empty_DataFrame = df.
Proof.
  destruct df as [cols recs]. unfold concat. cbn.
  by rewrite !app_nil_r.
Qed.

Lemma records_foldl_concat (data : DataFrame) (frames : list DataFrame) :
  records (foldl concat data frames) = records data ++ mjoin (records <$> frames).
Proof.
  revert data. induction frames as [|df frames IH]; intros data; cbn.
  - by rewrite app_nil_r.
  - rewrite IH. cbn. by rewrite app_assoc.
Qed.

Lemma records_assign_scalar (c : pystr) (v : value) (df : DataFrame) :
  Forall (λ r, cell r c = v) (records (assign_scalar c v df)).
Proof.
  unfold assign_scalar. cbn. apply Forall_fmap, Forall_forall.
  intros r _. apply cell_insert_eq.
Qed.

Section accumulate.
Context `{Transliteration} `{Web} `{Scraper}.

(** What a fetch appends does not depend on the frame accumulated so
    far. *)
Lemma scrape_target_fetch (data : DataFrame) (target : Z * option Button) :
  scrape_target data target = concat data <$> fetch target.
Proof.
  unfold fetch, scrape_target. destruct target as [year [button|]]; cbn [fst snd].
  - unfold scrape_button.
    destruct (create_parameters year (Some button)) as [params|]; [|reflexivity]. cbn.
    destruct (get_html_content base_url params) as [html_content|]; [|reflexivity]. cbn.
    destruct (find_data_table (parse_html html_content)) as [table|].
    + destruct (getitem button (lit "classification_button")) as [cb|]; [|reflexivity]. cbn.
      destruct (extract_table_data table cb) as [df|]; [|reflexivity]. cbn.
      by rewrite concat_empty_l.
    + destruct (getitem button (lit "value")); [|reflexivity]. cbn.
      by rewrite concat_empty_r.
  - unfold scrape_year.
    destruct (create_parameters year None) as [params|]; [|reflexivity]. cbn.
    destruct (get_html_content base_url params) as [html_content|]; [|reflexivity]. cbn.
    destruct (find_data_table (parse_html html_content)) as [table|].
    + destruct (extract_table_data table []) as [df|]; [|reflexivity]. cbn.
      by rewrite concat_empty_l.
    + cbn. by rewrite concat_empty_r.
Qed.

Lemma scrape_years_body_targets (buttons : list Button) (data : DataFrame) (year : Z) :
  get_buttons = Ok buttons →
  scrape_years_body data year =
  for_each scrape_target
    (if bool_decide (buttons ≠ [])
     then (λ button, (year, Some button)) <$> buttons else [(year, None)]) data.
Proof.
  intros Hb. unfold scrape_years_body. rewrite Hb. cbn.
  case_bool_decide.
  - rewrite for_each_fmap. by apply for_each_ext.
  - cbn. unfold scrape_target. cbn. by destruct (scrape_year year data).
Qed.

Lemma accumulate_targets (buttons : list Button) (data : DataFrame) :
  get_buttons = Ok buttons →
  accumulate data = for_each scrape_target (targets years buttons) data.
Proof.
  intros Hb. unfold accumulate, targets. rewrite <- for_each_bind.
  apply for_each_ext. intros st year. by apply scrape_years_body_targets.
Qed.

Lemma accumulate_fetch (buttons : list Button) (data : DataFrame) :
  get_buttons = Ok buttons →
  accumulate data = foldl concat data <$> mapM fetch (targets years buttons).
Proof.
  intros Hb. rewrite (accumulate_targets buttons) by done.
  rewrite <- for_each_mapM. apply for_each_ext. intros st target.
  apply scrape_target_fetch.
Qed.

Lemma fetch_year (target : Z * option Button) (df : DataFrame) :
  fetch target = Ok df →
  Forall (λ r, cell r (lit "Year") = VInt target.1) (records df).
Proof.
  unfold fetch, scrape_target. destruct target as [year [button|]]; cbn [fst snd].
  - unfold scrape_button.
    intros (params & _ & Hrun)%bind_Ok.
    apply bind_Ok in Hrun as (html_content & _ & Hrun).
    destruct (find_data_table (parse_html html_content)) as [table|].
    + apply bind_Ok in Hrun as (cb & _ & Hrun).
      apply bind_Ok in Hrun as (df' & _ & Hrun).
      injection Hrun as <-. rewrite concat_empty_l.
      apply records_assign_scalar.
    + apply bind_Ok in Hrun as (? & _ & Hrun). injection Hrun as <-.
      constructor.
  - unfold scrape_year.
    intros (params & _ & Hrun)%bind_Ok.
    apply bind_Ok in Hrun as (html_content & _ & Hrun).
    destruct (find_data_table (parse_html html_content)) as [table|].
    + apply bind_Ok in Hrun as (df' & _ & Hrun).
      injection Hrun as <-. rewrite concat_empty_l.
      apply records_assign_scalar.
    + injection Hrun as <-. constructor.
Qed.

(** [clean_data] keeps the rows in their order and the integer cells in
    their rows. *)
Lemma clean_data_integers (data : DataFrame) :
  ∃ out, clean_data data = Ok out
         ∧ Forall2 (λ r r', ∀ c z, cell r c = VInt z → cell r' c = VInt z)
                   (records data) (records out).
Proof.
  unfold clean_data. rewrite normalize_columns_eq. eexists. split; [done|].
  cbn [records]. apply Forall2_fmap_r, Forall_Forall2_diag, Forall_forall.
  intros r _ c z Hc. rewrite normalize_record_nontext; [done|]. by rewrite Hc.
Qed.
End accumulate.

Lemma mapM_app_Ok {A B} (f : A → result B) (l1 l2 : list A) (k : list B) :
  mapM f (l1 ++ l2) = Ok k →
  ∃ k1 k2, k = k1 ++ k2 ∧ mapM f l1 = Ok k1 ∧ mapM f l2 = Ok k2.
Proof.
  revert k. induction l1 as [|x l1 IH]; intros k Hk.
  - by exists [], k.
  - cbn in Hk. apply bind_Ok in Hk as (y & Hy & Hk).
    apply bind_Ok in Hk as (k' & Hk' & Hk). injection Hk as <-.
    destruct (IH _ Hk') as (k1 & k2 & -> & Hk1 & Hk2).
    exists (y :: k1), k2. split; [done|]. split; [|done].
    cbn. rewrite Hy. cbn. by rewrite Hk1.
Qed.

Lemma mapM_Ok_Forall2 {A B} (f : A → result B) (l : list A) (k : list B) :
  mapM f l = Ok k → Forall2 (λ x y, f x = Ok y) l k.
Proof.
  revert k. induction l as [|x l IH]; intros k Hk.
  - injection Hk as <-. constructor.
  - cbn in Hk. apply bind_Ok in Hk as (y & Hy & Hk).
    apply bind_Ok in Hk as (k' & Hk' & Hk). injection Hk as <-.
    constructor; [done|]. by apply IH.
Qed.

Section run_scraping.
Context `{Transliteration} `{Web} `{Scraper}.

Lemma targets_app (ys1 ys2 : list Z) (buttons : list Button) :
  targets (ys1 ++ ys2) buttons = targets ys1 buttons ++ targets ys2 buttons.
Proof. unfold targets. apply bind_app. Qed.

Lemma targets_year (ys : list Z) (buttons : list Button) (target : Z * option Button) :
  target ∈ targets ys buttons → target.1 ∈ ys.
Proof.
  unfold targets. intros (year & Ht & Hy)%list_elem_of_bind.
  case_bool_decide.
  - apply list_elem_of_fmap in Ht as (b & -> & _). done.
  - apply list_elem_of_singleton in Ht as ->. done.
Qed.

(** A fetch that returns holds the records the specification gives for
    its target, and returns whenever there are such records. *)
Lemma fetch_fetched (target : Z * option Button) (f : DataFrame) :
  fetch target = Ok f → fetched target (records f).
Proof.
  unfold fetch, scrape_target, fetched.
  destruct target as [year [button|]]; cbn [fst snd].
  - unfold scrape_button. intros (params & Hp & Hrun)%bind_Ok.
    apply bind_Ok in Hrun as (page & Hpage & Hrun). exists params, page.
    split; [done|]. split; [done|].
    destruct (find_data_table (parse_html page)) as [table|].
    + apply bind_Ok in Hrun as (label & Hlabel & Hrun).
      apply bind_Ok in Hrun as (df & Hdf & [= <-]).
      exists label, df. split_and!; [|done..].
      unfold getitem in Hlabel.
      destruct (button !! lit "classification_button"); by inversion Hlabel.
    + apply bind_Ok in Hrun as (v & Hv & [= <-]). split; [|done].
      unfold getitem in Hv. by destruct (button !! lit "value").
  - unfold scrape_year. intros (params & Hp & Hrun)%bind_Ok.
    apply bind_Ok in Hrun as (page & Hpage & Hrun). exists params, page.
    split; [done|]. split; [done|].
    destruct (find_data_table (parse_html page)) as [table|].
    + apply bind_Ok in Hrun as (df & Hdf & [= <-]). by exists df.
    + by injection Hrun as <-.
Qed.

Lemma fetched_fetch (target : Z * option Button) (recs : list record) :
  fetched target recs → ∃ f, fetch target = Ok f ∧ records f = recs.
Proof.
  unfold fetch, scrape_target, fetched.
  destruct target as [year [button|]]; cbn [fst snd];
    intros (params & page & Hp & Hpage & Hrecs).
  - unfold scrape_button. rewrite Hp. cbn [mbind result_bind]. rewrite Hpage.
    cbn [mbind result_bind].
    destruct (find_data_table (parse_html page)) as [table|].
    + destruct Hrecs as (label & df & Hlabel & Hdf & ->).
      unfold getitem. rewrite Hlabel. cbn [mbind result_bind]. rewrite Hdf.
      cbn [mbind result_bind]. eexists. split; reflexivity.
    + destruct Hrecs as [[v Hv] ->]. unfold getitem. rewrite Hv.
      eexists. split; reflexivity.
  - unfold scrape_year. rewrite Hp. cbn [mbind result_bind]. rewrite Hpage.
    cbn [mbind result_bind].
    destruct (find_data_table (parse_html page)) as [table|].
    + destruct Hrecs as (df & Hdf & ->). rewrite Hdf.
      eexists. split; reflexivity.
    + subst recs. eexists. split; reflexivity.
Qed.

Lemma mapM_fetch_fetched (ts : list (Z * option Button)) (frames : list DataFrame) :
  mapM fetch ts = Ok frames → Forall2 fetched ts (records <$> frames).
Proof.
  intros Hf%mapM_Ok_Forall2. apply Forall2_fmap_r.
  eapply Forall2_impl; [exact Hf|]. intros target f. apply fetch_fetched.
Qed.

Lemma fetched_mapM_fetch (ts : list (Z * option Button)) (fetches : list (list record)) :
  Forall2 fetched ts fetches →
  ∃ frames, mapM fetch ts = Ok frames ∧ records <$> frames = fetches.
Proof.
  induction 1 as [|target recs ts fetches Hrecs _ (frames & Hframes & Heq)].
  - by exists [].
  - apply fetched_fetch in Hrecs as (f & Hf & <-). exists (f :: frames).
    split; [|by rewrite <- Heq]. cbn. rewrite Hf. cbn. by rewrite Hframes.
Qed.

(** Every record of a fetch has the year of its target under 'Year'. *)
Lemma fetched_year (target : Z * option Button) (recs : list record) :
  fetched target recs →
  Forall (λ r, r !! lit "Year" = Some (VInt target.1)) recs.
Proof.
  assert (∀ l, Forall (λ r : record, r !! lit "Year" = Some (VInt target.1))
                 (stamp target.1 l)) as Hstamp.
  { intros l. apply Forall_fmap, Forall_forall. intros r _. cbn.
    apply lookup_insert_eq. }
  intros (params & page & _ & _ & Hrecs).
  destruct (find_data_table (parse_html page)), target.2.
  - destruct Hrecs as (? & ? & _ & _ & ->). apply Hstamp.
  - destruct Hrecs as (? & _ & ->). apply Hstamp.
  - destruct Hrecs as [_ ->]. constructor.
  - subst recs. constructor.
Qed.

Lemma fetched_years (ys : list Z) (buttons : list Button) (cs : list pystr)
    (fetches : list (list record)) :
  Forall2 fetched (targets ys buttons) fetches →
  Forall (λ r, ∃ year, year ∈ ys ∧ cell r (lit "Year") = VInt year)
         (normalize_record cs <$> mjoin fetches).
Proof.
  intros Hf.
  assert (Forall (λ target : Z * option Button, target.1 ∈ ys) (targets ys buttons)) as Hys
    by (apply Forall_forall; intros t; apply targets_year).
  apply Forall_fmap.
  induction Hf as [|target recs ts fetches Hrecs _ IH]; [constructor|].
  apply Forall_cons in Hys as [Hy Hys]. cbn. apply Forall_app. split; [|by apply IH].
  eapply Forall_impl; [exact (fetched_year _ _ Hrecs)|].
  intros r Hr. exists target.1. split; [done|]. cbn.
  rewrite normalize_record_nontext; unfold cell; by rewrite Hr.
Qed.

(** C6.  With the list of buttons that [get_buttons] returns, the
    targets of a run are the years in their order and, within a year,
    the buttons in their order (or the year alone when there is no
    button).  What a run returns is the frame it started from followed
    by the records of each target in that order: the records extracted
    from the data table of the target's page, each stamped with the
    year of the target before it is appended; [clean_data] then
    normalises the rows where they are.  The run returns whenever every
    target has such records.  Hence, when the years are [ys1] followed
    by [ys2], the records of the years [ys1] all come before those of
    [ys2] in the frame the run returns, each with its year under
    'Year'. *)
Theorem run_scraping_accumulates_in_order (buttons : list Button) (data : DataFrame) :
  get_buttons = Ok buttons →
  (∀ out, run_scraping data = Ok out →
     ∃ fetches acc,
       Forall2 fetched (targets years buttons) fetches
       ∧ accumulate data = Ok acc
       ∧ records acc = records data ++ mjoin fetches
       ∧ records out = normalize_record (select_dtypes_object acc) <$> records acc)
  ∧ (∀ fetches, Forall2 fetched (targets years buttons) fetches →
       ∃ out, run_scraping data = Ok out)
  ∧ (∀ target recs, fetched target recs →
       Forall (λ r, r !! lit "Year" = Some (VInt target.1)) recs)
  ∧ (∀ ys1 ys2 out, years = ys1 ++ ys2 → run_scraping data = Ok out →
       ∃ fs1 fs2 cs,
         Forall2 fetched (targets ys1 buttons) fs1
         ∧ Forall2 fetched (targets ys2 buttons) fs2
         ∧ records out
           = normalize_record cs <$> (records data ++ mjoin fs1 ++ mjoin fs2)
         ∧ Forall (λ r, ∃ year, year ∈ ys1 ∧ cell r (lit "Year") = VInt year)
             (normalize_record cs <$> mjoin fs1)
         ∧ Forall (λ r, ∃ year, year ∈ ys2 ∧ cell r (lit "Year") = VInt year)
             (normalize_record cs <$> mjoin fs2)).
Proof.
  intros Hb.
  assert (∀ out, run_scraping data = Ok out →
            ∃ frames, mapM fetch (targets years buttons) = Ok frames
                      ∧ accumulate data = Ok (foldl concat data frames)
                      ∧ records out
                        = normalize_record
                            (select_dtypes_object (foldl concat data frames))
                          <$> (records data ++ mjoin (records <$> frames))) as Hrun.
  { intros out. unfold run_scraping, clean_data.
    rewrite (accumulate_fetch buttons) by done.
    destruct (mapM fetch (targets years buttons)) as [frames|]; [|done].
    cbn [fmap result_fmap mbind result_bind]. rewrite normalize_columns_eq.
    intros [= <-]. exists frames. split_and!; [done..|].
    cbn [records]. by rewrite records_foldl_concat. }
  split_and!.
  - intros out (frames & Hframes & Hacc & Hout)%Hrun.
    exists (records <$> frames), (foldl concat data frames).
    split_and!; [by apply mapM_fetch_fetched|done|apply records_foldl_concat|].
    by rewrite records_foldl_concat.
  - intros fetches (frames & Hframes & _)%fetched_mapM_fetch.
    unfold run_scraping. rewrite (accumulate_fetch buttons), Hframes by done.
    cbn [fmap result_fmap mbind result_bind].
    destruct (clean_data_integers (foldl concat data frames)) as (out & Hout & _).
    by exists out.
  - apply fetched_year.
  - intros ys1 ys2 out Hys (frames & Hframes & _ & Hout)%Hrun.
    rewrite Hys, targets_app in Hframes.
    apply mapM_app_Ok in Hframes as (fs1 & fs2 & -> & Hfs1 & Hfs2).
    apply mapM_fetch_fetched in Hfs1, Hfs2.
    exists (records <$> fs1), (records <$> fs2),
      (select_dtypes_object (foldl concat data (fs1 ++ fs2))).
    split_and!; [done|done| |by eapply fetched_years..].
    rewrite Hout. f_equal. f_equal. by rewrite fmap_app, join_app.
Qed.

Lemma find_data_table_None (soup : Soup) :
  find_data_table soup = None ↔
  ∀ table, table ∈ soup → table_class table ≠ ["tb_base"; "tb_dados"]%string.
Proof.
  unfold find_data_table. rewrite head_None. split.
  - intros Hnil table Hin Hclass.
    assert (table ∈ filter (λ t, table_class t = ["tb_base"; "tb_dados"]%string) soup) as Hf
      by (by apply list_elem_of_filter).
    rewrite Hnil in Hf. by apply elem_of_nil in Hf.
  - intros Hall. induction soup as [|table soup IH]; [done|].
    rewrite filter_cons_False by (apply Hall; left).
    apply IH. intros t Ht. apply Hall. by right.
Qed.

(** C7.  [find_data_table] returns [None] when no table of the page has
    the marker.  A fetch that finds no table returns the accumulated
    frame as it was and contributes a frame without records, for a
    button (whose ["value"] the message names) as for a year alone; the
    loop over the buttons then goes on with the buttons that follow, as
    if the button had not been there. *)
Theorem missing_table_is_skipped :
  (∀ soup, (∀ table, table ∈ soup →
              table_class table ≠ ["tb_base"; "tb_dados"]%string) →
           find_data_table soup = None)
  ∧ (∀ year button params html_content,
       create_parameters year (Some button) = Ok params →
       get_html_content base_url params = Ok html_content →
       find_data_table (parse_html html_content) = None →
       is_Some (button !! lit "value") →
       (∀ data, scrape_button year data button = Ok data)
       ∧ fetch (year, Some button) = Ok empty_DataFrame
       ∧ ∀ before after data,
           for_each (scrape_button year) (before ++ button :: after) data
           = for_each (scrape_button year) (before ++ after) data)
  ∧ (∀ year params html_content,
       create_parameters year None = Ok params →
       get_html_content base_url params = Ok html_content →
       find_data_table (parse_html html_content) = None →
       (∀ data, scrape_year year data = Ok data)
       ∧ fetch (year, None) = Ok empty_DataFrame).
Proof.
  split_and!.
  - intros soup. apply find_data_table_None.
  - intros year button params html_content Hp Hh Ht [v Hv].
    assert (∀ data, scrape_button year data button = Ok data) as Hskip.
    { intros data. unfold scrape_button. rewrite Hp. cbn. rewrite Hh. cbn.
      rewrite Ht. unfold getitem. by rewrite Hv. }
    split_and!; [exact Hskip|apply Hskip|].
    intros before after data. rewrite !for_each_app. cbn [for_each].
    destruct (for_each (scrape_button year) before data) as [data'|]; [|done].
    cbn. by rewrite Hskip.
  - intros year params html_content Hp Hh Ht.
    assert (∀ data, scrape_year year data = Ok data) as Hskip.
    { intros data. unfold scrape_year. rewrite Hp. cbn. rewrite Hh. cbn.
      by rewrite Ht. }
    split; [exact Hskip|apply Hskip].
Qed.
End run_scraping.

(** [WebScraper] itself cannot run over a year: its [get_buttons] is
    not implemented. *)
Lemma WebScraper_run_scraping `{Transliteration} `{Web}
    (url : pystr) (year : Z) (ys : list Z) (data : DataFrame) :
  @run_scraping _ _ (WebScraper url (year :: ys)) data = Raise NotImplementedError.
Proof. reflexivity. Qed.

(** A run over 2020 and 2022, and the same run with 2021 in between,
    whose page has no data table. *)
Lemma run_scraping_example :
  @run_scraping unidecode_tables example_web (example_scraper [2020; 2022]%Z [])
    empty_DataFrame = Ok example_run
  ∧ @run_scraping unidecode_tables example_web (example_scraper [2020; 2021; 2022]%Z [])
      empty_DataFrame = Ok example_run.
Proof. split; vm_compute; reflexivity. Qed.

Lemma run_scraping_accumulates_in_order_witness :
  ∃ fs1 fs2 cs,
    Forall2 (@fetched example_web (example_scraper [2020; 2022]%Z [example_button]))
      (targets [2020%Z] [example_button]) fs1
    ∧ Forall2 (@fetched example_web (example_scraper [2020; 2022]%Z [example_button]))
        (targets [2022%Z] [example_button]) fs2
    ∧ records example_button_run
      = normalize_record cs <$> (records empty_DataFrame ++ mjoin fs1 ++ mjoin fs2)
    ∧ Forall (λ r, ∃ year, year ∈ [2020%Z] ∧ cell r (lit "Year") = VInt year)
        (normalize_record cs <$> mjoin fs1)
    ∧ Forall (λ r, ∃ year, year ∈ [2022%Z] ∧ cell r (lit "Year") = VInt year)
        (normalize_record cs <$> mjoin fs2).
Proof.
  refine (proj2 (proj2 (proj2
            (@run_scraping_accumulates_in_order unidecode_tables example_web
               (example_scraper [2020; 2022]%Z [example_button]) [example_button]
               empty_DataFrame eq_refl)))
            [2020%Z] [2022%Z] example_button_run eq_refl _).
  vm_compute. reflexivity.
Defined.

Lemma missing_table_is_skipped_witness :
  (∀ data, @scrape_year example_web (example_scraper [2021]%Z []) 2021 data = Ok data)
  ∧ (∀ data, @scrape_button example_web (example_scraper [2021]%Z [example_button])
               2021 data example_button = Ok data).
Proof.
  split.
  - refine (proj1 (proj2 (proj2 (@missing_table_is_skipped example_web
                                   (example_scraper [2021]%Z [])))
                     2021%Z {[ lit "ano" := VInt 2021 ]} [layout_table] _ _ _)).
    + reflexivity.
    + reflexivity.
    + reflexivity.
  - refine (proj1 (proj1 (proj2 (@missing_table_is_skipped example_web
                                   (example_scraper [2021]%Z [example_button])))
                     2021%Z example_button {[ lit "ano" := VInt 2021 ]} [layout_table]
                     _ _ _ _)).
    + reflexivity.
    + reflexivity.
    + reflexivity.
    + exists (lit "subopt_01"). vm_compute. reflexivity.
Defined.

(** * Further properties *)

(** ** TableLocator *)

(** X1.  [find_data_table] returns the first table of the page whose
    class attribute is exactly "tb_base tb_dados": a table is returned
    exactly when it has the marker and no table before it in the page
    has. *)
Theorem find_data_table_first (soup : Soup) (table : Table) :
  find_data_table soup = Some table ↔
  ∃ before after,
    soup = before ++ table :: after
    ∧ table_class table = ["tb_base"; "tb_dados"]%string
    ∧ Forall (λ t, table_class t ≠ ["tb_base"; "tb_dados"]%string) before.
Proof.
  unfold find_data_table. induction soup as [|t soup IH].
  - split; [done|]. intros (before & after & Hsoup & _). by destruct before.
  - destruct (decide (table_class t = ["tb_base"; "tb_dados"]%string)) as [Ht|Ht].
    + rewrite filter_cons_True by done. cbn. split.
      * intros [= ->]. exists [], soup. by repeat split.
      * intros ([|t' before] & after & Hsoup & Hclass & Hbefore).
        -- by injection Hsoup as ->.
        -- injection Hsoup as -> _. by apply Forall_cons in Hbefore as [? _].
    + rewrite filter_cons_False by done. rewrite IH. split.
      * intros (before & after & -> & Hclass & Hbefore).
        exists (t :: before), after. repeat split; [done|]. by constructor.
      * intros ([|t' before] & after & Hsoup & Hclass & Hbefore).
        -- injection Hsoup as -> _. contradiction.
        -- injection Hsoup as -> ->. apply Forall_cons in Hbefore as [_ Hbefore].
           by exists before, after.
Qed.

(** ** HierarchicalTableExtractor: the frame as a whole *)

Lemma max_list_shift (k : nat) (l : list nat) :
  l ≠ [] → max_list ((λ n, n + k)%nat <$> l) = (max_list l + k)%nat.
Proof.
  induction l as [|n l IH]; intros Hne; [done|]. cbn.
  destruct l as [|n' l]; [cbn; lia|]. rewrite IH by done. lia.
Qed.

Lemma append_button_length (classification_button : pystr) (l : list pystr) :
  length (append_button classification_button l)
  = (length l + (if bool_decide (classification_button ≠ []) then 1 else 0))%nat.
Proof. unfold append_button. case_bool_decide; [|lia]. by rewrite length_app. Qed.

Lemma extract_headers_length (table : Table) (classification_button : pystr) :
  length (extract_headers table classification_button)
  = (length (ths table) + 1
     + (if bool_decide (classification_button ≠ []) then 1 else 0))%nat.
Proof.
  unfold extract_headers. rewrite !length_app, length_fmap. cbn.
  case_bool_decide; cbn; lia.
Qed.

Section outcome.
Context (table : Table) (classification_button : pystr).

Lemma extract_rows_widths (st : ExtractState) :
  extract_rows table classification_button = Ok st →
  length <$> rows st =
  (λ row, length (tds row) + 1
          + (if bool_decide (classification_button ≠ []) then 1 else 0))%nat
  <$> drop 1 (trs table).
Proof.
  intros Hst. destruct (extract_loop_widths _ _ _ _ _ Hst) as (outs & -> & Houts).
  cbn. induction Houts as [|row out l outs Hout _ IH]; [done|].
  cbn. rewrite IH. f_equal. rewrite Hout, append_button_length, length_app.
  unfold cell_texts. rewrite length_fmap. cbn. lia.
Qed.

(** X2.  What [extract_table_data] returns is decided by the rows after
    the first: a row that equals no footer row and has no cell makes it
    raise [IndexError]; when every row passes, it returns a frame with the
    headers as columns and one record per row, in particular an empty
    frame for a table of at most one row, provided the widest row has
    exactly one cell per [th]; and otherwise [pd.DataFrame] raises
    [ValueError]. *)
Theorem extract_table_data_outcome :
  (Exists (λ row, row_kind (find_footer table) row = None) (drop 1 (trs table)) →
   extract_table_data table classification_button = Raise IndexError)
  ∧ (Forall (λ row, is_Some (row_kind (find_footer table) row)) (drop 1 (trs table)) →
     (drop 1 (trs table) = []
      ∨ max_list ((λ row, length (tds row)) <$> drop 1 (trs table)) = length (ths table)) →
     ∃ df, extract_table_data table classification_button = Ok df
           ∧ columns df = extract_headers table classification_button
           ∧ length (records df) = length (drop 1 (trs table)))
  ∧ (Forall (λ row, is_Some (row_kind (find_footer table) row)) (drop 1 (trs table)) →
     drop 1 (trs table) ≠ [] →
     max_list ((λ row, length (tds row)) <$> drop 1 (trs table)) ≠ length (ths table) →
     extract_table_data table classification_button = Raise ValueError).
Proof.
  assert (∀ st, extract_rows table classification_button = Ok st →
            drop 1 (trs table) ≠ [] →
            max_list (length <$> rows st)
            = (max_list ((λ row, length (tds row)) <$> drop 1 (trs table)) + 1
               + (if bool_decide (classification_button ≠ []) then 1 else 0))%nat)
    as Hmax.
  { intros st Hst Hne. rewrite (extract_rows_widths st Hst).
    rewrite <- Nat.add_assoc.
    rewrite <- (max_list_shift
                  (1 + (if bool_decide (classification_button ≠ []) then 1 else 0))
                  ((λ row, length (tds row)) <$> drop 1 (trs table)))
      by (by destruct (drop 1 (trs table))).
    rewrite <- list_fmap_compose. f_equal. apply list_fmap_ext.
    intros _ row _. cbn. lia. }
  assert (∀ st, extract_rows table classification_button = Ok st →
            rows st = [] ↔ drop 1 (trs table) = []) as Hnil.
  { intros st Hst. pose proof (extract_rows_widths st Hst) as Hw.
    split; intros Heq; rewrite Heq in Hw.
    - by destruct (drop 1 (trs table)).
    - by destruct (rows st). }
  split_and!.
  - intros (row & Hin & Hkind)%Exists_exists.
    unfold extract_table_data, extract_rows.
    by rewrite (extract_loop_raises _ _ _ _ row Hin Hkind).
  - intros Hkinds Hwidth.
    destruct (extract_loop_total (find_footer table) classification_button
                (drop 1 (trs table)) extract_init Hkinds) as [st Hst].
    unfold extract_table_data. fold (extract_rows table classification_button) in Hst.
    rewrite Hst. cbn. unfold new_DataFrame.
    assert (bool_decide (rows st = [])
            || bool_decide (max_list (length <$> rows st)
                            = length (extract_headers table classification_button))
            = true) as ->.
    { apply orb_true_iff. destruct Hwidth as [Hempty|Hwidth].
      - left. apply bool_decide_eq_true. by apply Hnil.
      - destruct (decide (drop 1 (trs table) = [])) as [Hempty|Hne].
        + left. apply bool_decide_eq_true. by apply Hnil.
        + right. apply bool_decide_eq_true.
          rewrite (Hmax st Hst Hne), extract_headers_length. lia. }
    eexists. split; [done|]. split; [done|]. cbn. rewrite length_fmap.
    rewrite <- (length_fmap length (rows st)), (extract_rows_widths st Hst).
    by rewrite length_fmap.
  - intros Hkinds Hne Hwidth.
    destruct (extract_loop_total (find_footer table) classification_button
                (drop 1 (trs table)) extract_init Hkinds) as [st Hst].
    unfold extract_table_data. fold (extract_rows table classification_button) in Hst.
    rewrite Hst. cbn. unfold new_DataFrame.
    rewrite bool_decide_eq_false_2 by (by rewrite Hnil).
    rewrite bool_decide_eq_false_2; [done|].
    rewrite (Hmax st Hst Hne), extract_headers_length. lia.
Qed.
End outcome.

Lemma extract_table_data_outcome_witness :
  (∃ df, extract_table_data producao_2022 [] = Ok df
         ∧ columns df = extract_headers producao_2022 []
         ∧ length (records df) = length (drop 1 (trs producao_2022)))
  ∧ extract_table_data ragged_table [] = Raise IndexError
  ∧ extract_table_data wide_table [] = Raise ValueError.
Proof.
  split_and!.
  - apply (proj1 (proj2 (extract_table_data_outcome producao_2022 []))).
    + repeat constructor; by eexists.
    + right. reflexivity.
  - apply (proj1 (extract_table_data_outcome ragged_table [])).
    apply Exists_exists. exists (tr []). split; [|reflexivity].
    apply list_elem_of_In. right. left. reflexivity.
  - apply (proj2 (proj2 (extract_table_data_outcome wide_table []))).
    + repeat constructor; by eexists.
    + discriminate.
    + cbn. lia.
Defined.

(** ** HierarchicalTableExtractor: the cells of a record *)

(** A frame built from distinct labels reads, under the label at a
    position, the entry of the row at that position. *)
Lemma lookup_zip_NoDup {V} (hs : list pystr) (xs : list V) (j : nat) (h : pystr) :
  NoDup hs → hs !! j = Some h →
  (list_to_map (zip hs xs) : gmap (list N) V) !! h = xs !! j.
Proof.
  intros Hnd. revert xs j. induction Hnd as [|h0 hs Hh0 Hnd IH]; intros xs j Hj.
  - by rewrite lookup_nil in Hj.
  - destruct xs as [|x xs]; [cbn; by rewrite lookup_empty, lookup_nil|].
    cbn [zip_with list_to_map foldr]. destruct j as [|j]; cbn in Hj.
    + injection Hj as ->. by rewrite lookup_insert_eq.
    + rewrite lookup_insert_ne.
      * exact (IH xs j Hj).
      * cbn. intros Heq. subst h0. apply Hh0. by eapply list_elem_of_lookup_2.
Qed.

Section cells.
Context (table : Table) (classification_button : pystr).

(** The record of a row in the frame: the list the loop appended for it,
    zipped with the headers. *)
Lemma extract_table_data_record (df : DataFrame) (i : nat) (row : Tr) :
  extract_table_data table classification_button = Ok df →
  drop 1 (trs table) !! i = Some row →
  ∃ st cls rest,
    extract_rows table classification_button = Ok st
    ∧ rows st !! i = Some (cell_texts (tds row) ++ cls :: rest)
    ∧ rest = (if bool_decide (classification_button ≠ [])
              then [classification_button] else [])
    ∧ records df !! i =
      Some (list_to_map (zip (extract_headers table classification_button)
                             (VStr <$> (cell_texts (tds row) ++ cls :: rest)))).
Proof.
  intros (st & Hst & _ & Hrecs)%extract_table_data_Ok Hi.
  destruct (extract_loop_lookup _ _ _ _ _ i row Hst Hi)
    as (st1 & kind & _ & _ & Hout).
  cbn in Hout. exists st, (classification kind st1 row).
  unfold append_button in Hout. rewrite <- app_assoc in Hout.
  eexists. split; [done|]. split; [|split; [reflexivity|]].
  - rewrite Hout. by case_bool_decide; rewrite <- ?app_assoc.
  - rewrite Hrecs, list_lookup_fmap, Hout. cbn.
    by case_bool_decide; rewrite <- ?app_assoc.
Qed.

(** X3.  The frame keeps the rows of the table in their order and the
    cells of a row in theirs: when the headers are distinct, the record at
    the position of a row reads, under the label of the j-th [th], the
    trimmed text of the j-th cell of that row. *)
Theorem record_keeps_cell_texts (df : DataFrame) (i j : nat) (row : Tr)
    (h : pystr) (cell_j : Td) :
  extract_table_data table classification_button = Ok df →
  NoDup (extract_headers table classification_button) →
  drop 1 (trs table) !! i = Some row →
  (strip <$> ths table) !! j = Some h →
  tds row !! j = Some cell_j →
  ∃ rec, records df !! i = Some rec ∧ cell rec h = VStr (strip (td_text cell_j)).
Proof.
  intros Hdf Hnd Hi Hh Hj.
  destruct (extract_table_data_record df i row Hdf Hi)
    as (st & cls & rest & _ & _ & _ & Hrec).
  eexists. split; [exact Hrec|]. unfold cell.
  rewrite (lookup_zip_NoDup _ _ j h Hnd).
  - rewrite list_lookup_fmap, lookup_app_l.
    + unfold cell_texts. by rewrite list_lookup_fmap, Hj.
    + unfold cell_texts. rewrite length_fmap. by eapply lookup_lt_Some.
  - unfold extract_headers. by apply lookup_app_l_Some.
Qed.

(** X4.  A row with fewer cells than the table has [th] elements is
    padded on the right, so its derived entries move to the left: the
    classification the loop appended is read under the label of the [th]
    at the position after the row's last cell, and [Classification]
    reads the missing value (or the button, when the row lacks exactly
    one cell and a button is appended). *)
Theorem short_row_shifts_classification (df : DataFrame) (i : nat) (row : Tr) :
  extract_table_data table classification_button = Ok df →
  NoDup (extract_headers table classification_button) →
  drop 1 (trs table) !! i = Some row →
  (length (tds row) < length (ths table))%nat →
  ∃ st rec cls h,
    extract_rows table classification_button = Ok st
    ∧ rows st !! i = Some (append_button classification_button
                             (cell_texts (tds row) ++ [cls]))
    ∧ records df !! i = Some rec
    ∧ (strip <$> ths table) !! length (tds row) = Some h
    ∧ cell rec h = VStr cls
    ∧ cell rec (lit "Classification") =
      if bool_decide (classification_button ≠ [])
         && bool_decide (S (length (tds row)) = length (ths table))
      then VStr classification_button else VNaN.
Proof.
  intros Hdf Hnd Hi Hshort.
  destruct (extract_table_data_record df i row Hdf Hi)
    as (st & cls & rest & Hst & Hrow & Hrest & Hrec).
  destruct (lookup_lt_is_Some_2 (strip <$> ths table) (length (tds row)))
    as [h Hh]; [by rewrite length_fmap|].
  eexists st, _, cls, h. split; [done|]. split.
  { rewrite Hrow, Hrest. unfold append_button.
    by case_bool_decide; rewrite <- ?app_assoc. }
  split; [exact Hrec|]. split; [exact Hh|].
  assert (length (cell_texts (tds row)) = length (tds row)) as Hlen
    by (unfold cell_texts; by rewrite length_fmap).
  unfold cell. split.
  - rewrite (lookup_zip_NoDup _ _ (length (tds row)) h Hnd).
    + rewrite list_lookup_fmap, lookup_app_r by lia.
      by rewrite Hlen, Nat.sub_diag.
    + unfold extract_headers. by apply lookup_app_l_Some.
  - rewrite (lookup_zip_NoDup _ _ (length (ths table)) _ Hnd).
    + rewrite list_lookup_fmap, lookup_app_r by lia. rewrite Hlen, Hrest.
      destruct (length (ths table) - length (tds row))%nat as [|[|k]] eqn:Hk;
        [lia| |].
      * cbn. case_bool_decide; cbn; [|done].
        by rewrite bool_decide_eq_true_2 by lia.
      * cbn. rewrite (bool_decide_eq_false_2 (S _ = _)) by lia.
        rewrite andb_false_r. by case_bool_decide.
    + unfold extract_headers. rewrite lookup_app_r by (by rewrite length_fmap).
      by rewrite length_fmap, Nat.sub_diag.
Qed.

(** X5.  When a button label is given, the frame has a [Button] column
    after [Classification], and every row with one cell per [th] reads
    the label there; when the label is the empty string the frame has no
    such column. *)
Theorem button_column (df : DataFrame) :
  extract_table_data table classification_button = Ok df →
  columns df = (strip <$> ths table) ++ [lit "Classification"]
               ++ (if bool_decide (classification_button ≠ [])
                   then [lit "Button"] else [])
  ∧ (classification_button ≠ [] →
     NoDup (extract_headers table classification_button) →
     ∀ i row, drop 1 (trs table) !! i = Some row →
              length (tds row) = length (ths table) →
              ∃ rec, records df !! i = Some rec
                     ∧ cell rec (lit "Button") = VStr classification_button).
Proof.
  intros Hdf. split.
  - by apply extract_table_data_Ok in Hdf as (st & _ & -> & _).
  - intros Hcb Hnd i row Hi Hfull.
    destruct (extract_table_data_record df i row Hdf Hi)
      as (st & cls & rest & _ & _ & Hrest & Hrec).
    eexists. split; [exact Hrec|]. unfold cell.
    rewrite (bool_decide_eq_true_2 _ Hcb) in Hrest. subst rest.
    rewrite (lookup_zip_NoDup _ _ (S (length (ths table))) _ Hnd).
    + rewrite list_lookup_fmap, lookup_app_r
        by (unfold cell_texts; rewrite length_fmap; lia).
      unfold cell_texts. rewrite length_fmap, Hfull.
      by replace (S (length (ths table)) - length (ths table))%nat with 1%nat by lia.
    + unfold extract_headers. rewrite lookup_app_r by (rewrite length_fmap; lia).
      rewrite length_fmap, (bool_decide_eq_true_2 _ Hcb).
      by replace (S (length (ths table)) - length (ths table))%nat with 1%nat by lia.
Qed.
End cells.

(** ** HierarchicalTableExtractor: the carried classification *)

Section carried.
Context (footer : option Tfoot) (classification_button : pystr).

Lemma extract_loop_state (l : list Tr) (st st' : ExtractState) :
  for_each (extract_row footer classification_button) l st = Ok st' →
  let step carried row := match row_kind footer row with
                          | Some Category => label row
                          | _ => carried
                          end in
  current_classification st' = foldl step (current_classification st) l
  ∧ second_last_item st' = foldl step (second_last_item st) l.
Proof.
  revert st. induction l as [|row l IH]; intros st Hrun step.
  - by injection Hrun as <-.
  - apply for_each_cons_Ok in Hrun as (st1 & Hrow & Hrun).
    rewrite extract_row_kind in Hrow.
    destruct (row_kind footer row) as [kind|] eqn:Hkind; [|done].
    injection Hrow as <-. destruct (IH _ Hrun) as [-> ->].
    cbn [foldl]. subst step. cbn beta. rewrite Hkind.
    by destruct kind.
Qed.
End carried.

(** X6.  The two variables the row loop carries are always equal: after
    any prefix of the rows both hold the label of the last category row
    of the prefix, or the empty string when it has none.  Every row gets
    its list accordingly: "Total" for a footer row, its own label for a
    category row, the carried label for a sub-item row and the empty
    string for a plain row. *)
Theorem extract_rows_classifies (table : Table) (classification_button : pystr)
    (st : ExtractState) :
  extract_rows table classification_button = Ok st →
  current_classification st = carried_label (find_footer table) (drop 1 (trs table))
  ∧ second_last_item st = carried_label (find_footer table) (drop 1 (trs table))
  ∧ ∀ i row, drop 1 (trs table) !! i = Some row →
      ∃ kind, row_kind (find_footer table) row = Some kind
        ∧ rows st !! i =
          Some (append_button classification_button
                  (cell_texts (tds row)
                   ++ [match kind with
                       | Total => lit "Total"
                       | Category => label row
                       | SubItem => carried_label (find_footer table)
                                      (take i (drop 1 (trs table)))
                       | Plain => []
                       end])).
Proof.
  intros Hst.
  destruct (extract_loop_state _ _ _ _ _ Hst) as [Hcur Hsec].
  split; [exact Hcur|]. split; [exact Hsec|].
  intros i row Hi.
  destruct (extract_loop_lookup _ _ _ _ _ i row Hst Hi)
    as (st1 & kind & Hpre & Hkind & Hout).
  exists kind. split; [done|]. cbn in Hout. rewrite Hout.
  destruct (extract_loop_state _ _ _ _ _ Hpre) as [_ Hsec1].
  destruct kind; cbn [classification]; [done|done| |done].
  by rewrite Hsec1.
Qed.

Lemma record_keeps_cell_texts_witness :
  ∃ rec, records producao_2022_frame !! 1%nat = Some rec
         ∧ cell rec (lit "Quantidade (L.)") = VStr (strip (lit "4.000")).
Proof.
  refine (record_keeps_cell_texts producao_2022 [] producao_2022_frame 1 1
            row_subitem (lit "Quantidade (L.)") (td ["tb_subitem"]%string "4.000")
            _ _ _ _ _).
  - vm_compute. reflexivity.
  - apply (bool_decide_unpack _). vm_compute. exact I.
  - reflexivity.
  - reflexivity.
  - reflexivity.
Defined.


Lemma short_row_shifts_classification_witness :
  ∃ st rec cls h,
    extract_rows short_table [] = Ok st
    ∧ rows st !! 1%nat = Some (append_button [] (cell_texts (tds row_short) ++ [cls]))
    ∧ records short_frame !! 1%nat = Some rec
    ∧ (strip <$> ths short_table) !! length (tds row_short) = Some h
    ∧ cell rec h = VStr cls
    ∧ cell rec (lit "Classification") =
      if bool_decide (([] : pystr) ≠ [])
         && bool_decide (S (length (tds row_short)) = length (ths short_table))
      then VStr [] else VNaN.
Proof.
  refine (short_row_shifts_classification short_table [] short_frame 1 row_short
            _ _ _ _).
  - vm_compute. reflexivity.
  - apply (bool_decide_unpack _). vm_compute. exact I.
  - reflexivity.
  - cbn. lia.
Defined.

Lemma button_column_witness :
  ∃ rec, records producao_2022_button_frame !! 2%nat = Some rec
         ∧ cell rec (lit "Button") = VStr (lit "VINHOS DE MESA").
Proof.
  refine (proj2 (button_column producao_2022 (lit "VINHOS DE MESA")
                   producao_2022_button_frame _) _ _ 2%nat row_total _ _).
  - vm_compute. reflexivity.
  - discriminate.
  - apply (bool_decide_unpack _). vm_compute. exact I.
  - reflexivity.
  - reflexivity.
Defined.

Lemma extract_rows_classifies_witness :
  current_classification producao_2022_rows
  = carried_label (find_footer producao_2022) (drop 1 (trs producao_2022))
  ∧ second_last_item producao_2022_rows
    = carried_label (find_footer producao_2022) (drop 1 (trs producao_2022)).
Proof.
  assert (extract_rows producao_2022 [] = Ok producao_2022_rows) as Hst
    by (vm_compute; reflexivity).
  pose proof (extract_rows_classifies producao_2022 [] producao_2022_rows Hst)
    as (Hcur & Hsec & _).
  split; [exact Hcur|exact Hsec].
Defined.

(** ** FieldNormalizer: what a pass leaves *)

Section normalized.
Context `{Transliteration}.

Lemma normalize_text_normalized (s : pystr) : normalized (normalize_text (VStr s)).
Proof.
  destruct (decide (sentinel (strip s))) as [Hs|Hs].
  - rewrite (normalize_text_sentinel s Hs). exists (lit "0").
    split; [done|]. split; [|done]. repeat constructor; unfold is_ascii; lia.
  - rewrite (normalize_text_other s Hs). eexists. split; [done|]. split.
    + apply upper_is_ascii, unidecode_is_ascii.
    + apply upper_idemp.
Qed.

Lemma normalize_record_lookup_notin (cs : list pystr) (r : record) (c : pystr) :
  c ∉ cs → normalize_record cs r !! c = r !! c.
Proof.
  unfold normalize_record. revert r.
  induction cs as [|c' cs IH]; intros r Hc; [done|].
  apply not_elem_of_cons in Hc as [Hne Hc]. cbn [foldl].
  rewrite IH by done. by rewrite lookup_insert_ne.
Qed.

(** X7.  Whatever the text, [normalize_text] returns an ASCII text
    without lower-case letters, and it settles after two passes: a third
    pass returns what the second returned. *)
Theorem normalize_text_settles (v : value) :
  (is_str v = true → normalized (normalize_text v))
  ∧ normalize_text (normalize_text (normalize_text v))
    = normalize_text (normalize_text v).
Proof.
  destruct v as [s| |]; [|by split..]. split.
  - intros _. apply normalize_text_normalized.
  - destruct (normalize_text_normalized s) as (t & -> & Ht & _).
    by apply normalize_text_idempotent_ascii.
Qed.

End normalized.

(** ** The Site classes: parameters and buttons *)

(** X8.  [get_params] of the classes with buttons returns the year under
    "ano" when [botao] is [None] or an empty dict; for any other [botao]
    it also puts the button's value under the button's name (which
    replaces the year when that name is "ano"), and it raises [KeyError]
    when the button lacks "name" or "value". *)
Theorem get_params_botao_cases (ano : Z) (botao : option Button) :
  (botao = None ∨ botao = Some ∅ →
   get_params_botao ano botao = Ok {[ lit "ano" := VInt ano ]})
  ∧ (∀ b name value,
       botao = Some b → b !! lit "name" = Some name → b !! lit "value" = Some value →
       ∃ params, get_params_botao ano botao = Ok params
                 ∧ params !! name = Some (VStr value)
                 ∧ (name ≠ lit "ano" → params !! lit "ano" = Some (VInt ano))
                 ∧ ∀ key, key ≠ name → key ≠ lit "ano" → params !! key = None)
  ∧ (∀ b, botao = Some b → b ≠ ∅ →
          b !! lit "name" = None ∨ b !! lit "value" = None →
          get_params_botao ano botao = Raise KeyError).
Proof.
  split_and!.
  - intros [->| ->]; [done|]. unfold get_params_botao.
    by rewrite bool_decide_eq_false_2 by (intros Hne; by apply Hne).
  - intros b name value -> Hname Hvalue. unfold get_params_botao, getitem.
    rewrite bool_decide_eq_true_2 by (intros ->; by rewrite lookup_empty in Hname).
    rewrite Hvalue, Hname. cbn. eexists. split; [done|]. split_and!.
    + by rewrite lookup_insert_eq.
    + intros Hne. rewrite lookup_insert_ne by done. by rewrite lookup_singleton_eq.
    + intros key Hk1 Hk2. rewrite lookup_insert_ne by done.
      by rewrite lookup_singleton_ne.
  - intros b -> Hne Hmiss. unfold get_params_botao, getitem.
    rewrite bool_decide_eq_true_2 by done.
    destruct (b !! lit "value") as [value|]; [|done]. cbn.
    destruct Hmiss as [->|?]; done.
Qed.

Lemma get_params_botao_cases_witness :
  ∃ params, get_params_botao 2021 (Some example_button) = Ok params
            ∧ params !! lit "subopcao" = Some (VStr (lit "subopt_01"))
            ∧ (lit "subopcao" ≠ lit "ano" → params !! lit "ano" = Some (VInt 2021))
            ∧ ∀ key, key ≠ lit "subopcao" → key ≠ lit "ano" → params !! key = None.
Proof.
  refine (proj1 (proj2 (get_params_botao_cases 2021 (Some example_button)))
            example_button (lit "subopcao") (lit "subopt_01") eq_refl _ _).
  - vm_compute. reflexivity.
  - vm_compute. reflexivity.
Defined.

Lemma botao_dict_lookup (name value classificacao_botao : string) :
  botao_dict name value classificacao_botao !! lit "name" = Some (lit name)
  ∧ botao_dict name value classificacao_botao !! lit "value" = Some (lit value)
  ∧ botao_dict name value classificacao_botao !! lit "classification_button" = None.
Proof.
  unfold botao_dict. cbn [list_to_map foldr fst snd]. split_and!.
  - by rewrite lookup_insert_eq.
  - rewrite lookup_insert_ne by done. by rewrite lookup_insert_eq.
  - by rewrite !lookup_insert_ne, lookup_empty by done.
Qed.

Lemma all_botoes_dict (b : Button) :
  b ∈ all_botoes → ∃ value classificacao, b = botao_dict "subopcao" value classificacao.
Proof.
  unfold all_botoes, SiteExportacaoScraper.botoes, SiteImportacaoScraper.botoes,
    SiteProcessamentoScraper.botoes. cbn [app].
  intros Hb. repeat (apply elem_of_cons in Hb as [->|Hb]; [by eexists _, _|]).
  by apply elem_of_nil in Hb.
Qed.

(** X9.  The three classes with buttons always have a button to iterate
    over, and each of their own buttons gives [get_params] the two
    parameters "ano" and "subopcao".  None of these buttons has the key
    "classification_button" that [run_scraping] reads, though: the body of
    the button loop raises [KeyError] for such a button whenever the page
    has the data table. *)
Theorem default_buttons `{Web} `{Scraper} :
  (∀ botoes botao, botoes ≠ [] → get_botoes_or botoes botao ≠ [])
  ∧ (∀ b ano, b ∈ all_botoes →
       ∃ value, b !! lit "value" = Some value
                ∧ get_params_botao ano (Some b)
                  = Ok (<[lit "subopcao" := VStr value]> {[ lit "ano" := VInt ano ]}))
  ∧ (∀ b year data params html_content table,
       b ∈ all_botoes →
       create_parameters year (Some b) = Ok params →
       get_html_content base_url params = Ok html_content →
       find_data_table (parse_html html_content) = Some table →
       scrape_button year data b = Raise KeyError).
Proof.
  split_and!.
  - intros botoes [b|] Hne; [|done]. unfold get_botoes_or. by case_bool_decide.
  - intros b ano (value & classificacao & ->)%all_botoes_dict.
    destruct (botao_dict_lookup "subopcao" value classificacao) as (Hn & Hv & _).
    exists (lit value). split; [done|].
    unfold get_params_botao, getitem.
    rewrite bool_decide_eq_true_2 by (intros Heq; by rewrite Heq, lookup_empty in Hn).
    by rewrite Hv, Hn.
  - intros b year data params html_content table
      (value & classificacao & ->)%all_botoes_dict Hp Hh Ht.
    destruct (botao_dict_lookup "subopcao" value classificacao) as (_ & _ & Hc).
    unfold scrape_button. rewrite Hp.
    change (Ok params ≫= ?f) with (f params). cbv beta. rewrite Hh.
    change (Ok html_content ≫= ?f) with (f html_content). cbv beta. rewrite Ht.
    unfold getitem. by rewrite Hc.
Qed.

Lemma default_buttons_witness :
  @scrape_button example_web (example_scraper [2020]%Z SiteExportacaoScraper.botoes)
    2020 empty_DataFrame (botao_dict "subopcao" "subopt_01" "VINHOS DE MESA")
  = Raise KeyError.
Proof.
  refine (proj2 (proj2 (@default_buttons example_web
                          (example_scraper [2020]%Z SiteExportacaoScraper.botoes)))
            _ 2020%Z empty_DataFrame {[ lit "ano" := VInt 2020 ]}
            [layout_table; producao_2020] producao_2020 _ _ _ _).
  - apply list_elem_of_In. left. reflexivity.
  - reflexivity.
  - reflexivity.
  - reflexivity.
Defined.

(** ** ScrapeController: failures, repeated runs *)

Lemma mapM_app_Raise {A B} (f : A → result B) (l1 l2 : list A) (x : A)
    (k : list B) (e : exn) :
  mapM f l1 = Ok k → f x = Raise e → mapM f (l1 ++ x :: l2) = Raise e.
Proof.
  revert k. induction l1 as [|y l1 IH]; intros k Hk Hx.
  - cbn. by rewrite Hx.
  - cbn in Hk. apply bind_Ok in Hk as (b & Hb & Hk).
    apply bind_Ok in Hk as (k' & Hk' & _).
    cbn. rewrite Hb. cbn. by rewrite (IH k' Hk' Hx).
Qed.

Section failures.
Context `{Transliteration} `{Web} `{Scraper}.

Lemma fetch_request_fails (target : Z * option Button) (params : Params) (e : exn) :
  create_parameters target.1 target.2 = Ok params →
  get_html_content base_url params = Raise e →
  fetch target = Raise e.
Proof.
  destruct target as [year [button|]]; cbn [fst snd]; intros Hp Hh;
    unfold fetch, scrape_target, scrape_button, scrape_year; cbn [fst snd];
    rewrite Hp; cbn; by rewrite Hh.
Qed.

(** X10.  The run stops at the first fetch that raises, in the order of
    the targets: when the request of a target fails after the targets
    before it were fetched, [run_scraping] raises the exception of that
    request, whatever the later targets would give, and returns no
    frame. *)
Theorem run_scraping_stops_at_first_failure (buttons : list Button)
    (data : DataFrame) (before after : list (Z * option Button))
    (target : Z * option Button) (frames : list DataFrame)
    (params : Params) (e : exn) :
  get_buttons = Ok buttons →
  targets years buttons = before ++ target :: after →
  mapM fetch before = Ok frames →
  create_parameters target.1 target.2 = Ok params →
  get_html_content base_url params = Raise e →
  accumulate data = Raise e ∧ run_scraping data = Raise e.
Proof.
  intros Hb Ht Hbefore Hp Hh.
  pose proof (fetch_request_fails target params e Hp Hh) as He.
  assert (accumulate data = Raise e) as Hacc.
  { rewrite (accumulate_fetch buttons) by done.
    by rewrite Ht, (mapM_app_Raise _ _ _ _ frames e Hbefore He). }
  split; [exact Hacc|]. unfold run_scraping. by rewrite Hacc.
Qed.

(** An accumulation that returns appends frames that do not depend on
    the frame it starts from, each the result of a fetch. *)
Lemma accumulate_frames (data d : DataFrame) :
  accumulate data = Ok d →
  ∃ frames, Forall (λ f, ∃ target, fetch target = Ok f) frames
            ∧ ∀ c, accumulate c = Ok (foldl concat c frames).
Proof.
  intros Hacc. destruct get_buttons as [buttons|e] eqn:Hb.
  - rewrite (accumulate_fetch buttons) in Hacc by done.
    destruct (mapM fetch (targets years buttons)) as [frames|] eqn:Hf; [|done].
    exists frames. split.
    + apply mapM_Ok_Forall2 in Hf. clear Hacc.
      induction Hf as [|target f ts fs Hf _ IH]; constructor; eauto.
    + intros c. by rewrite (accumulate_fetch buttons), Hf.
  - unfold accumulate in *. destruct years as [|year ys].
    + exists []. done.
    + cbn in Hacc. unfold scrape_years_body in Hacc. by rewrite Hb in Hacc.
Qed.

(** X11.  Nothing is deduplicated: a second accumulation over the same
    site appends the records of the first once more, and a second
    [run_scraping] returns as many new rows as the first did. *)
Theorem second_run_appends_again (data d1 : DataFrame) :
  (accumulate data = Ok d1 →
   ∃ d2, accumulate d1 = Ok d2
         ∧ records d2 = records d1 ++ drop (length (records data)) (records d1))
  ∧ (run_scraping data = Ok d1 →
     ∃ d2, run_scraping d1 = Ok d2
           ∧ (length (records d2) + length (records data)
              = 2 * length (records d1))%nat).
Proof.
  split.
  - intros Hacc. destruct (accumulate_frames _ _ Hacc) as (frames & _ & Hframes).
    rewrite Hframes in Hacc. injection Hacc as <-.
    eexists. split; [apply Hframes|].
    rewrite !records_foldl_concat, drop_app_length. by rewrite <- app_assoc.
  - unfold run_scraping. intros (acc & Hacc & Hclean)%bind_Ok.
    destruct (accumulate_frames _ _ Hacc) as (frames & _ & Hframes).
    rewrite Hframes in Hacc. injection Hacc as <-. rewrite Hframes. cbn.
    destruct (clean_data_integers (foldl concat d1 frames)) as (d2 & Hd2 & Hrows2).
    destruct (clean_data_integers (foldl concat data frames)) as (d1' & Hd1 & Hrows1).
    assert (d1' = d1) as -> by congruence.
    exists d2. split; [done|].
    apply Forall2_length in Hrows1, Hrows2.
    rewrite records_foldl_concat, length_app in Hrows1, Hrows2. lia.
Qed.
End failures.

Lemma run_scraping_stops_at_first_failure_witness :
  @accumulate example_web (example_scraper [2020; 2023; 2022]%Z []) empty_DataFrame
  = Raise RequestException
  ∧ @run_scraping unidecode_tables example_web
      (example_scraper [2020; 2023; 2022]%Z []) empty_DataFrame
    = Raise RequestException.
Proof.
  refine (@run_scraping_stops_at_first_failure unidecode_tables example_web
            (example_scraper [2020; 2023; 2022]%Z []) [] empty_DataFrame
            [(2020%Z, None)] [(2022%Z, None)] (2023%Z, None) _
            {[ lit "ano" := VInt 2023 ]} RequestException _ _ _ _ _).
  - reflexivity.
  - reflexivity.
  - vm_compute. reflexivity.
  - reflexivity.
  - reflexivity.
Defined.

Lemma second_run_appends_again_witness :
  ∃ d2, @run_scraping unidecode_tables example_web
          (example_scraper [2020; 2022]%Z []) example_run = Ok d2
        ∧ (length (records d2) + length (records empty_DataFrame)
           = 2 * length (records example_run))%nat.
Proof.
  refine (proj2 (@second_run_appends_again unidecode_tables example_web
                   (example_scraper [2020; 2022]%Z []) empty_DataFrame example_run) _).
  vm_compute. reflexivity.
Defined.

(** ** DomainTransformer: integers, columns and rows of the result *)

Lemma lit_cons (a : Ascii.ascii) (s : string) :
  lit (String a s) = Ascii.N_of_ascii a :: lit s.
Proof. reflexivity. Qed.

Ltac read_digit :=
  match goal with
  | |- context [digit ?c] =>
      let v := eval vm_compute in (digit c) in change (digit c) with v
  end;
  change (Some ?d ≫= ?f) with (f d); cbv beta.

Lemma digits_of_uint_acc (u : Decimal.uint) (acc : positive) :
  digits (Z.pos acc) (lit (NilEmpty.string_of_uint u))
  = Some (Z.pos (Pos.of_uint_acc u acc)).
Proof.
  revert acc. induction u as [|u IH|u IH|u IH|u IH|u IH|u IH|u IH|u IH|u IH|u IH];
    intros acc; [reflexivity|..];
    cbn [NilEmpty.string_of_uint]; rewrite lit_cons; cbn [digits Pos.of_uint_acc];
    (etransitivity; [|apply IH]); read_digit; f_equal; lia.
Qed.

Lemma digits_of_uint (u : Decimal.uint) :
  digits 0 (lit (NilEmpty.string_of_uint u)) = Some (Z.of_N (Pos.of_uint u)).
Proof.
  induction u as [|u IH|u IH|u IH|u IH|u IH|u IH|u IH|u IH|u IH|u IH];
    [reflexivity|exact IH|..];
    cbn [NilEmpty.string_of_uint]; rewrite lit_cons; cbn [digits Pos.of_uint];
    (etransitivity; [|apply digits_of_uint_acc]); read_digit; reflexivity.
Qed.

Lemma uint_chars (u : Decimal.uint) :
  Forall (λ c, 48 ≤ c ≤ 57) (lit (NilEmpty.string_of_uint u)).
Proof.
  induction u; cbn [NilEmpty.string_of_uint]; [constructor|..];
    rewrite lit_cons; (constructor; [split; by apply N.leb_le|done]).
Qed.

Lemma uint_chars_nonempty (u : Decimal.uint) :
  u ≠ Decimal.Nil → lit (NilEmpty.string_of_uint u) ≠ [].
Proof. destruct u; [done|..]; intros _; cbn [NilEmpty.string_of_uint]; by rewrite lit_cons. Qed.

Lemma drop_while_false (p : N → bool) (s : pystr) :
  Forall (λ c, p c = false) s → drop_while p s = s.
Proof. destruct 1 as [|c s Hc]; [done|]. cbn. by rewrite Hc. Qed.

Lemma strip_of_false (p : N → bool) (s : pystr) :
  Forall (λ c, p c = false) s → strip_of p s = s.
Proof.
  intros Hs. unfold strip_of. rewrite (drop_while_false p s Hs).
  rewrite drop_while_false by by apply Forall_reverse.
  apply reverse_involutive.
Qed.

Lemma filter_all {A} (P : A → Prop) `{∀ x, Decision (P x)} (l : list A) :
  Forall P l → filter P l = l.
Proof.
  induction 1 as [|x l Hx _ IH]; [done|].
  rewrite filter_cons_True by done. by rewrite IH.
Qed.

(** The text of an integer has no separator, and reads back as the
    integer. *)
Lemma str_of_Z_plain (z : Z) :
  Forall (λ c, c ≠ 46 ∧ isblank c = false) (str_of_Z z).
Proof.
  assert (∀ u, Forall (λ c, c ≠ 46 ∧ isblank c = false)
                 (lit (NilEmpty.string_of_uint u))) as Hu.
  { intros u. eapply Forall_impl; [apply uint_chars|].
    intros c Hc. cbv beta in Hc. split; [lia|]. unfold isblank.
    apply orb_false_intro; [|apply N.eqb_neq; lia].
    apply andb_false_iff. right. apply N.leb_gt. lia. }
  unfold str_of_Z. destruct z as [|p|p]; cbn [Z.to_int NilEmpty.string_of_int].
  - apply (Hu (Decimal.D0 Decimal.Nil)).
  - apply Hu.
  - rewrite lit_cons. constructor; [|apply Hu]. split; [done|reflexivity].
Qed.

Lemma parse_int_str_of_Z (z : Z) : parse_int (str_of_Z z) = Some z.
Proof.
  unfold parse_int. rewrite strip_of_false
    by (eapply Forall_impl; [apply str_of_Z_plain|]; by intros c [_ Hc]).
  unfold str_of_Z. destruct z as [|p|p]; cbn [Z.to_int NilEmpty.string_of_int].
  - reflexivity.
  - pose proof (uint_chars (Pos.to_uint p)) as Hc.
    pose proof (uint_chars_nonempty _ (DecimalPos.Unsigned.to_uint_nonnil p)) as Hne.
    pose proof (digits_of_uint (Pos.to_uint p)) as Hd.
    rewrite DecimalPos.Unsigned.of_to in Hd.
    destruct (lit (NilEmpty.string_of_uint (Pos.to_uint p))) as [|c ds]; [done|].
    apply Forall_cons in Hc as [Hc _].
    rewrite (proj2 (N.eqb_neq c 45)) by lia.
    rewrite (proj2 (N.eqb_neq c 43)) by lia. exact Hd.
  - rewrite lit_cons.
    pose proof (uint_chars_nonempty _ (DecimalPos.Unsigned.to_uint_nonnil p)) as Hne.
    pose proof (digits_of_uint (Pos.to_uint p)) as Hd.
    rewrite DecimalPos.Unsigned.of_to in Hd.
    destruct (lit (NilEmpty.string_of_uint (Pos.to_uint p))) as [|c ds]; [done|].
    match goal with
    | |- context [?c0 =? 45] => change (c0 =? 45) with true
    end. cbv iota. by rewrite Hd.
Qed.

Lemma coerce_VInt (z : Z) : coerce (VInt z) = Ok (VInt z).
Proof.
  rewrite coerce_cases. cbn [astype_str str_replace_dot].
  rewrite filter_all
    by (eapply Forall_impl; [apply str_of_Z_plain|]; by intros c [Hc _]).
  by rewrite (to_numeric_integer _ z (parse_int_str_of_Z z)).
Qed.

(** X12.  Coercing a column that holds an integer (of the 64-bit range
    of a pandas integer column) in every row changes nothing: the
    decimal text of each integer has no separator and parses back to
    the same integer, so the two statements of the coercion return the
    frame as it was. *)
Theorem integer_column_is_kept (c : pystr) (df : DataFrame) :
  c ∈ columns df →
  Forall (λ r, ∃ z, r !! c = Some (VInt z) ∧ (- 2 ^ 63 ≤ z < 2 ^ 63)%Z) (records df) →
  (remove_separators c df ≫= to_integers c) = Ok df
  ∧ Forall (λ r, ∃ z, r !! c = Some (VInt z) ∧ parse_int (str_of_Z z) = Some z)
      (records df).
Proof.
  intros Hc Hall. split.
  - assert (∀ r, r ∈ records df →
              ∃ z, r !! c = Some (VInt z)
                   ∧ astype_int (fillna0 (to_numeric
                       (cell (<[c := str_replace_dot (astype_str (cell r c))]> r) c)))
                     = Ok (VInt z)) as Hcells.
    { intros r Hr. apply (proj1 (Forall_forall _ _) Hall) in Hr as (z & Hz & _).
      exists z. split; [done|]. rewrite cell_insert_eq. unfold cell. rewrite Hz.
      apply (coerce_VInt z). }
    unfold remove_separators. rewrite (map_column_in _ c df Hc).
    cbn [mbind result_bind].
    rewrite (to_integers_in c _
               (λ r, match astype_int (fillna0 (to_numeric (cell r c))) with
                     | Ok v => v
                     | Raise _ => VNaN
                     end)); [|done|].
    + destruct df as [cols recs]. cbn [columns records] in *. f_equal. f_equal.
      rewrite <- list_fmap_compose. rewrite <- (list_fmap_id recs) at 2.
      apply list_fmap_ext. intros i r Hr. apply list_elem_of_lookup_2 in Hr.
      destruct (Hcells r Hr) as (z & Hz & Hco). cbn.
      rewrite Hco, insert_insert_eq. by apply insert_id.
    + intros r' (r & -> & Hr)%list_elem_of_fmap.
      destruct (Hcells r Hr) as (z & _ & Hco). by rewrite Hco.
  - eapply Forall_impl; [exact Hall|]. intros r (z & Hz & _).
    exists z. split; [done|]. apply parse_int_str_of_Z.
Qed.

Lemma integer_column_is_kept_witness :
  (remove_separators (lit "Quantidade") producao_final
   ≫= to_integers (lit "Quantidade")) = Ok producao_final
  ∧ Forall (λ r, ∃ z, r !! lit "Quantidade" = Some (VInt z)
                      ∧ parse_int (str_of_Z z) = Some z)
      (records producao_final).
Proof.
  apply (integer_column_is_kept (lit "Quantidade") producao_final).
  - apply (bool_decide_unpack _). vm_compute. exact I.
  - repeat constructor; eexists; (split; [vm_compute; reflexivity|lia]).
Defined.

(** *** The statements of a transformation, one by one *)

Lemma remove_separators_Ok (c : pystr) (df df' : DataFrame) :
  remove_separators c df = Ok df' →
  c ∈ columns df ∧ columns df' = columns df
  ∧ records df' = (λ r, <[c := str_replace_dot (astype_str (cell r c))]> r) <$> records df.
Proof.
  unfold remove_separators, map_column. case_bool_decide; [|done].
  by intros [= <-].
Qed.

Lemma to_integers_Ok (c : pystr) (df df' : DataFrame) :
  to_integers c df = Ok df' →
  c ∈ columns df ∧ columns df' = columns df
  ∧ Forall2 (λ r r', ∃ z, astype_int (fillna0 (to_numeric (cell r c))) = Ok (VInt z)
                          ∧ r' = <[c := VInt z]> r)
            (records df) (records df').
Proof.
  unfold to_integers, mapM_column. case_bool_decide; [|done].
  intros (rs & Hrs & [= <-])%bind_Ok. split_and!; [done..|]. cbn [records].
  apply mapM_Ok_Forall2 in Hrs. eapply Forall2_impl; [exact Hrs|].
  intros r r' Hr. cbv beta in Hr.
  destruct (to_numeric (cell r c)) as [z| |]; cbn in Hr; [| |done].
  - exists z. by injection Hr as <-.
  - exists 0%Z. by injection Hr as <-.
Qed.

Lemma select_columns_Ok (cols : list pystr) (df df' : DataFrame) :
  select_columns cols df = Ok df' →
  cols ⊆ columns df ∧ columns df' = cols
  ∧ records df' = (λ r : record, filter (λ kv, kv.1 ∈ cols) r) <$> records df.
Proof.
  unfold select_columns. case_bool_decide; [|done]. by intros [= <-].
Qed.

Lemma lookup_select (cols : list pystr) (r : record) (c : pystr) :
  (filter (λ kv : pystr * value, kv.1 ∈ cols) r : record) !! c
  = if decide (c ∈ cols) then r !! c else None.
Proof.
  destruct (decide (c ∈ cols)) as [Hc|Hc].
  - destruct (r !! c) as [v|] eqn:Hv.
    + by apply map_lookup_filter_Some.
    + apply map_lookup_filter_None. left. done.
  - apply map_lookup_filter_None. right. intros v _. done.
Qed.

Lemma cell_select (cols : list pystr) (r : record) (c : pystr) :
  c ∈ cols → cell (filter (λ kv : pystr * value, kv.1 ∈ cols) r : record) c = cell r c.
Proof. intros Hc. unfold cell. by rewrite lookup_select, decide_True. Qed.

Section steps.
Context `{Transliteration}.
Variable super_transform_dados : DataFrame → result DataFrame.

(** The frames a transformation that returns goes through. *)
Lemma transform_of_steps (kind : Kind) (dados out : DataFrame) :
  transform_of kind super_transform_dados dados = Ok out →
  ∃ d0 d1 d3 d4 d6 d7,
    match kind with
    | Producao | Comercializacao => d0 = dados
    | Exportacao | Importacao => super_transform_dados dados = Ok d0
    | Processamento =>
        ∃ d, super_transform_dados dados = Ok d ∧ fill_cultivar d = Ok d0
    end
    ∧ normalize_columns d0 = Ok d1
    ∧ remove_separators (lit "Quantidade")
        (rename (quantidade_label kind) (lit "Quantidade") d1) = Ok d3
    ∧ to_integers (lit "Quantidade") d3 = Ok d4
    ∧ match kind with
      | Exportacao | Importacao =>
          ∃ d5, remove_separators (lit "Valor (US$)") d4 = Ok d5
                ∧ to_integers (lit "Valor (US$)") d5 = Ok d6
      | _ => d6 = d4
      end
    ∧ select_columns (colunas kind) d6 = Ok d7
    ∧ out = loc (not_total kind) d7.
Proof.
  intros Hrun. destruct kind; cbn [transform_of] in Hrun.
  - unfold SiteExportacaoScraper.transform_dados in Hrun.
    apply bind_Ok in Hrun as (d0 & H0 & Hrun). apply bind_Ok in Hrun as (d1 & H1 & Hrun).
    apply bind_Ok in Hrun as (d3 & H3 & Hrun). apply bind_Ok in Hrun as (d4 & H4 & Hrun).
    apply bind_Ok in Hrun as (d5 & H5 & Hrun). apply bind_Ok in Hrun as (d6 & H6 & Hrun).
    apply bind_Ok in Hrun as (d7 & H7 & Hrun). injection Hrun as <-.
    exists d0, d1, d3, d4, d6, d7. split_and!; try done. by exists d5.
  - unfold SiteImportacaoScraper.transform_dados in Hrun.
    apply bind_Ok in Hrun as (d0 & H0 & Hrun). apply bind_Ok in Hrun as (d1 & H1 & Hrun).
    apply bind_Ok in Hrun as (d3 & H3 & Hrun). apply bind_Ok in Hrun as (d4 & H4 & Hrun).
    apply bind_Ok in Hrun as (d5 & H5 & Hrun). apply bind_Ok in Hrun as (d6 & H6 & Hrun).
    apply bind_Ok in Hrun as (d7 & H7 & Hrun). injection Hrun as <-.
    exists d0, d1, d3, d4, d6, d7. split_and!; try done. by exists d5.
  - unfold SiteProcessamentoScraper.transform_dados in Hrun.
    apply bind_Ok in Hrun as (d & Hd & Hrun). apply bind_Ok in Hrun as (d0 & H0 & Hrun).
    apply bind_Ok in Hrun as (d1 & H1 & Hrun).
    apply bind_Ok in Hrun as (d3 & H3 & Hrun). apply bind_Ok in Hrun as (d4 & H4 & Hrun).
    apply bind_Ok in Hrun as (d7 & H7 & Hrun). injection Hrun as <-.
    exists d0, d1, d3, d4, d4, d7. split_and!; try done. by exists d.
  - unfold SiteProducaoScraper.transform_dados in Hrun.
    apply bind_Ok in Hrun as (d1 & H1 & Hrun).
    apply bind_Ok in Hrun as (d3 & H3 & Hrun). apply bind_Ok in Hrun as (d4 & H4 & Hrun).
    apply bind_Ok in Hrun as (d7 & H7 & Hrun). injection Hrun as <-.
    by exists dados, d1, d3, d4, d4, d7.
  - unfold SiteComercializacaoScraper.transform_dados in Hrun.
    apply bind_Ok in Hrun as (d1 & H1 & Hrun).
    apply bind_Ok in Hrun as (d3 & H3 & Hrun). apply bind_Ok in Hrun as (d4 & H4 & Hrun).
    apply bind_Ok in Hrun as (d7 & H7 & Hrun). injection Hrun as <-.
    by exists dados, d1, d3, d4, d4, d7.
Qed.
End steps.

Lemma Forall2_Forall_r' {A B} (R : A → B → Prop) (Q : B → Prop) (l : list A) (k : list B) :
  Forall2 R l k → (∀ x y, x ∈ l → R x y → Q y) → Forall Q k.
Proof.
  induction 1 as [|x y l k Hxy _ IH]; intros HQ; constructor.
  - apply (HQ x); [left|done].
  - apply IH. intros x' y' Hx'. apply HQ. by right.
Qed.

(** A cast to integers leaves integers in its column and keeps those of
    the other columns; the removal of the separators keeps the integers
    of the other columns. *)
Lemma to_integers_cells (c : pystr) (df df' : DataFrame) :
  to_integers c df = Ok df' →
  Forall (λ r, ∃ z, cell r c = VInt z) (records df')
  ∧ ∀ c', c' ≠ c → Forall (λ r, ∃ z, cell r c' = VInt z) (records df) →
          Forall (λ r, ∃ z, cell r c' = VInt z) (records df').
Proof.
  intros (_ & _ & Hrs)%to_integers_Ok. split.
  - eapply Forall2_Forall_r'; [exact Hrs|]. intros r r' _ (z & _ & ->).
    exists z. apply cell_insert_eq.
  - intros c' Hne Hall. eapply Forall2_Forall_r'; [exact Hrs|].
    intros r r' Hr (z & _ & ->). rewrite cell_insert_ne by done.
    by apply (proj1 (Forall_forall _ _) Hall).
Qed.

Lemma remove_separators_cells (c c' : pystr) (df df' : DataFrame) :
  remove_separators c df = Ok df' → c' ≠ c →
  Forall (λ r, ∃ z, cell r c' = VInt z) (records df) →
  Forall (λ r, ∃ z, cell r c' = VInt z) (records df').
Proof.
  intros (_ & _ & ->)%remove_separators_Ok Hne Hall.
  apply Forall_fmap. eapply Forall_impl; [exact Hall|].
  intros r Hr. cbn. by rewrite cell_insert_ne.
Qed.

Lemma Quantidade_in_colunas (kind : Kind) : lit "Quantidade" ∈ colunas kind.
Proof. destruct kind; cbn [colunas]; repeat constructor. Qed.

(** X13.  Whatever frame a [transform_dados] returns has exactly the
    columns of its list [colunas], in that order; its rows hold nothing
    under any other label, and every cell of 'Quantidade' (and of
    'Valor (US$)' for exports and imports) is an integer. *)
Theorem transform_dados_schema `{Transliteration} (kind : Kind)
    (super_transform_dados : DataFrame → result DataFrame)
    (dados out : DataFrame) :
  transform_of kind super_transform_dados dados = Ok out →
  columns out = colunas kind
  ∧ ∀ r, r ∈ records out →
      (∀ c, c ∉ colunas kind → r !! c = None)
      ∧ (∃ z, cell r (lit "Quantidade") = VInt z)
      ∧ (kind = Exportacao ∨ kind = Importacao →
         ∃ z, cell r (lit "Valor (US$)") = VInt z).
Proof.
  intros (d0 & d1 & d3 & d4 & d6 & d7 & _ & _ & _ & H4 & H6 & H7 & ->)%transform_of_steps.
  apply select_columns_Ok in H7 as (_ & Hcols & Hrecs).
  split; [exact Hcols|].
  intros r [Hr _]%elem_of_loc. rewrite Hrecs in Hr.
  apply list_elem_of_fmap in Hr as (r6 & -> & Hr6).
  apply to_integers_cells in H4 as [HQ4 _].
  assert (Forall (λ r, ∃ z, cell r (lit "Quantidade") = VInt z) (records d6)
          ∧ (kind = Exportacao ∨ kind = Importacao →
             Forall (λ r, ∃ z, cell r (lit "Valor (US$)") = VInt z) (records d6)))
    as [HQ HV].
  { destruct kind.
    1,2: destruct H6 as (d5 & H5 & H6);
      apply to_integers_cells in H6 as [HV6 HQ6];
      (split; [|by intros _]);
      apply HQ6; [done|]; by apply (remove_separators_cells _ _ _ _ H5).
    all: subst d6; split; [done|]; by intros [?|?]. }
  split_and!.
  - intros c Hc. by rewrite lookup_select, decide_False.
  - rewrite cell_select by apply Quantidade_in_colunas.
    by apply (proj1 (Forall_forall _ _) HQ).
  - intros Hkind. rewrite cell_select
      by (destruct Hkind as [-> | ->]; cbn [colunas]; repeat constructor).
    by apply (proj1 (Forall_forall _ _) (HV Hkind)).
Qed.

Lemma transform_dados_schema_witness :
  columns producao_final = colunas Producao
  ∧ ∀ r, r ∈ records producao_final →
      (∀ c, c ∉ colunas Producao → r !! c = None)
      ∧ (∃ z, cell r (lit "Quantidade") = VInt z)
      ∧ (Producao = Exportacao ∨ Producao = Importacao →
         ∃ z, cell r (lit "Valor (US$)") = VInt z).
Proof.
  refine (transform_dados_schema Producao Ok producao_dados producao_final _).
  vm_compute. reflexivity.
Defined.

Lemma fill_cultivar_columns (d d0 : DataFrame) (c : pystr) :
  fill_cultivar d = Ok d0 → c ∈ columns d0 → c ≠ lit "Cultivar" → c ∈ columns d.
Proof.
  unfold fill_cultivar. intros Hfill Hc Hne.
  set (d' := if bool_decide (lit "Cultivar" ∉ columns d)
                && bool_decide (Classificacao ∈ columns d)
             then copy_column Classificacao (lit "Cultivar") d else d) in Hfill.
  assert (c ∈ columns d' → c ∈ columns d) as Hd'.
  { subst d'. destruct (_ && _); [|done]. cbn [copy_column columns].
    intros [?|Hin%list_elem_of_singleton]%elem_of_app; done. }
  apply Hd'. clear Hd'. clearbody d'.
  destruct (bool_decide (Sem_definicao ∈ columns d')).
  - set (d'' := if bool_decide (lit "Cultivar" ∈ columns d')
                then fill_missing Sem_definicao (lit "Cultivar") d' else d') in Hfill.
    assert (columns d'' = columns d') as <- by (subst d''; by destruct (bool_decide _)).
    unfold drop_column in Hfill. destruct (bool_decide (Sem_definicao ∈ columns d'')); [|done].
    injection Hfill as <-. cbn [columns] in Hc.
    by apply list_elem_of_filter in Hc as [_ Hc].
  - by injection Hfill as <-.
Qed.

Lemma rename_columns (old new c : pystr) (df : DataFrame) :
  c ∈ columns (rename old new df) →
  (c ≠ new ∧ c ∈ columns df) ∨ (c = new ∧ (new ∈ columns df ∨ old ∈ columns df)).
Proof.
  cbn [rename columns]. intros (c' & -> & Hc')%list_elem_of_fmap.
  case_bool_decide as Hold.
  - subst c'. right. auto.
  - destruct (decide (c' = new)) as [->|Hne]; auto.
Qed.

Lemma transform_of_needs_columns `{Transliteration} (kind : Kind)
    (super_transform_dados : DataFrame → result DataFrame)
    (dados out : DataFrame) :
  transform_of kind super_transform_dados dados = Ok out →
  ∃ d, match kind with
       | Producao | Comercializacao => d = dados
       | _ => super_transform_dados dados = Ok d
       end
       ∧ (∀ c, c ∈ colunas kind → c ≠ lit "Quantidade" → c ≠ lit "Cultivar" →
               c ∈ columns d)
       ∧ (lit "Quantidade" ∈ columns d ∨ quantidade_label kind ∈ columns d).
Proof.
  intros (d0 & d1 & d3 & d4 & d6 & d7 & H0 & H1 & H3 & H4 & H6 & H7 & _)%transform_of_steps.
  rewrite normalize_columns_eq in H1. injection H1 as <-.
  apply remove_separators_Ok in H3 as (HQ & Hc3 & _).
  apply to_integers_Ok in H4 as (_ & Hc4 & _).
  apply select_columns_Ok in H7 as (Hsub & _ & _).
  assert (columns d6 = columns d4) as Hc6.
  { destruct kind; try by subst d6.
    all: destruct H6 as (d5 & (_ & Hc5 & _)%remove_separators_Ok
                            & (_ & Hc6 & _)%to_integers_Ok); congruence. }
  assert (∀ c, c ∈ colunas kind → c ≠ lit "Quantidade" → c ∈ columns d0) as Hcols.
  { intros c Hc Hne. apply Hsub in Hc. rewrite Hc6, Hc4, Hc3 in Hc.
    apply rename_columns in Hc as [[_ Hc]|[? _]]; done. }
  assert (lit "Quantidade" ∈ columns d0 ∨ quantidade_label kind ∈ columns d0) as HQ0.
  { apply rename_columns in HQ as [[? _]|[_ HQ]]; done. }
  destruct kind.
  1,2,4,5: exists d0; split_and!; [done| |done]; intros c Hc Hne _; by apply Hcols.
  destruct H0 as (d & Hd & Hfill). exists d. split_and!; [done| |].
  - intros c Hc Hne Hne'.
    apply (fill_cultivar_columns d d0 c Hfill); [by apply Hcols|done].
  - destruct HQ0 as [HQ0|HQ0]; [left|right];
      by apply (fill_cultivar_columns d d0 _ Hfill).
Qed.

(** X14.  A [transform_dados] returns only for a frame that has every
    label of its list [colunas] ('Cultivar' apart, which the processing
    kind can make from 'Classificação'), with the quantity under
    'Quantidade' or under the label the kind renames; for every other
    frame it raises.  The frame in question is the one the base class
    leaves, for the three kinds that call it. *)
Theorem transform_dados_needs_columns `{Transliteration} (kind : Kind)
    (super_transform_dados : DataFrame → result DataFrame)
    (dados out : DataFrame) :
  transform_of kind super_transform_dados dados = Ok out →
  ∃ d, match kind with
       | Producao | Comercializacao => d = dados
       | _ => super_transform_dados dados = Ok d
       end
       ∧ (∀ c, c ∈ colunas kind → c ≠ lit "Quantidade" → c ≠ lit "Cultivar" →
               c ∈ columns d)
       ∧ (lit "Quantidade" ∈ columns d ∨ quantidade_label kind ∈ columns d).
Proof. apply transform_of_needs_columns. Qed.

Lemma transform_dados_needs_columns_witness :
  ∃ d, d = producao_dados
       ∧ (∀ c, c ∈ colunas Producao → c ≠ lit "Quantidade" → c ≠ lit "Cultivar" →
               c ∈ columns d)
       ∧ (lit "Quantidade" ∈ columns d ∨ quantidade_label Producao ∈ columns d).
Proof.
  refine (transform_dados_needs_columns Producao Ok producao_dados producao_final _).
  vm_compute. reflexivity.
Defined.

(** ** From the scraped frame to the transformation *)

Lemma concat_columns (a b : DataFrame) (c : pystr) :
  c ∈ columns (concat a b) → c ∈ columns a ∨ c ∈ columns b.
Proof.
  cbn [concat columns]. intros [?|[_ ?]%list_elem_of_filter]%elem_of_app; auto.
Qed.

Lemma foldl_concat_columns (frames : list DataFrame) (data : DataFrame) (c : pystr) :
  c ∈ columns (foldl concat data frames) →
  c ∈ columns data ∨ ∃ f, f ∈ frames ∧ c ∈ columns f.
Proof.
  revert data. induction frames as [|f frames IH]; intros data Hc; [by left|].
  cbn [foldl] in Hc. apply IH in Hc as [Hc|(f' & Hf' & Hc)].
  - apply concat_columns in Hc as [Hc|Hc]; [by left|].
    right. exists f. split; [left|done].
  - right. exists f'. split; [by right|done].
Qed.

Lemma assign_scalar_columns (c c' : pystr) (v : value) (df : DataFrame) :
  c' ∈ columns (assign_scalar c v df) → c' ∈ columns df ∨ c' = c.
Proof.
  cbn [assign_scalar columns]. case_bool_decide; [by left|].
  intros [?|?%list_elem_of_singleton]%elem_of_app; auto.
Qed.

Lemma extract_headers_elem (table : Table) (classification_button c : pystr) :
  c ∈ extract_headers table classification_button →
  c ∈ strip <$> ths table ∨ c = lit "Classification" ∨ c = lit "Button".
Proof.
  unfold extract_headers. intros [?|Hc]%elem_of_app; [by left|]. right.
  apply elem_of_cons in Hc as [?|Hc]; [by left|]. right.
  case_bool_decide; [by apply list_elem_of_singleton in Hc|by apply elem_of_nil in Hc].
Qed.

Section scraped_columns.
Context `{Transliteration} `{Web} `{Scraper}.

(** The labels of the frame of one fetch: the header texts of the data
    table of a page the site served, and the three labels the scraper
    adds. *)
Lemma fetch_columns (target : Z * option Button) (f : DataFrame) (c : pystr) :
  fetch target = Ok f → c ∈ columns f →
  c ∈ [lit "Classification"; lit "Button"; lit "Year"]
  ∨ ∃ params page table,
      get_html_content base_url params = Ok page
      ∧ find_data_table (parse_html page) = Some table
      ∧ c ∈ strip <$> ths table.
Proof.
  assert (∀ table cb year df,
            extract_table_data table cb = Ok df →
            c ∈ columns (concat empty_DataFrame
                           (assign_scalar (lit "Year") (VInt year) df)) →
            c ∈ [lit "Classification"; lit "Button"; lit "Year"]
            ∨ c ∈ strip <$> ths table) as Hdf.
  { intros table cb year df (st & _ & Hcols & _)%extract_table_data_Ok Hc.
    apply concat_columns in Hc as [Hc|Hc]; [by apply elem_of_nil in Hc|].
    apply assign_scalar_columns in Hc as [Hc| ->].
    - rewrite Hcols in Hc.
      apply extract_headers_elem in Hc as [?|[-> | ->]]; [by right|left..];
        repeat constructor.
    - left. repeat constructor. }
  unfold fetch, scrape_target. destruct target as [year [button|]]; cbn [fst snd].
  - unfold scrape_button. intros (params & _ & Hrun)%bind_Ok.
    apply bind_Ok in Hrun as (page & Hpage & Hrun).
    destruct (find_data_table (parse_html page)) as [table|] eqn:Htable.
    + apply bind_Ok in Hrun as (cb & _ & Hrun).
      apply bind_Ok in Hrun as (df & Hex & [= <-]). intros Hc.
      destruct (Hdf _ _ _ _ Hex Hc) as [?|?]; [by left|]. right. by exists params, page, table.
    + apply bind_Ok in Hrun as (? & _ & [= <-]). intros Hc. by apply elem_of_nil in Hc.
  - unfold scrape_year. intros (params & _ & Hrun)%bind_Ok.
    apply bind_Ok in Hrun as (page & Hpage & Hrun).
    destruct (find_data_table (parse_html page)) as [table|] eqn:Htable.
    + apply bind_Ok in Hrun as (df & Hex & [= <-]). intros Hc.
      destruct (Hdf _ _ _ _ Hex Hc) as [?|?]; [by left|]. right. by exists params, page, table.
    + injection Hrun as <-. intros Hc. by apply elem_of_nil in Hc.
Qed.

(** X15.  The labels of the frame a run returns are those of the frame
    it was given, the header texts of the data tables the site served,
    and 'Classification', 'Button' and 'Year'.  The production and the
    commercialisation transformations ask for 'Ano': unless the frame
    given or a header of the site has that label, they raise for the
    frame a run returns. *)
Theorem run_scraping_columns (data d : DataFrame) :
  run_scraping data = Ok d →
  (∀ c, c ∈ columns d →
        c ∈ columns data
        ∨ c ∈ [lit "Classification"; lit "Button"; lit "Year"]
        ∨ ∃ params page table,
            get_html_content base_url params = Ok page
            ∧ find_data_table (parse_html page) = Some table
            ∧ c ∈ strip <$> ths table)
  ∧ (lit "Ano" ∉ columns data →
     (∀ params page table,
        get_html_content base_url params = Ok page →
        find_data_table (parse_html page) = Some table →
        lit "Ano" ∉ strip <$> ths table) →
     ∀ out, SiteProducaoScraper.transform_dados d ≠ Ok out
            ∧ SiteComercializacaoScraper.transform_dados d ≠ Ok out).
Proof.
  unfold run_scraping, clean_data. intros (acc & Hacc & Hclean)%bind_Ok.
  rewrite normalize_columns_eq in Hclean. injection Hclean as <-. cbn [columns].
  destruct (accumulate_frames _ _ Hacc) as (frames & Hfetch & Hframes).
  rewrite Hframes in Hacc. injection Hacc as <-.
  assert (∀ c, c ∈ columns (foldl concat data frames) →
            c ∈ columns data
            ∨ c ∈ [lit "Classification"; lit "Button"; lit "Year"]
            ∨ ∃ params page table,
                get_html_content base_url params = Ok page
                ∧ find_data_table (parse_html page) = Some table
                ∧ c ∈ strip <$> ths table) as Hcols.
  { intros c [Hc|(f & Hf & Hc)]%foldl_concat_columns; [by left|]. right.
    apply (proj1 (Forall_forall _ _) Hfetch) in Hf as (target & Hf).
    by apply (fetch_columns target f c). }
  split; [exact Hcols|]. intros Hdata Hsite out.
  assert (lit "Ano" ∉ columns (foldl concat data frames)) as Hano.
  { intros [?|[Hadd|(params & page & table & Hpage & Htable & Hth)]]%Hcols; [done| |].
    - repeat (apply elem_of_cons in Hadd as [?|Hadd]; [done|]).
      by apply elem_of_nil in Hadd.
    - by apply (Hsite params page table). }
  split; intros Hout.
  - apply (transform_of_needs_columns Producao Ok) in Hout as (d & -> & Hneed & _).
    apply Hano. cbn [columns] in Hneed. apply Hneed; [|done..]. cbn [colunas].
    repeat constructor.
  - apply (transform_of_needs_columns Comercializacao Ok) in Hout as (d & -> & Hneed & _).
    apply Hano. cbn [columns] in Hneed. apply Hneed; [|done..]. cbn [colunas].
    repeat constructor.
Qed.
End scraped_columns.

Lemma example_pages_headers (params : Params) (page : Soup) (table : Table) :
  example_pages params = Ok page → find_data_table page = Some table →
  lit "Ano" ∉ strip <$> ths table.
Proof.
  unfold example_pages. intros Hpage Htable.
  repeat case_match; try discriminate Hpage; injection Hpage as <-;
    vm_compute in Htable; try discriminate Htable; injection Htable as <-;
    intros Hin; vm_compute in Hin;
    repeat (apply elem_of_cons in Hin as [Heq|Hin]; [discriminate Heq|]);
    by apply elem_of_nil in Hin.
Qed.

Lemma run_scraping_columns_witness :
  (lit "Ano" ∉ columns empty_DataFrame)
  ∧ ∀ out, SiteProducaoScraper.transform_dados example_run ≠ Ok out
           ∧ SiteComercializacaoScraper.transform_dados example_run ≠ Ok out.
Proof.
  split; [intros Hin; by apply elem_of_nil in Hin|].
  refine (proj2 (@run_scraping_columns unidecode_tables example_web
                   (example_scraper [2020; 2022]%Z []) empty_DataFrame example_run _)
            _ _).
  - vm_compute. reflexivity.
  - intros Hin. by apply elem_of_nil in Hin.
  - exact example_pages_headers.
Defined.

(** ** DomainTransformer: the rows of the result *)

Lemma result_bind_assoc {A B C} (m : result A) (f : A → result B) (g : B → result C) :
  (m ≫= f) ≫= g = m ≫= (λ x, f x ≫= g).
Proof. by destruct m. Qed.

(** Each [transform_dados] is its first statements followed by the
    statements all five share. *)
Lemma transform_of_eq `{Transliteration} (kind : Kind)
    (super_transform_dados : DataFrame → result DataFrame) (dados : DataFrame) :
  transform_of kind super_transform_dados dados
  = prepare_dados kind super_transform_dados dados ≫= normalize_and_select kind.
Proof.
  destruct kind; cbn [transform_of prepare_dados].
  - unfold SiteExportacaoScraper.transform_dados, normalize_and_select.
    destruct (super_transform_dados dados) as [d|]; [|reflexivity]. cbn.
    destruct (normalize_columns d) as [d1|]; [|reflexivity]. cbn.
    destruct (remove_separators _ _) as [d3|]; [|reflexivity]. cbn.
    destruct (to_integers _ d3) as [d4|]; [|reflexivity]. cbn.
    destruct (remove_separators _ d4) as [d5|]; [|reflexivity]. cbn.
    destruct (to_integers _ d5) as [d6|]; reflexivity.
  - unfold SiteImportacaoScraper.transform_dados, normalize_and_select.
    destruct (super_transform_dados dados) as [d|]; [|reflexivity]. cbn.
    destruct (normalize_columns d) as [d1|]; [|reflexivity]. cbn.
    destruct (remove_separators _ _) as [d3|]; [|reflexivity]. cbn.
    destruct (to_integers _ d3) as [d4|]; [|reflexivity]. cbn.
    destruct (remove_separators _ d4) as [d5|]; [|reflexivity]. cbn.
    destruct (to_integers _ d5) as [d6|]; reflexivity.
  - unfold SiteProcessamentoScraper.transform_dados.
    rewrite result_bind_assoc. reflexivity.
  - reflexivity.
  - reflexivity.
Qed.

Lemma cell_fmap_normalize_text `{Transliteration} (r : record) (c : pystr) :
  cell (normalize_text <$> r) c = normalize_text (cell r c).
Proof. unfold cell. rewrite lookup_fmap. by destruct (r !! c). Qed.

(** The cells of a row after [rename]. *)
Lemma cell_rename_new (old new : pystr) (r : record) :
  (r !! old = None → r !! new = None) →
  cell (match r !! old with
        | Some v => <[new := v]> (delete old r)
        | None => r
        end) new = cell r old.
Proof.
  intros Hnew. unfold cell at 2. destruct (r !! old) as [v|] eqn:Hold.
  - by rewrite cell_insert_eq.
  - unfold cell. by rewrite Hnew.
Qed.

Lemma cell_rename_other (old new c : pystr) (r : record) :
  c ≠ old → c ≠ new →
  cell (match r !! old with
        | Some v => <[new := v]> (delete old r)
        | None => r
        end) c = cell r c.
Proof.
  intros Hold Hnew. destruct (r !! old); [|done].
  rewrite cell_insert_ne by done. unfold cell. by rewrite lookup_delete_ne.
Qed.

Lemma coerce_all_or_some {A} (g : A → value) (l : list A) :
  Forall (λ r, ∃ z, coerce (g r) = Ok (VInt z)) l
  ∨ Exists (λ r, coerce (g r) = Raise ValueError) l.
Proof.
  induction l as [|r l [IH|IH]]; [by left| |right; by right].
  destruct (coerce_integer_or_raises (g r)) as [Hr|Hr].
  - left. by constructor.
  - right. by left.
Qed.

Lemma Forall2_Exists {A B} (T : A → B → Prop) (P : A → Prop) (Q : B → Prop)
    (l : list A) (k : list B) :
  Forall2 T l k → (∀ x y, T x y → P x → Q y) → Exists P l → Exists Q k.
Proof.
  induction 1 as [|x y l k Hxy _ IH]; intros HPQ Hex; [by apply Exists_nil in Hex|].
  apply Exists_cons in Hex as [Hx|Hex]; [left; eauto|right; eauto].
Qed.

Lemma Forall2_Forall_l' {A B} (T : A → B → Prop) (P : A → Prop) (Q : B → Prop)
    (l : list A) (k : list B) :
  Forall2 T l k → (∀ x y, T x y → P x → Q y) → Forall P l → Forall Q k.
Proof.
  induction 1 as [|x y l k Hxy _ IH]; intros HPQ Hall; [constructor|].
  apply Forall_cons in Hall as [Hx Hall]. constructor; eauto.
Qed.

Lemma Forall2_List_filter {A B} (T : A → B → Prop) (p : A → bool) (q : B → bool)
    (l : list A) (k : list B) :
  Forall2 T l k → (∀ x y, T x y → p x = q y) →
  Forall2 T (List.filter p l) (List.filter q k).
Proof.
  induction 1 as [|x y l k Hxy _ IH]; intros Hpq; [constructor|].
  cbn. rewrite <- (Hpq x y Hxy). destruct (p x); [constructor|]; eauto.
Qed.

Lemma Forall2_fmap_elem {A B} (f : A → B) (l : list A) :
  Forall2 (λ x y, x ∈ l ∧ y = f x) l (f <$> l).
Proof.
  apply Forall2_fmap_r, Forall_Forall2_diag, Forall_forall. by intros x Hx.
Qed.

(** The two statements that coerce a column: they raise when a cell
    holds an infinite number, and otherwise leave an integer in every
    cell of the column. *)
Lemma coerce_column (c : pystr) (df : DataFrame) :
  c ∈ columns df →
  ∃ d, remove_separators c df = Ok d
       ∧ (Exists (λ r, coerce (cell r c) = Raise ValueError) (records df) →
          to_integers c d = Raise ValueError)
       ∧ (Forall (λ r, ∃ z, coerce (cell r c) = Ok (VInt z)) (records df) →
          ∃ df', to_integers c d = Ok df'
                 ∧ columns df' = columns df
                 ∧ Forall2 (λ r r', ∃ z, coerce (cell r c) = Ok (VInt z)
                                         ∧ r' = <[c := VInt z]> r)
                           (records df) (records df')).
Proof.
  intros Hc. unfold remove_separators. rewrite (map_column_in _ c df Hc).
  eexists. split; [reflexivity|]. split.
  - intros (r & Hr & Hinf)%Exists_exists.
    apply (to_integers_non_finite c _ (<[c := str_replace_dot (astype_str (cell r c))]> r));
      [done| |].
    + cbn [records]. apply list_elem_of_fmap. by exists r.
    + rewrite cell_insert_eq. by apply coerce_raises_iff.
  - intros Hall.
    set (f := λ r : record,
           match astype_int (fillna0 (to_numeric (cell r c))) with
           | Ok v => v
           | Raise _ => VNaN
           end).
    rewrite (to_integers_in c _ f); [|done|].
    + eexists. split; [reflexivity|].
      split; [done|]. cbn [records]. rewrite <- list_fmap_compose.
      apply Forall2_fmap_r, Forall_Forall2_diag.
      eapply Forall_impl; [exact Hall|]. intros r [z Hz]. exists z. split; [done|].
      cbn. rewrite insert_insert_eq. f_equal. unfold f.
      rewrite cell_insert_eq. unfold coerce in Hz. by rewrite Hz.
    + intros r' (r & -> & Hr)%list_elem_of_fmap.
      apply (proj1 (Forall_forall _ _) Hall) in Hr as [z Hz].
      unfold f. rewrite cell_insert_eq. unfold coerce in Hz. by rewrite Hz.
Qed.

Lemma Valor_in_colunas (kind : Kind) :
  lit "Valor (US$)" ∈ colunas kind ↔ kind = Exportacao ∨ kind = Importacao.
Proof.
  split.
  - destruct kind; auto; cbn [colunas]; intros Hin;
      repeat (apply elem_of_cons in Hin as [Heq|Hin]; [discriminate Heq|]);
      by apply elem_of_nil in Hin.
  - intros [-> | ->]; cbn [colunas]; repeat constructor.
Qed.

Lemma quantidade_label_fresh (kind : Kind) :
  (quantidade_label kind ∉ colunas kind)
  ∧ quantidade_label kind ≠ lit "Quantidade"
  ∧ quantidade_label kind ≠ lit "Valor (US$)".
Proof.
  split_and!; [|by destruct kind..].
  destruct kind; cbn [colunas quantidade_label]; intros Hin;
    repeat (apply elem_of_cons in Hin as [Heq|Hin]; [discriminate Heq|]);
    by apply elem_of_nil in Hin.
Qed.

(** The mask reads its cells under labels of [colunas] other than the
    two numeric ones. *)
Lemma not_total_ext (kind : Kind) (r1 r2 : record) :
  (∀ c, c ∈ colunas kind → c ≠ lit "Quantidade" → c ≠ lit "Valor (US$)" →
        cell r1 c = cell r2 c) →
  not_total kind r1 = not_total kind r2.
Proof.
  intros Hcells.
  assert (∀ c, c ∈ colunas kind → c ≠ lit "Quantidade" → c ≠ lit "Valor (US$)" →
               bool_decide (cell r1 c ≠ TOTAL) = bool_decide (cell r2 c ≠ TOTAL)) as Hb.
  { intros c ???. by rewrite Hcells. }
  destruct kind; cbn [not_total];
    rewrite ?(Hb Paises), ?(Hb (lit "Cultivar")), ?(Hb Classificacao),
      ?(Hb (lit "Produto")); try done; cbn [colunas]; repeat constructor.
Qed.

(** The rows after the normalisation of the text columns and the
    [rename]: the quantity is under 'Quantidade', the other cells are
    the normalised cells of the row. *)
Lemma renamed_rows `{Transliteration} (kind : Kind) (d0 : DataFrame) :
  well_formed d0 →
  quantidade_label kind ∈ columns d0 →
  lit "Quantidade" ∉ columns d0 →
  Forall2 (λ r r2,
      cell r2 (lit "Quantidade") = normalize_text (cell r (quantidade_label kind))
      ∧ ∀ c, c ∈ columns d0 → c ≠ quantidade_label kind →
             cell r2 c = normalize_text (cell r c))
    (records d0)
    (records (rename (quantidade_label kind) (lit "Quantidade")
                {| columns := columns d0;
                   records := normalize_record (select_dtypes_object d0)
                              <$> records d0 |})).
Proof.
  intros [Hnd Hkeys] HQL HQ.
  cbn [rename records]. rewrite <- list_fmap_compose.
  apply Forall2_fmap_r, Forall_Forall2_diag, Forall_forall. intros r Hr. cbn. split.
  - rewrite cell_rename_new; [by apply normalize_record_columns|].
    intros _. rewrite normalize_record_lookup_notin.
    + by apply (proj1 (Forall_forall _ _) Hkeys r Hr).
    + intros HQcs. by apply HQ, select_dtypes_object_columns.
  - intros c Hc Hne. rewrite cell_rename_other; [|done|].
    + by apply normalize_record_columns.
    + intros ->. done.
Qed.

Lemma renamed_columns `{Transliteration} (kind : Kind) (d0 : DataFrame) (c : pystr) :
  quantidade_label kind ∈ columns d0 →
  c = lit "Quantidade" ∨ (c ∈ columns d0 ∧ c ≠ quantidade_label kind) →
  c ∈ columns (rename (quantidade_label kind) (lit "Quantidade")
                 {| columns := columns d0;
                    records := normalize_record (select_dtypes_object d0)
                               <$> records d0 |}).
Proof.
  cbn [rename columns]. intros HQL [-> | [Hc Hne]]; apply list_elem_of_fmap.
  - exists (quantidade_label kind). by rewrite bool_decide_eq_true_2.
  - exists c. by rewrite bool_decide_eq_false_2.
Qed.

Lemma coerce_not_raise (v : value) :
  coerce v ≠ Raise ValueError ↔ ∃ z, coerce v = Ok (VInt z).
Proof.
  destruct (coerce_integer_or_raises v) as [[z Hz]|Hz]; rewrite Hz; split; try done.
  - intros _. by exists z.
  - by intros [z' ?].
Qed.

(** What the shared statements do with a well-formed frame that has
    the expected columns. *)
Lemma normalize_and_select_rows `{Transliteration} (kind : Kind) (d0 : DataFrame) :
  well_formed d0 →
  (∀ c, c ∈ colunas kind → c ≠ lit "Quantidade" → c ∈ columns d0) →
  quantidade_label kind ∈ columns d0 →
  lit "Quantidade" ∉ columns d0 →
  (Exists (λ r,
       coerce (normalize_text (cell r (quantidade_label kind))) = Raise ValueError
       ∨ (lit "Valor (US$)" ∈ colunas kind
          ∧ coerce (normalize_text (cell r (lit "Valor (US$)"))) = Raise ValueError))
     (records d0) →
   normalize_and_select kind d0 = Raise ValueError)
  ∧ (Forall (λ r,
         coerce (normalize_text (cell r (quantidade_label kind))) ≠ Raise ValueError
         ∧ (lit "Valor (US$)" ∈ colunas kind →
            coerce (normalize_text (cell r (lit "Valor (US$)"))) ≠ Raise ValueError))
       (records d0) →
     ∃ out, normalize_and_select kind d0 = Ok out
       ∧ columns out = colunas kind
       ∧ Forall2 (λ r r',
             (∀ c, c ∈ colunas kind → c ≠ lit "Quantidade" → c ≠ lit "Valor (US$)" →
                   cell r' c = normalize_text (cell r c))
             ∧ coerce (normalize_text (cell r (quantidade_label kind)))
               = Ok (cell r' (lit "Quantidade"))
             ∧ (lit "Valor (US$)" ∈ colunas kind →
                coerce (normalize_text (cell r (lit "Valor (US$)")))
                = Ok (cell r' (lit "Valor (US$)"))))
           (List.filter (λ r, not_total kind (normalize_text <$> r)) (records d0))
           (records out)).
Proof.
  intros Hwf Hcols HQL HQ.
  destruct (quantidade_label_fresh kind) as (HQLcols & HQLQ & HQLV).
  pose proof (renamed_rows kind d0 Hwf HQL HQ) as T02.
  set (d2 := rename (quantidade_label kind) (lit "Quantidade")
               {| columns := columns d0;
                  records := normalize_record (select_dtypes_object d0)
                             <$> records d0 |}) in T02.
  assert (lit "Quantidade" ∈ columns d2) as HQ2 by (apply renamed_columns; auto).
  assert (colunas kind ⊆ columns d2) as Hsub.
  { intros c Hc. apply renamed_columns; [done|].
    destruct (decide (c = lit "Quantidade")) as [->|Hne]; [by left|right].
    split; [by apply Hcols|]. intros ->. done. }
  destruct (coerce_column (lit "Quantidade") d2 HQ2) as (d3 & H3 & HerrQ & HokQ).
  assert (normalize_and_select kind d0
          = to_integers (lit "Quantidade") d3 ≫= λ d4,
            match kind with
            | Exportacao | Importacao =>
                remove_separators (lit "Valor (US$)") d4
                ≫= to_integers (lit "Valor (US$)")
            | _ => Ok d4
            end ≫= λ d6,
            select_columns (colunas kind) d6 ≫= λ d7,
            Ok (loc (not_total kind) d7)) as Hrun.
  { unfold normalize_and_select. rewrite normalize_columns_eq.
    cbn [mbind result_bind]. fold d2. by rewrite H3. }
  rewrite Hrun. clear Hrun.
  destruct (coerce_all_or_some
              (λ r : record, normalize_text (cell r (quantidade_label kind)))
              (records d0)) as [HallQ|HexQ]; cycle 1.
  { (* a quantity that is not finite *)
    rewrite HerrQ.
    - split; [done|]. intros Hall.
      apply Exists_exists in HexQ as (r & Hr & Hinf).
      by apply (proj1 (Forall_forall _ _) Hall) in Hr as [? _].
    - eapply Forall2_Exists; [exact T02| |exact HexQ].
      intros r r2 [HrQ _] Hinf. cbv beta. by rewrite HrQ. }
  destruct HokQ as (d4 & H4 & Hc4 & T24).
  { eapply Forall2_Forall_l'; [exact T02| |exact HallQ].
    intros r r2 [HrQ _] Hz. cbv beta. by rewrite HrQ. }
  rewrite H4. cbn [mbind result_bind].
  assert (Forall2 (λ r r4,
              coerce (normalize_text (cell r (quantidade_label kind)))
              = Ok (cell r4 (lit "Quantidade"))
              ∧ ∀ c, c ∈ columns d0 → c ≠ quantidade_label kind →
                     cell r4 c = normalize_text (cell r c))
            (records d0) (records d4)) as T04.
  { eapply Forall2_trans; [|exact T02|exact T24].
    intros r r2 r4 [HrQ Hrc] (z & Hz & ->). rewrite cell_insert_eq. split.
    - by rewrite <- HrQ.
    - intros c Hc Hne. rewrite cell_insert_ne; [by apply Hrc|].
      intros <-. done. }
  clear T02 T24 HerrQ H3 H4.
  assert (∀ d6, columns d6 = columns d2 →
            Forall2 (λ r r6,
                (∀ c, c ∈ colunas kind → c ≠ lit "Quantidade" →
                      c ≠ lit "Valor (US$)" → cell r6 c = normalize_text (cell r c))
                ∧ coerce (normalize_text (cell r (quantidade_label kind)))
                  = Ok (cell r6 (lit "Quantidade"))
                ∧ (lit "Valor (US$)" ∈ colunas kind →
                   coerce (normalize_text (cell r (lit "Valor (US$)")))
                   = Ok (cell r6 (lit "Valor (US$)"))))
              (records d0) (records d6) →
            ∃ out, (select_columns (colunas kind) d6 ≫= λ d7,
                    Ok (loc (not_total kind) d7)) = Ok out
              ∧ columns out = colunas kind
              ∧ Forall2 (λ r r',
                    (∀ c, c ∈ colunas kind → c ≠ lit "Quantidade" →
                          c ≠ lit "Valor (US$)" → cell r' c = normalize_text (cell r c))
                    ∧ coerce (normalize_text (cell r (quantidade_label kind)))
                      = Ok (cell r' (lit "Quantidade"))
                    ∧ (lit "Valor (US$)" ∈ colunas kind →
                       coerce (normalize_text (cell r (lit "Valor (US$)")))
                       = Ok (cell r' (lit "Valor (US$)"))))
                  (List.filter (λ r, not_total kind (normalize_text <$> r)) (records d0))
                  (records out)) as Hlast.
  { intros d6 Hc6 T06. unfold select_columns.
    rewrite bool_decide_eq_true_2 by (by rewrite Hc6).
    cbn [mbind result_bind]. eexists. split; [reflexivity|]. split; [done|].
    cbn [loc records]. apply Forall2_List_filter.
    - apply Forall2_fmap_r. eapply Forall2_impl; [exact T06|].
      intros r r6 (Hc & HrQ & HrV). cbn. split_and!.
      + intros c Hin ??. rewrite cell_select by done. by apply Hc.
      + rewrite cell_select by apply Quantidade_in_colunas. done.
      + intros HV. rewrite cell_select by done. by apply HrV.
    - intros r r7 (Hc & _ & _). apply not_total_ext.
      intros c Hin ??. rewrite cell_fmap_normalize_text. symmetry. by apply Hc. }
  assert (∀ X : result DataFrame,
            match kind with Exportacao | Importacao => X | _ => Ok d4 end
            = if decide (lit "Valor (US$)" ∈ colunas kind) then X else Ok d4) as ->.
  { intros X. destruct (decide _) as [HV|HV].
    - by apply Valor_in_colunas in HV as [-> | ->].
    - destruct kind; try done; destruct HV; apply Valor_in_colunas; auto. }
  destruct (decide (lit "Valor (US$)" ∈ colunas kind)) as [HV|HV]; cycle 1.
  { (* no column of values *)
    cbn [mbind result_bind]. split.
    - intros (r & Hr & [Hinf|[? _]])%Exists_exists; [|done].
      apply (proj1 (Forall_forall _ _) HallQ) in Hr as [z Hz]. congruence.
    - intros _. apply Hlast; [done|].
      eapply Forall2_impl; [exact T04|]. intros r r4 [HrQ Hc]. split_and!; [|done..].
      intros c Hin Hne _. apply Hc; [by apply Hcols|]. intros ->. done. }
  assert (lit "Valor (US$)" ∈ columns d0) as HV0 by (by apply Hcols).
  assert (lit "Valor (US$)" ∈ columns d4) as HV4.
  { rewrite Hc4. apply renamed_columns; [done|]. right. split; [done|].
    intros Heq. by apply HQLV. }
  destruct (coerce_column (lit "Valor (US$)") d4 HV4) as (d5 & H5 & HerrV & HokV).
  rewrite H5. cbn [mbind result_bind].
  destruct (coerce_all_or_some
              (λ r : record, normalize_text (cell r (lit "Valor (US$)")))
              (records d0)) as [HallV|HexV]; cycle 1.
  { (* a value that is not finite *)
    rewrite HerrV.
    - split; [done|]. intros Hall.
      apply Exists_exists in HexV as (r & Hr & Hinf).
      apply (proj1 (Forall_forall _ _) Hall) in Hr as [_ Hr]. by destruct (Hr HV).
    - eapply Forall2_Exists; [exact T04| |exact HexV].
      intros r r4 [_ Hc] Hinf. cbv beta. rewrite Hc; [done|done|].
      intros Heq. by apply HQLV. }
  destruct HokV as (d6 & H6 & Hc6 & T46).
  { eapply Forall2_Forall_l'; [exact T04| |exact HallV].
    intros r r4 [_ Hc] Hz. cbv beta. rewrite Hc; [done|done|].
    intros Heq. by apply HQLV. }
  rewrite H6. cbn [mbind result_bind]. split.
  - intros (r & Hr & [Hinf|[_ Hinf]])%Exists_exists.
    + apply (proj1 (Forall_forall _ _) HallQ) in Hr as [z Hz]. congruence.
    + apply (proj1 (Forall_forall _ _) HallV) in Hr as [z Hz]. congruence.
  - intros _. apply Hlast; [congruence|].
    eapply Forall2_trans; [|exact T04|exact T46].
    intros r r4 r6 [HrQ Hc] (z & Hz & ->). split_and!.
    + intros c Hin HneQ HneV. rewrite cell_insert_ne by done.
      apply Hc; [by apply Hcols|]. intros ->. done.
    + rewrite cell_insert_ne by done. exact HrQ.
    + intros _. rewrite cell_insert_eq. rewrite <- Hz. f_equal. f_equal.
      symmetry. apply Hc; [done|]. intros Heq. by apply HQLV.
Qed.

Lemma well_formed_check (df : DataFrame) :
  NoDup (columns df) →
  Forall (λ r : record, Forall (λ kv, kv.1 ∈ columns df) (map_to_list r)) (records df) →
  well_formed df.
Proof.
  intros Hnd Hkeys. split; [done|].
  eapply Forall_impl; [exact Hkeys|]. intros r Hr c Hc.
  destruct (r !! c) as [v|] eqn:Hv; [|done].
  apply elem_of_map_to_list in Hv.
  by apply (proj1 (Forall_forall _ _) Hr) in Hv.
Qed.

Lemma digits_letter (acc : Z) (c : N) (l : pystr) :
  65 ≤ c → digits acc (c :: l) = None.
Proof.
  intros Hc. cbn [digits]. unfold digit.
  rewrite (proj2 (andb_false_iff _ _)); [done|]. right. apply N.leb_gt. lia.
Qed.

Lemma lower_char_letter (c : N) : 97 ≤ lower_char c → 65 ≤ c.
Proof.
  unfold lower_char. destruct ((65 <=? c) && (c <=? 90)) eqn:Hc; [|lia].
  apply andb_true_iff in Hc as [Hc _]. apply N.leb_le in Hc. lia.
Qed.

(** A text that spells infinity is no integer literal. *)
Lemma spells_infinity_parse_int (s : pystr) :
  spells_infinity s = true → parse_int s = None.
Proof.
  unfold spells_infinity.
  set (body := match s with
               | c :: s' => if (c =? 43) || (c =? 45) then s' else s
               | [] => []
               end).
  intros Hname.
  assert (body ≠ [] ∧ Forall (λ c, 65 ≤ c) body) as [Hne Hletters].
  { assert (lower_char <$> body ≠ [] ∧ Forall (λ c, 97 ≤ c) (lower_char <$> body))
      as [Hne Hall].
    { apply orb_true_iff in Hname as [->%bool_decide_eq_true| ->%bool_decide_eq_true];
        (split; [done|]); repeat constructor; by apply N.leb_le. }
    split; [by intros ->|].
    rewrite Forall_fmap in Hall. eapply Forall_impl; [exact Hall|].
    intros c. apply lower_char_letter. }
  assert (∀ c, 65 ≤ c → isblank c = false) as Hblank.
  { intros c Hc. unfold isblank. apply orb_false_intro; [|apply N.eqb_neq; lia].
    apply andb_false_iff. right. apply N.leb_gt. lia. }
  destruct s as [|c s']; [done|]. unfold parse_int.
  destruct ((c =? 43) || (c =? 45)) eqn:Hsign; subst body.
  - rewrite strip_of_false.
    + destruct s' as [|x s']; [done|]. apply Forall_cons in Hletters as [Hx _].
      apply orb_true_iff in Hsign as [->%N.eqb_eq| ->%N.eqb_eq]; cbn [N.eqb Pos.eqb];
        by rewrite digits_letter.
    + constructor.
      * by apply orb_true_iff in Hsign as [->%N.eqb_eq| ->%N.eqb_eq].
      * eapply Forall_impl; [exact Hletters|]. exact Hblank.
  - rewrite strip_of_false
      by (eapply Forall_impl; [exact Hletters|]; exact Hblank).
    apply Forall_cons in Hletters as [Hc _].
    apply orb_false_iff in Hsign as [H43 H45]. rewrite H45, H43.
    by apply digits_letter.
Qed.

Lemma integer_text_coerce `{Transliteration} (v : value) (z : Z) :
  integer_text v z → coerce (normalize_text v) = Ok (VInt z).
Proof. intros (s & -> & Hz & _). by apply coerce_integer_literal. Qed.

Lemma infinite_text_coerce `{Transliteration} (v : value) :
  infinite_text v → coerce (normalize_text v) = Raise ValueError.
Proof.
  intros (s & -> & Hinf). apply coerce_raises_iff.
  cbn [astype_str str_replace_dot]. unfold to_numeric.
  by rewrite (spells_infinity_parse_int _ Hinf), Hinf.
Qed.

Lemma Forall2_and_Forall_l {A B} (R : A → B → Prop) (P : A → Prop)
    (l : list A) (k : list B) :
  Forall2 R l k → Forall P l → Forall2 (λ x y, R x y ∧ P x) l k.
Proof.
  induction 1 as [|x y l k Hxy _ IH]; intros Hall; [constructor|].
  apply Forall_cons in Hall as [Hx Hall]. constructor; auto.
Qed.

Lemma Forall_List_filter {A} (P : A → Prop) (p : A → bool) (l : list A) :
  Forall P l → Forall P (List.filter p l).
Proof.
  induction 1 as [|x l Hx _ IH]; [constructor|].
  cbn. destruct (p x); [constructor|]; done.
Qed.

(** X16.  What a [transform_dados] computes on the columns the site
    gives: a well-formed frame that has the labels of [colunas] and the
    quantity under the label the kind renames (the frame the base class
    and the first statements leave, for the kinds that have them).  If
    the quantity of some row (or its value, for exports and imports) is
    a text that spells infinity once normalised and without its
    separators, [ValueError] is raised.  If in every row it is a text
    that is then an integer literal of the 64-bit range, the result has,
    in the order of the frame, one row for each row that is not a total
    after the normalisation: its cells are the normalised cells of the
    row, and its quantity (and value) the integer of the literal. *)
Theorem transform_dados_rows `{Transliteration} (kind : Kind)
    (super_transform_dados : DataFrame → result DataFrame)
    (dados d0 : DataFrame) :
  prepare_dados kind super_transform_dados dados = Ok d0 →
  well_formed d0 →
  (∀ c, c ∈ colunas kind → c ≠ lit "Quantidade" → c ∈ columns d0) →
  quantidade_label kind ∈ columns d0 →
  lit "Quantidade" ∉ columns d0 →
  (Exists (λ r,
       infinite_text (cell r (quantidade_label kind))
       ∨ (lit "Valor (US$)" ∈ colunas kind
          ∧ infinite_text (cell r (lit "Valor (US$)"))))
     (records d0) →
   transform_of kind super_transform_dados dados = Raise ValueError)
  ∧ (Forall (λ r,
         (∃ z, integer_text (cell r (quantidade_label kind)) z)
         ∧ (lit "Valor (US$)" ∈ colunas kind →
            ∃ z, integer_text (cell r (lit "Valor (US$)")) z))
       (records d0) →
     ∃ out, transform_of kind super_transform_dados dados = Ok out
       ∧ columns out = colunas kind
       ∧ Forall2 (λ r r',
             (∀ c, c ∈ colunas kind → c ≠ lit "Quantidade" → c ≠ lit "Valor (US$)" →
                   cell r' c = normalize_text (cell r c))
             ∧ (∃ z, integer_text (cell r (quantidade_label kind)) z
                     ∧ cell r' (lit "Quantidade") = VInt z)
             ∧ (lit "Valor (US$)" ∈ colunas kind →
                ∃ z, integer_text (cell r (lit "Valor (US$)")) z
                     ∧ cell r' (lit "Valor (US$)") = VInt z))
           (List.filter (λ r, not_total kind (normalize_text <$> r)) (records d0))
           (records out)).
Proof.
  intros Hprep Hwf Hcols HQL HQ. rewrite transform_of_eq, Hprep.
  cbn [mbind result_bind].
  destruct (normalize_and_select_rows kind d0 Hwf Hcols HQL HQ) as [Herr Hok].
  split.
  - intros Hex. apply Herr. eapply Exists_impl; [exact Hex|].
    intros r [Hinf|[HV Hinf]]; [left|right; split; [done|]];
      by apply infinite_text_coerce.
  - intros Hall. destruct Hok as (out & Hout & Hcolumns & Hrows).
    { eapply Forall_impl; [exact Hall|]. intros r [[z Hz] HV]. split.
      - by rewrite (integer_text_coerce _ _ Hz).
      - intros Hin. destruct (HV Hin) as [z' Hz'].
        by rewrite (integer_text_coerce _ _ Hz'). }
    exists out. split_and!; [done..|].
    eapply Forall2_impl;
      [exact (Forall2_and_Forall_l _ _ _ _ Hrows (Forall_List_filter _ _ _ Hall))|].
    intros r r' [(Hc & HrQ & HrV) [[z Hz] HV]]. split_and!; [done| |].
    + exists z. split; [done|].
      rewrite (integer_text_coerce _ _ Hz) in HrQ. by injection HrQ as <-.
    + intros Hin. destruct (HV Hin) as [z' Hz']. exists z'. split; [done|].
      specialize (HrV Hin). rewrite (integer_text_coerce _ _ Hz') in HrV.
      by injection HrV as <-.
Qed.

Lemma transform_dados_rows_witness :
  ∃ out, transform_of Producao Ok producao_dados = Ok out
    ∧ columns out = colunas Producao
    ∧ Forall2 (λ r r',
          (∀ c, c ∈ colunas Producao → c ≠ lit "Quantidade" → c ≠ lit "Valor (US$)" →
                cell r' c = normalize_text (cell r c))
          ∧ (∃ z, integer_text (cell r (quantidade_label Producao)) z
                  ∧ cell r' (lit "Quantidade") = VInt z)
          ∧ (lit "Valor (US$)" ∈ colunas Producao →
             ∃ z, integer_text (cell r (lit "Valor (US$)")) z
                  ∧ cell r' (lit "Valor (US$)") = VInt z))
        (List.filter (λ r, not_total Producao (normalize_text <$> r))
           (records producao_dados))
        (records out).
Proof.
  refine (proj2 (transform_dados_rows Producao Ok producao_dados producao_dados
                   eq_refl _ _ _ _) _).
  - apply well_formed_check; apply (bool_decide_unpack _); vm_compute; exact I.
  - intros c Hc Hne. apply (bool_decide_unpack _).
    repeat (apply elem_of_cons in Hc as [->|Hc]; [try done; vm_compute; exact I|]).
    by apply elem_of_nil in Hc.
  - apply (bool_decide_unpack _). vm_compute. exact I.
  - apply (bool_decide_unpack _). vm_compute. exact I.
  - repeat constructor;
      try (intros [Heq|Heq]%Valor_in_colunas; discriminate Heq);
      eexists; eexists; (split; [vm_compute; reflexivity|]);
      (split; [vm_compute; reflexivity|lia]).
Defined.

(** ** DomainTransformer: the 'Cultivar' column of the processing data *)

Lemma well_formed_copy_column (src dst : pystr) (df : DataFrame) :
  dst ∉ columns df → well_formed df → well_formed (copy_column src dst df).
Proof.
  intros Hdst [Hnd Hkeys]. split; cbn [copy_column columns records].
  - apply NoDup_app. split_and!; [done| |apply NoDup_singleton].
    intros c Hc ->%list_elem_of_singleton. done.
  - apply Forall_fmap. eapply Forall_impl; [exact Hkeys|].
    intros r Hr c [Hc Hne%not_elem_of_cons]%not_elem_of_app. cbn.
    rewrite lookup_insert_ne by (intros <-; by destruct Hne). by apply Hr.
Qed.

Lemma well_formed_fill_missing (src dst : pystr) (df : DataFrame) :
  dst ∈ columns df → well_formed df → well_formed (fill_missing src dst df).
Proof.
  intros Hdst [Hnd Hkeys]. split; cbn [fill_missing columns records]; [done|].
  apply Forall_fmap. eapply Forall_impl; [exact Hkeys|].
  intros r Hr c Hc. cbn. destruct (_ && _); [|by apply Hr].
  rewrite lookup_insert_ne by (intros <-; done). by apply Hr.
Qed.

Lemma well_formed_drop (c : pystr) (df : DataFrame) :
  well_formed df →
  well_formed {| columns := filter (λ c', c' ≠ c) (columns df);
                 records := delete c <$> records df |}.
Proof.
  intros [Hnd Hkeys]. split; cbn [columns records]; [by apply NoDup_filter|].
  apply Forall_fmap. eapply Forall_impl; [exact Hkeys|].
  intros r Hr c' Hc'. cbn. destruct (decide (c' = c)) as [->|Hne].
  - apply lookup_delete_eq.
  - rewrite lookup_delete_ne by done. apply Hr. intros Hin. apply Hc'.
    by apply list_elem_of_filter.
Qed.

(** One row of [df.loc[mask, dst] = df.loc[mask, src]]. *)
Lemma fill_missing_row (src dst : pystr) (r : record) :
  src ≠ dst →
  cell (if bool_decide (cell r src ≠ VNaN) && bool_decide (cell r dst = VNaN)
        then <[dst := cell r src]> r else r) dst
  = (if bool_decide (cell r dst = VNaN) then cell r src else cell r dst)
  ∧ ∀ c, c ≠ dst →
         (if bool_decide (cell r src ≠ VNaN) && bool_decide (cell r dst = VNaN)
          then <[dst := cell r src]> r else r) !! c = r !! c.
Proof.
  intros Hne. split.
  - case_bool_decide as Hsrc; case_bool_decide as Hdst; cbn [andb];
      rewrite ?cell_insert_eq; try done.
    congruence.
  - intros c Hc. destruct (_ && _); [|done]. by rewrite lookup_insert_ne.
Qed.

(** X17.  The first statements of the processing transformation never
    raise.  They leave a frame without the column 'Sem definição', with
    a column 'Cultivar' whenever the frame had one or had
    'Classificação', and with every other column as it was.  The
    cultivar of a row is its own, or its classification when the frame
    had no 'Cultivar'; where that is missing and the frame had
    'Sem definição', it is the cell of 'Sem definição'. *)
Theorem fill_cultivar_rows (d : DataFrame) :
  ∃ d0, fill_cultivar d = Ok d0
    ∧ (Sem_definicao ∉ columns d0)
    ∧ (∀ c, c ≠ lit "Cultivar" → c ≠ Sem_definicao →
            (c ∈ columns d0 ↔ c ∈ columns d))
    ∧ (lit "Cultivar" ∈ columns d0
       ↔ lit "Cultivar" ∈ columns d ∨ Classificacao ∈ columns d)
    ∧ (well_formed d → well_formed d0)
    ∧ Forall2 (λ r r0,
          (∀ c, c ≠ lit "Cultivar" → c ≠ Sem_definicao → r0 !! c = r !! c)
          ∧ (lit "Cultivar" ∈ columns d ∨ Classificacao ∈ columns d →
             cell r0 (lit "Cultivar")
             = if bool_decide (Sem_definicao ∈ columns d)
                  && bool_decide
                       ((if bool_decide (lit "Cultivar" ∈ columns d)
                         then cell r (lit "Cultivar") else cell r Classificacao)
                        = VNaN)
               then cell r Sem_definicao
               else if bool_decide (lit "Cultivar" ∈ columns d)
                    then cell r (lit "Cultivar") else cell r Classificacao))
        (records d) (records d0).
Proof.
  assert (Sem_definicao ≠ lit "Cultivar") as Hsc by done.
  unfold fill_cultivar.
  set (d' := if bool_decide (lit "Cultivar" ∉ columns d)
                && bool_decide (Classificacao ∈ columns d)
             then copy_column Classificacao (lit "Cultivar") d else d).
  assert ((∀ c, c ≠ lit "Cultivar" → (c ∈ columns d' ↔ c ∈ columns d))
          ∧ (lit "Cultivar" ∈ columns d'
             ↔ lit "Cultivar" ∈ columns d ∨ Classificacao ∈ columns d)
          ∧ (well_formed d → well_formed d')
          ∧ Forall2 (λ r r',
                (∀ c, c ≠ lit "Cultivar" → r' !! c = r !! c)
                ∧ (lit "Cultivar" ∈ columns d ∨ Classificacao ∈ columns d →
                   cell r' (lit "Cultivar")
                   = if bool_decide (lit "Cultivar" ∈ columns d)
                     then cell r (lit "Cultivar") else cell r Classificacao))
              (records d) (records d')) as (Hc1 & Hcu1 & Hwf1 & Hrows1).
  { subst d'. case_bool_decide as Hcu; case_bool_decide as Hcl; cbn [andb].
    - (* the column is copied *)
      split_and!.
      + intros c Hne. cbn [copy_column columns]. rewrite elem_of_app, list_elem_of_singleton.
        tauto.
      + cbn [copy_column columns]. rewrite elem_of_app, list_elem_of_singleton.
        tauto.
      + by apply well_formed_copy_column.
      + cbn [copy_column records]. apply Forall2_fmap_r, Forall_Forall2_diag, Forall_forall.
        intros r _. cbn. split.
        * intros c Hne. by rewrite lookup_insert_ne.
        * intros _. rewrite cell_insert_eq. by rewrite bool_decide_eq_false_2.
    - split_and!; [done|tauto|done|].
      apply Forall_Forall2_diag, Forall_forall. intros r _. split; [done|].
      intros [?|?]; done.
    - split_and!; [done|tauto|done|].
      apply Forall_Forall2_diag, Forall_forall. intros r _. split; [done|].
      intros _. by rewrite bool_decide_eq_true_2.
    - split_and!; [done|tauto|done|].
      apply Forall_Forall2_diag, Forall_forall. intros r _. split; [done|].
      intros _. by rewrite bool_decide_eq_true_2. }
  clearbody d'.
  assert (Sem_definicao ∈ columns d' ↔ Sem_definicao ∈ columns d) as Hs1 by (by apply Hc1).
  destruct (bool_decide (Sem_definicao ∈ columns d')) eqn:Hs;
    [apply bool_decide_eq_true in Hs|apply bool_decide_eq_false in Hs]; cycle 1.
  { (* no column 'Sem definição' *)
    exists d'. split_and!; [done|done| |done|done|].
    - intros c Hne _. by apply Hc1.
    - eapply Forall2_impl; [exact Hrows1|]. intros r r' [Hother Hcu]. split.
      + intros c Hne _. by apply Hother.
      + intros Hin. rewrite bool_decide_eq_false_2 by (by rewrite <- Hs1).
        by apply Hcu. }
  set (d'' := if bool_decide (lit "Cultivar" ∈ columns d')
              then fill_missing Sem_definicao (lit "Cultivar") d' else d').
  assert (columns d'' = columns d'
          ∧ (well_formed d' → well_formed d'')
          ∧ Forall2 (λ r' r'',
                (∀ c, c ≠ lit "Cultivar" → r'' !! c = r' !! c)
                ∧ (lit "Cultivar" ∈ columns d' →
                   cell r'' (lit "Cultivar")
                   = if bool_decide (cell r' (lit "Cultivar") = VNaN)
                     then cell r' Sem_definicao else cell r' (lit "Cultivar")))
              (records d') (records d'')) as (Hc2 & Hwf2 & Hrows2).
  { subst d''. destruct (bool_decide (lit "Cultivar" ∈ columns d')) eqn:Hcu;
      [apply bool_decide_eq_true in Hcu|apply bool_decide_eq_false in Hcu].
    - split_and!; [done|by apply well_formed_fill_missing|].
      cbn [fill_missing records]. apply Forall2_fmap_r, Forall_Forall2_diag, Forall_forall.
      intros r' _. cbn.
      destruct (fill_missing_row Sem_definicao (lit "Cultivar") r' Hsc) as [Hfill Hother].
      split; [exact Hother|]. intros _. exact Hfill.
    - split_and!; [done|done|].
      apply Forall_Forall2_diag, Forall_forall. intros r' _. split; [done|]. done. }
  clearbody d''. unfold drop_column.
  rewrite bool_decide_eq_true_2 by (by rewrite Hc2).
  eexists. split; [reflexivity|]. cbn [columns records]. split_and!.
  - intros [Hne _]%list_elem_of_filter. done.
  - intros c Hcu Hsem. rewrite list_elem_of_filter, Hc2, Hc1 by done. tauto.
  - rewrite list_elem_of_filter, Hc2, Hcu1. split; [tauto|]. intros Hin. split; [|done]. intros Heq. by apply Hsc.
  - intros Hwf. by apply well_formed_drop, Hwf2, Hwf1.
  - apply Forall2_fmap_r. eapply Forall2_trans; [|exact Hrows1|exact Hrows2].
    intros r r' r'' [Hother1 Hcu1'] [Hother2 Hcu2']. cbn. split.
    + intros c Hcu Hsem. rewrite lookup_delete_ne by done.
      rewrite Hother2 by done. by apply Hother1.
    + intros Hin. unfold cell at 1. rewrite lookup_delete_ne by done.
      fold (cell r'' (lit "Cultivar")).
      rewrite Hcu2' by (by apply Hcu1). rewrite Hcu1' by done.
      rewrite (bool_decide_eq_true_2 (Sem_definicao ∈ columns d)) by (by apply Hs1).
      cbn [andb].
      assert (cell r' Sem_definicao = cell r Sem_definicao) as ->; [|done].
      unfold cell. by rewrite Hother1.
Qed.
